(** * vscode-azurestorage: the AzCopy transfer utilities

    A shallow embedding of [src/utils/azCopyUtils.ts] (the blob and file-share
    version) and of its older blob-only sibling, which has the same function
    names and imports the engine client from [se-az-copy].

    - Location descriptors are records; the constructor functions are pure.
    - The asynchronous functions ([startAndWaitForCopy], [azCopyTransfer],
      [validateAzCopyInstalled]) run in a small monad that threads the log of
      calls made to the outside world and may throw. *)

From Stdlib Require Import String Ascii List ZArith Lia Bool Arith.
Import ListNotations.

Local Open Scope string_scope.

(* ------------------------------------------------------------------ *)
(** ** The JavaScript primitives the code relies on *)

Module Js.

(** [String.prototype.endsWith(searchString)]: with [start = len(s) -
    len(searchString)], false when [start < 0], otherwise whether the code
    units of [s] from [start] on are those of [searchString]. *)
Definition endsWith (s searchString : string) : bool :=
  let searchLength := String.length searchString in
  let len := String.length s in
  (searchLength <=? len)%nat
  && (substring (len - searchLength) searchLength s =? searchString).

(** [s[0] === c] for a one-character literal [c]: [s[0]] is [undefined] on
    the empty string, which is not [===] to any string. *)
Definition firstCharIs (s : string) (c : ascii) : bool :=
  match String.get 0 s with
  | Some a => Ascii.eqb a c
  | None => false
  end.

(** [v || 0] on an optional number: [undefined] and [0] are falsy. *)
Definition orZero (v : option Z) : Z :=
  match v with
  | Some n => if (n =? 0)%Z then 0%Z else n
  | None => 0%Z
  end.

(** Truthiness of an optional string: [undefined] and [''] are falsy. *)
Definition truthyString (v : option string) : bool :=
  match v with
  | Some s => negb (s =? EmptyString)
  | None => false
  end.

End Js.

(* ------------------------------------------------------------------ *)
(** ** Location descriptors *)

(** [path.sep] depends on the platform the extension host runs on. *)
Inductive Platform := Posix | Win32.

Definition sep (p : Platform) : string :=
  match p with
  | Posix => "/"
  | Win32 => "\"
  end.

(** [ILocalLocation] of the engine client. *)
Record ILocalLocation := {
  l_type : string;
  l_path : string;
  l_useWildCard : bool
}.

(** [IRemoteSasLocation] of the engine client. *)
Record IRemoteSasLocation := {
  r_type : string;
  r_sasToken : string;
  r_resourceUri : string;
  r_path : string;
  r_useWildCard : bool
}.

(** [AzCopyLocation = ILocalLocation | IRemoteSasLocation]. *)
Inductive AzCopyLocation :=
| LocalLocation (l : ILocalLocation)
| RemoteSasLocation (r : IRemoteSasLocation).

Definition useWildCard (loc : AzCopyLocation) : bool :=
  match loc with
  | LocalLocation l => l_useWildCard l
  | RemoteSasLocation r => r_useWildCard r
  end.

(** [IStorageRoot], as far as the descriptors use it: the SAS token it
    generates and the URLs of the container and share clients made from it
    ([createBlobContainerClient(root, name).url],
    [createShareClient(root, name).url]). *)
Record IStorageRoot := {
  generateSasToken : string;
  containerClientUrl : string -> string;
  shareClientUrl : string -> string
}.

(** [BlobContainerTreeItem | FileShareTreeItem]; [instanceof] is the match. *)
Inductive DestTreeItem :=
| BlobContainerTreeItem (root : IStorageRoot) (containerName : string)
| FileShareTreeItem (root : IStorageRoot) (shareName : string).

Definition treeItemRoot (t : DestTreeItem) : IStorageRoot :=
  match t with
  | BlobContainerTreeItem root _ => root
  | FileShareTreeItem root _ => root
  end.

(* ------------------------------------------------------------------ *)
(** ** The outside world *)

(** A thrown value: [new Error(message)] and the errors of the collaborators
    (the user-cancelled error of the cancellation source, a failed prompt). *)
Record Thrown := {
  errName : string;
  errMessage : string
}.

Definition newError (message : string) : Thrown :=
  {| errName := "Error"; errMessage := message |}.

(** [TransferStatus] of the engine client, with the fields the code reads.
    Every field but the discriminator may be missing on a given status. *)
Record TransferStatus := {
  StatusType : string;
  JobStatus : option string;
  ErrorMsg : option string;
  TransfersCompleted : option Z;
  BytesOverWire : option Z
}.

(** What [getJobInfo] resolves with. *)
Record JobInfo := {
  latestStatus : option TransferStatus
}.

Record ICopyOptions := {
  fromTo : string;
  overwriteExisting : string;
  recursive : bool;
  followSymLinks : bool;
  excludePath : option string
}.

Record AzCopyExes := {
  AzCopyExe : string;
  AzCopyExe64 : string;
  AzCopyExe32 : string
}.

(** The notification sink, [vscode.Progress]: only its identity matters. *)
Inductive Progress := ProgressSink (id : nat).

Record MessageItem := {
  title : string
}.

(** Every call that leaves the module, in the order it is made. *)
Inductive Event :=
| EvExecuteCommand (command arg : string)
| EvShowWarningMessage (message : string) (modal : bool)
| EvOpenUrl (url : string)
| EvSetAzCopyExes (exes : AzCopyExes)
| EvCopy (src dst : AzCopyLocation) (options : ICopyOptions)
| EvThrowIfCanceled
| EvGetJobInfo (jobId : string)
| EvReportToOutputWindow (finishedWork : Z)
| EvReportToNotification (finishedWork : Z) (sink : Progress)
| EvSetTimeout (ms : Z).

Definition isCopy (e : Event) : bool :=
  match e with EvCopy _ _ _ => true | _ => false end.
Definition isCheck (e : Event) : bool :=
  match e with EvThrowIfCanceled => true | _ => false end.
Definition isFetch (e : Event) : bool :=
  match e with EvGetJobInfo _ => true | _ => false end.
Definition isWait (e : Event) : bool :=
  match e with EvSetTimeout _ => true | _ => false end.
Definition isLogReport (e : Event) : bool :=
  match e with EvReportToOutputWindow _ => true | _ => false end.
Definition isNotification (e : Event) : bool :=
  match e with EvReportToNotification _ _ => true | _ => false end.

Definition countEv (p : Event -> bool) (log : list Event) : nat :=
  List.length (filter p log).

(** How the operator answers the modal prompt of [ext.ui.showWarningMessage]:
    with the offered item, with nothing, or by dismissing the dialog, which
    rejects the promise. *)
Inductive PromptAnswer :=
| AnswerItem
| AnswerUndefined
| AnswerRejects (e : Thrown).

(** The collaborators the module reaches through [ext], [cpUtils], [Limits],
    [openUrl] and the engine client, scripted. *)
Record Host := {
  azCopyExePath : string;
  (** [cpUtils.executeCommand(.., azCopyExePath, '--version')]: [None] when
      it resolves, [Some e] when it rejects with [e]. *)
  versionProbe : option Thrown;
  promptAnswer : PromptAnswer;
  openUrlOutcome : option Thrown;
  (** [Limits.maxUploadDownloadSizeMB], as it prints in a template string. *)
  maxUploadDownloadSizeMB : string;
  (** The handle [copy] resolves with. *)
  engineJobId : string;
  (** The [latestStatus] of the [n]-th status fetch made so far (from 0). *)
  engineStatus : string -> nat -> option TransferStatus
}.

(* ------------------------------------------------------------------ *)
(** ** The monad of the asynchronous functions *)

Inductive outcome (A : Type) :=
| Returned (a : A)
| Threw (e : Thrown)
| OutOfFuel.
Arguments Returned {A} a.
Arguments Threw {A} e.
Arguments OutOfFuel {A}.

Definition M (A : Type) : Type := list Event -> outcome A * list Event.

Definition ret {A} (a : A) : M A := fun log => (Returned a, log).

Definition bind {A B} (m : M A) (f : A -> M B) : M B :=
  fun log =>
    match m log with
    | (Returned a, log') => f a log'
    | (Threw e, log') => (Threw e, log')
    | (OutOfFuel, log') => (OutOfFuel, log')
    end.

Definition throw {A} (e : Thrown) : M A := fun log => (Threw e, log).

Definition outOfFuel {A} : M A := fun log => (OutOfFuel, log).

Definition emit (e : Event) : M unit := fun log => (Returned tt, (log ++ [e])%list).

(** [try { body } catch (error) { handler(error) }]. *)
Definition tryCatch {A} (body : M A) (handler : Thrown -> M A) : M A :=
  fun log =>
    match body log with
    | (Threw e, log') => handler e log'
    | r => r
    end.

Declare Scope async_scope.
Delimit Scope async_scope with async.
Notation "x <- c1 ;; c2" := (bind c1 (fun x => c2))
  (at level 61, c1 at next level, right associativity) : async_scope.
Notation "c1 ;; c2" := (bind c1 (fun _ => c2))
  (at level 61, right associativity) : async_scope.
Local Open Scope async_scope.

(** [while (cond(s)) { s = body(s) }], the test first. *)
Fixpoint while {S : Type} (fuel : nat) (cond : S -> bool) (body : S -> M S)
    (s : S) {struct fuel} : M S :=
  if cond s then
    match fuel with
    | O => outOfFuel
    | Datatypes.S fuel' => s' <- body s ;; while fuel' cond body s'
    end
  else ret s.

(** [IAzCopyClient]. *)
Record IAzCopyClient := {
  copy : AzCopyLocation -> AzCopyLocation -> ICopyOptions -> M string;
  getJobInfo : string -> M JobInfo
}.

(** [TransferProgress], by its two report operations. *)
Record TransferProgress := {
  reportToOutputWindow : Z -> M unit;
  reportToNotification : Z -> Progress -> M unit
}.

(** A tracker that only records what it is fed. *)
Definition recordingProgress : TransferProgress :=
  {| reportToOutputWindow := fun finishedWork =>
       emit (EvReportToOutputWindow finishedWork);
     reportToNotification := fun finishedWork sink =>
       emit (EvReportToNotification finishedWork sink) |}.

(** A cancellation check scripted by the number of checks made before it:
    [script n = Some e] makes the check of index [n] throw [e]. *)
Definition scriptedCheck (script : nat -> option Thrown) : M unit :=
  fun log =>
    match script (countEv isCheck log) with
    | None => (Returned tt, (log ++ [EvThrowIfCanceled])%list)
    | Some e => (Threw e, (log ++ [EvThrowIfCanceled])%list)
    end.

(** [await new Promise((resolve, _reject) => setTimeout(resolve, ms))]. *)
Definition setTimeout (ms : Z) : M unit := emit (EvSetTimeout ms).

(** The double-quote character, for the one message that contains it. *)
Definition dquote : string := String (ascii_of_nat 34) EmptyString.

(** Modelled from the spec: [localize(key, defaultMessage)] of
    [src/utils/localize.ts], which is not among the sources. Without a
    translation bundle it returns the default message, the text by which
    the specification describes the failure message of the facade. *)
Definition localize (key defaultMessage : string) : string := defaultMessage.

(** [cpUtils.executeCommand(undefined, undefined, command, arg)]. *)
Definition executeCommand (h : Host) (command arg : string) : M unit :=
  emit (EvExecuteCommand command arg) ;;
  match versionProbe h with
  | None => ret tt
  | Some e => throw e
  end.

(** [ext.ui.showWarningMessage(message, { modal: true }, item)], awaited. *)
Definition showWarningMessage (h : Host) (message : string)
    (item : MessageItem) : M (option MessageItem) :=
  emit (EvShowWarningMessage message true) ;;
  match promptAnswer h with
  | AnswerItem => ret (Some item)
  | AnswerUndefined => ret None
  | AnswerRejects e => throw e
  end.

(** [ext.ui.showWarningMessage(message)] as a floating promise: the call is
    made, its result and its rejection are dropped. *)
Definition showWarningMessageFloating (message : string) : M unit :=
  emit (EvShowWarningMessage message false).

(** [input === download], where the prompt can only hand back the item it
    was given. *)
Definition sameItem (input : option MessageItem) (item : MessageItem) : bool :=
  match input with
  | Some i => title i =? title item
  | None => false
  end.

Definition openUrl (h : Host) (url : string) : M unit :=
  emit (EvOpenUrl url) ;;
  match openUrlOutcome h with
  | None => ret tt
  | Some e => throw e
  end.

(** [callWithTelemetryAndErrorHandling(callbackId, callback)] of
    vscode-azureextensionui, with [suppressDisplay] set and [rethrow] left
    unset as the callback here does: an error of the callback is handled and
    [undefined] is the result. *)
Definition callWithTelemetryAndErrorHandling {A} (callbackId : string)
    (callback : M A) : M (option A) :=
  tryCatch (a <- callback ;; ret (Some a)) (fun _ => ret None).

(** [new AzCopyClient(..)]: the engine of the host. A status fetch is answered
    by the number of fetches made before it. *)
Definition AzCopyClient (h : Host) (exes : option AzCopyExes) : IAzCopyClient :=
  {| copy := fun src dst options =>
       emit (EvCopy src dst options) ;; ret (engineJobId h);
     getJobInfo := fun jobId => fun log =>
       (Returned {| latestStatus := engineStatus h jobId (countEv isFetch log) |},
        (log ++ [EvGetJobInfo jobId])%list) |}.

(** [setAzCopyExes(exes)] of se-az-copy. *)
Definition setAzCopyExes (exes : AzCopyExes) : M unit :=
  emit (EvSetAzCopyExes exes).

(** The loop test [!status || status.StatusType !== 'EndOfJob']. *)
Definition notEndOfJob (status : option TransferStatus) : bool :=
  match status with
  | None => true
  | Some st => negb (StatusType st =? "EndOfJob")
  end.

(** [status && (src.useWildCard ? status.TransfersCompleted
    : status.BytesOverWire) || 0]. *)
Definition finishedWorkOf (src : AzCopyLocation)
    (status : option TransferStatus) : Z :=
  Js.orZero
    match status with
    | None => None
    | Some st => if useWildCard src then TransfersCompleted st
                 else BytesOverWire st
    end.

(** [!finalTransferStatus || finalTransferStatus.JobStatus === 'Failed']. *)
Definition absentOrFailed (status : option TransferStatus) : bool :=
  match status with
  | None => true
  | Some st =>
      match JobStatus st with
      | Some js => js =? "Failed"
      | None => false
      end
  end.

(** The template [`AzCopy Transfer Failed${status?.ErrorMsg ?
    `: ${status.ErrorMsg}` : ''}`]. *)
Definition transferFailedMessage (status : option TransferStatus) : string :=
  let errorMsg :=
    match status with
    | Some st => ErrorMsg st
    | None => None
    end in
  "AzCopy Transfer Failed"
  ++ (if Js.truthyString errorMsg
      then ": " ++ match errorMsg with Some m => m | None => EmptyString end
      else EmptyString).

(* ------------------------------------------------------------------ *)
(** ** [src/utils/azCopyUtils.ts] *)

Module AzCopyUtils.

Definition createAzCopyLocalSource (sourcePath : string) : ILocalLocation :=
  {| l_type := "Local"; l_path := sourcePath; l_useWildCard := false |}.

Definition createAzCopyLocalDirectorySource (p : Platform)
    (sourceDirectoryPath : string) : ILocalLocation :=
  let path :=
    if Js.endsWith sourceDirectoryPath (sep p)
    then sourceDirectoryPath ++ ".*"
    else sourceDirectoryPath ++ sep p ++ ".*" in
  {| l_type := "Local"; l_path := path; l_useWildCard := true |}.

Definition createAzCopyDestination (treeItem : DestTreeItem)
    (destinationPath : string) : IRemoteSasLocation :=
  let resourceUri :=
    match treeItem with
    | BlobContainerTreeItem root containerName =>
        containerClientUrl root containerName
    | FileShareTreeItem root shareName =>
        shareClientUrl root shareName
    end in
  let sasToken := generateSasToken (treeItemRoot treeItem) in
  let path :=
    if Js.firstCharIs destinationPath "/"
    then destinationPath
    else "/" ++ destinationPath in
  {| r_type := "RemoteSas"; r_sasToken := sasToken;
     r_resourceUri := resourceUri; r_path := path;
     r_useWildCard := false |}.

(** One turn of the polling loop of [startAndWaitForCopy]. *)
Definition pollOnce (copyClient : IAzCopyClient) (src : AzCopyLocation)
    (jobId : string) (transferProgress : TransferProgress)
    (notificationProgress : option Progress)
    (throwIfCanceled : option (M unit))
    (_ : option TransferStatus) : M (option TransferStatus) :=
  match throwIfCanceled with
  | Some check => check
  | None => ret tt
  end ;;
  info <- getJobInfo copyClient jobId ;;
  let status := latestStatus info in
  let finishedWork := finishedWorkOf src status in
  reportToOutputWindow transferProgress finishedWork ;;
  match notificationProgress with
  | Some sink => reportToNotification transferProgress finishedWork sink
  | None => ret tt
  end ;;
  setTimeout 1000 ;;
  ret status.

Definition startAndWaitForCopy (fuel : nat) (copyClient : IAzCopyClient)
    (src dst : AzCopyLocation) (options : ICopyOptions)
    (transferProgress : TransferProgress)
    (notificationProgress : option Progress)
    (throwIfCanceled : option (M unit)) : M string :=
  jobId <- copy copyClient src dst options ;;
  while fuel notEndOfJob
    (pollOnce copyClient src jobId transferProgress notificationProgress
       throwIfCanceled)
    None ;;
  ret jobId.

Definition azCopyInstalled (h : Host) : M bool :=
  tryCatch
    (executeCommand h (azCopyExePath h) "--version" ;; ret true)
    (fun _ => ret false).

Definition validateAzCopyInstalled (h : Host) : M bool :=
  r <- callWithTelemetryAndErrorHandling "azureStorage.validateAzCopyInstalled"
         (installed <- azCopyInstalled h ;;
          if installed then ret true
          else
            let message :=
              "AzCopy is required for multiple file transfers and transfers >"
              ++ maxUploadDownloadSizeMB h ++ "MB." in
            let download := {| title := localize "downloadAzCopy" "Download AzCopy" |} in
            input <- showWarningMessage h message download ;;
            (if sameItem input download
             then
               openUrl h "https://docs.microsoft.com/en-us/azure/storage/common/storage-use-azcopy-v10" ;;
               showWarningMessageFloating
                 ("Be sure to add " ++ dquote ++ "azcopy" ++ dquote
                  ++ " to your path after downloading.")
             else ret tt) ;;
            ret false) ;;
  ret match r with
      | Some b => b
      | None => false
      end.

Definition azCopyTransfer (fuel : nat) (h : Host)
    (src : ILocalLocation) (dst : IRemoteSasLocation)
    (transferProgress : TransferProgress) (fromTo : string)
    (notificationProgress : option Progress)
    (throwIfCanceled : option (M unit)) : M unit :=
  installed <- validateAzCopyInstalled h ;;
  if installed then
    let exes := {| AzCopyExe := azCopyExePath h;
                   AzCopyExe64 := azCopyExePath h;
                   AzCopyExe32 := azCopyExePath h |} in
    let copyClient := AzCopyClient h (Some exes) in
    let copyOptions := {| fromTo := fromTo; overwriteExisting := "true";
                          recursive := true; followSymLinks := true;
                          excludePath := Some ".git;.vscode" |} in
    jobId <- startAndWaitForCopy fuel copyClient (LocalLocation src)
               (RemoteSasLocation dst) copyOptions transferProgress
               notificationProgress throwIfCanceled ;;
    info <- getJobInfo copyClient jobId ;;
    let finalTransferStatus := latestStatus info in
    if absentOrFailed finalTransferStatus
    then throw (newError (localize "azCopyTransferFailed"
                            (transferFailedMessage finalTransferStatus)))
    else ret tt
  else ret tt.

Definition azCopyBlobTransfer (fuel : nat) (h : Host)
    (src : ILocalLocation) (dst : IRemoteSasLocation)
    (transferProgress : TransferProgress)
    (notificationProgress : option Progress)
    (throwIfCanceled : option (M unit)) : M unit :=
  azCopyTransfer fuel h src dst transferProgress "LocalBlob"
    notificationProgress throwIfCanceled.

Definition azCopyFileTransfer (fuel : nat) (h : Host)
    (src : ILocalLocation) (dst : IRemoteSasLocation)
    (transferProgress : TransferProgress)
    (notificationProgress : option Progress)
    (throwIfCanceled : option (M unit)) : M unit :=
  azCopyTransfer fuel h src dst transferProgress "LocalFile"
    notificationProgress throwIfCanceled.

End AzCopyUtils.

(* ------------------------------------------------------------------ *)
(** ** The blob-only sibling of [azCopyUtils.ts] *)

Module BlobOnly.

Definition createAzCopyLocalSource (sourcePath : string) : ILocalLocation :=
  {| l_type := "Local"; l_path := sourcePath; l_useWildCard := false |}.

Definition createAzCopyLocalDirectorySource (p : Platform)
    (sourceDirectoryPath : string) : ILocalLocation :=
  let path :=
    if Js.endsWith sourceDirectoryPath (sep p)
    then sourceDirectoryPath ++ "*"
    else sourceDirectoryPath ++ sep p ++ "*" in
  {| l_type := "Local"; l_path := path; l_useWildCard := true |}.

Definition createAzCopyDestination (root : IStorageRoot)
    (containerName destinationPath : string) : IRemoteSasLocation :=
  let sasToken := generateSasToken root in
  let path :=
    if Js.firstCharIs destinationPath "/"
    then destinationPath
    else "/" ++ destinationPath in
  {| r_type := "RemoteSas"; r_sasToken := sasToken;
     r_resourceUri := containerClientUrl root containerName;
     r_path := path; r_useWildCard := false |}.

Definition pollOnce (copyClient : IAzCopyClient) (src : AzCopyLocation)
    (jobId : string) (transferProgress : TransferProgress)
    (notificationProgress : option Progress)
    (throwIfCanceled : option (M unit))
    (_ : option TransferStatus) : M (option TransferStatus) :=
  match throwIfCanceled with
  | Some check => check
  | None => ret tt
  end ;;
  info <- getJobInfo copyClient jobId ;;
  let status := latestStatus info in
  let finishedWork := finishedWorkOf src status in
  reportToOutputWindow transferProgress finishedWork ;;
  match notificationProgress with
  | Some sink => reportToNotification transferProgress finishedWork sink
  | None => ret tt
  end ;;
  setTimeout 1000 ;;
  ret status.

Definition startAndWaitForCopy (fuel : nat) (copyClient : IAzCopyClient)
    (src dst : AzCopyLocation) (options : ICopyOptions)
    (transferProgress : TransferProgress)
    (notificationProgress : option Progress)
    (throwIfCanceled : option (M unit)) : M string :=
  jobId <- copy copyClient src dst options ;;
  while fuel notEndOfJob
    (pollOnce copyClient src jobId transferProgress notificationProgress
       throwIfCanceled)
    None ;;
  ret jobId.

Definition azCopyInstalled (h : Host) : M bool :=
  tryCatch
    (executeCommand h (azCopyExePath h) "--version" ;; ret true)
    (fun _ => ret false).

Definition validateAzCopyInstalled (h : Host) : M bool :=
  r <- callWithTelemetryAndErrorHandling "azureStorage.validateAzCopyInstalled"
         (installed <- azCopyInstalled h ;;
          if installed then ret true
          else
            let message :=
              "AzCopy is required for multiple file transfers and transfers >"
              ++ maxUploadDownloadSizeMB h ++ "MB." in
            let download := {| title := localize "downloadAzCopy" "Download AzCopy" |} in
            input <- showWarningMessage h message download ;;
            (if sameItem input download
             then
               openUrl h "https://docs.microsoft.com/en-us/azure/storage/common/storage-use-azcopy-v10" ;;
               showWarningMessageFloating
                 ("Be sure to add " ++ dquote ++ "azcopy" ++ dquote
                  ++ " to your path after downloading.")
             else ret tt) ;;
            ret false) ;;
  ret match r with
      | Some b => b
      | None => false
      end.

Definition azCopyTransfer (fuel : nat) (h : Host)
    (src : ILocalLocation) (dst : IRemoteSasLocation)
    (transferProgress : TransferProgress)
    (notificationProgress : option Progress)
    (throwIfCanceled : option (M unit)) : M unit :=
  installed <- validateAzCopyInstalled h ;;
  if installed then
    setAzCopyExes {| AzCopyExe := azCopyExePath h;
                     AzCopyExe64 := azCopyExePath h;
                     AzCopyExe32 := azCopyExePath h |} ;;
    let copyClient := AzCopyClient h None in
    let copyOptions := {| fromTo := "LocalBlob"; overwriteExisting := "true";
                          recursive := true; followSymLinks := true;
                          excludePath := None |} in
    jobId <- startAndWaitForCopy fuel copyClient (LocalLocation src)
               (RemoteSasLocation dst) copyOptions transferProgress
               notificationProgress throwIfCanceled ;;
    info <- getJobInfo copyClient jobId ;;
    let finalTransferStatus := latestStatus info in
    if absentOrFailed finalTransferStatus
    then throw (newError (localize "azCopyTransferFailed"
                            (transferFailedMessage finalTransferStatus)))
    else ret tt
  else ret tt.

End BlobOnly.

(* ------------------------------------------------------------------ *)
(** ** Vocabulary of the statements *)

(** The path built for a directory, for any glob suffix: the shape shared by
    the two [createAzCopyLocalDirectorySource]. *)
Definition directoryGlobPath (p : Platform) (glob dir : string) : string :=
  if Js.endsWith dir (sep p) then dir ++ glob else dir ++ sep p ++ glob.

(** [path] ends with the glob suffix, with one separator and no more right
    before it. *)
Definition globAfterOneSep (p : Platform) (glob path : string) : bool :=
  Js.endsWith path (sep p ++ glob)
  && negb (Js.endsWith path (sep p ++ sep p ++ glob)).

(** An optional scripted cancellation source as the optional callback the
    poller takes. *)
Definition cancelCheck (cancel : option (nat -> option Thrown))
    : option (M unit) :=
  option_map scriptedCheck cancel.

(** The check of index [n] lets the poller go on: there is no cancellation
    source, or its script does not throw there. *)
Definition checkPasses (cancel : option (nat -> option Thrown)) (n : nat)
    : Prop :=
  match cancel with
  | None => True
  | Some script => script n = None
  end.

(** The [k]-th status of the script (counting from 1) is the first one whose
    status type is 'EndOfJob'. *)
Definition firstEndOfJobAt (h : Host) (jobId : string) (k : nat) : Prop :=
  1 <= k
  /\ notEndOfJob (engineStatus h jobId (k - 1)) = false
  /\ forall n, n < k - 1 -> notEndOfJob (engineStatus h jobId n) = true.

(** What one full turn of the loop adds to the log when the status fetch is
    the one of index [n]. *)
Definition cycleEvents (h : Host) (src : AzCopyLocation) (jobId : string)
    (sink : option Progress) (checked : bool) (n : nat) : list Event :=
  let finishedWork := finishedWorkOf src (engineStatus h jobId n) in
  ((if checked then [EvThrowIfCanceled] else [])
   ++ [EvGetJobInfo jobId; EvReportToOutputWindow finishedWork]
   ++ match sink with
      | Some s => [EvReportToNotification finishedWork s]
      | None => []
      end
   ++ [EvSetTimeout 1000])%list.

(** [count] consecutive turns, the first one on the fetch of index [from]. *)
Fixpoint cycles (h : Host) (src : AzCopyLocation) (jobId : string)
    (sink : option Progress) (checked : bool) (from count : nat)
    : list Event :=
  match count with
  | O => []
  | S count' =>
      (cycleEvents h src jobId sink checked from
       ++ cycles h src jobId sink checked (S from) count')%list
  end.

Definition supplied {A} (o : option A) : bool :=
  match o with
  | Some _ => true
  | None => false
  end.

(** No two status fetches without a wait in between: [fetched] tells whether
    a fetch has been seen since the last wait. *)
Fixpoint paced (fetched : bool) (log : list Event) : bool :=
  match log with
  | [] => true
  | e :: log' =>
      if isFetch e then negb fetched && paced true log'
      else if isWait e then paced false log'
      else paced fetched log'
  end.

(** Cancellation checks and status fetches alternate, a check first:
    [checked] tells whether a check has been made since the last fetch. *)
Fixpoint checkedBeforeFetch (checked : bool) (log : list Event) : bool :=
  match log with
  | [] => true
  | e :: log' =>
      if isCheck e then negb checked && checkedBeforeFetch true log'
      else if isFetch e then checked && checkedBeforeFetch false log'
      else checkedBeforeFetch checked log'
  end.

(** Every wait in the log is the fixed one second. *)
Definition waitsAreFixed (log : list Event) : bool :=
  forallb (fun e => match e with
                    | EvSetTimeout ms => (ms =? 1000)%Z
                    | _ => true
                    end) log.

(** The progress counter in the words of the specification: completed
    transfers for a wildcard source, bytes over the wire otherwise, zero when
    the status or the counter is absent. *)
Definition specProgressCounter (src : AzCopyLocation)
    (status : option TransferStatus) : Z :=
  match status with
  | None => 0%Z
  | Some st =>
      match (if useWildCard src then TransfersCompleted st
             else BytesOverWire st) with
      | Some count => count
      | None => 0%Z
      end
  end.

(** The outcome of the facade in the words of the specification: failure
    when the final status is absent or reads 'Failed', with the engine's
    message when there is one, success otherwise. *)
Definition specFailureMessage (engineMessage : option string) : string :=
  match engineMessage with
  | Some m => if m =? EmptyString then "AzCopy Transfer Failed"
              else "AzCopy Transfer Failed: " ++ m
  | None => "AzCopy Transfer Failed"
  end.

Definition specOutcome (final : option TransferStatus) : outcome unit :=
  match final with
  | None => Threw (newError (specFailureMessage None))
  | Some st =>
      match JobStatus st with
      | Some outcomeRead =>
          if outcomeRead =? "Failed"
          then Threw (newError (specFailureMessage (ErrorMsg st)))
          else Returned tt
      | None => Returned tt
      end
  end.

(** Running an asynchronous function from an empty log. *)
Definition run {A} (m : M A) : outcome A * list Event := m [].

(** What the facade makes of the poller's result. *)
Definition classify (h : Host) (r : outcome string * list Event)
    : outcome unit * list Event :=
  match r with
  | (Returned jobId, log) =>
      let final := engineStatus h jobId (countEv isFetch log) in
      (if absentOrFailed final
       then Threw (newError (transferFailedMessage final))
       else Returned tt,
       (log ++ [EvGetJobInfo jobId])%list)
  | (Threw e, log) => (Threw e, log)
  | (OutOfFuel, log) => (OutOfFuel, log)
  end.

(** The two copies of the poller, of its loop body and the three exported
    entry points of the facade. *)
Definition Poller : Type :=
  nat -> IAzCopyClient -> AzCopyLocation -> AzCopyLocation -> ICopyOptions ->
  TransferProgress -> option Progress -> option (M unit) -> M string.

Definition pollers : list Poller :=
  [AzCopyUtils.startAndWaitForCopy; BlobOnly.startAndWaitForCopy].

Definition PollTurn : Type :=
  IAzCopyClient -> AzCopyLocation -> string -> TransferProgress ->
  option Progress -> option (M unit) -> option TransferStatus ->
  M (option TransferStatus).

Definition pollTurns : list PollTurn :=
  [AzCopyUtils.pollOnce; BlobOnly.pollOnce].

Definition Facade : Type :=
  nat -> Host -> ILocalLocation -> IRemoteSasLocation -> TransferProgress ->
  option Progress -> option (M unit) -> M unit.

Definition facades : list Facade :=
  [AzCopyUtils.azCopyBlobTransfer; AzCopyUtils.azCopyFileTransfer;
   BlobOnly.azCopyTransfer].

(** The first event of a turn of the loop. *)
Definition firstOfTurn (jobId : string) (checked : bool) : Event :=
  if checked then EvThrowIfCanceled else EvGetJobInfo jobId.

(** Sample data: a directory upload whose engine reports two statuses in
    progress and then the end of the job. *)
Definition sampleStatus (statusType : string) (outcomeRead : option string)
    (completed : Z) : TransferStatus :=
  {| StatusType := statusType; JobStatus := outcomeRead; ErrorMsg := None;
     TransfersCompleted := Some completed; BytesOverWire := Some 0%Z |}.

Definition sampleScript (n : nat) : option TransferStatus :=
  match n with
  | 0 => Some (sampleStatus "Progress" (Some "InProgress") 3)
  | 1 => Some (sampleStatus "Progress" (Some "InProgress") 7)
  | _ => Some (sampleStatus "EndOfJob" (Some "Completed") 10)
  end.

Definition sampleHost : Host :=
  {| azCopyExePath := "azcopy"; versionProbe := None;
     promptAnswer := AnswerUndefined; openUrlOutcome := None;
     maxUploadDownloadSizeMB := "4"; engineJobId := "job-1";
     engineStatus := fun _ => sampleScript |}.

(** The same host with a finished job from the first fetch on. *)
Definition finishedHost : Host :=
  {| azCopyExePath := "azcopy"; versionProbe := None;
     promptAnswer := AnswerUndefined; openUrlOutcome := None;
     maxUploadDownloadSizeMB := "4"; engineJobId := "job-1";
     engineStatus := fun _ _ =>
       Some (sampleStatus "EndOfJob" (Some "Completed") 10) |}.

(** A host without the engine, whose operator asks for the download page. *)
Definition bareHost : Host :=
  {| azCopyExePath := "azcopy";
     versionProbe := Some (newError "spawn azcopy ENOENT");
     promptAnswer := AnswerItem; openUrlOutcome := None;
     maxUploadDownloadSizeMB := "4"; engineJobId := "job-1";
     engineStatus := fun _ => sampleScript |}.

Definition sampleSource : ILocalLocation :=
  AzCopyUtils.createAzCopyLocalDirectorySource Posix "/home/user/site".

Definition sampleRoot : IStorageRoot :=
  {| generateSasToken := "sv=2019&sig=abc";
     containerClientUrl := fun name => "https://acct.blob.core.windows.net/" ++ name;
     shareClientUrl := fun name => "https://acct.file.core.windows.net/" ++ name |}.

Definition sampleDestination : IRemoteSasLocation :=
  AzCopyUtils.createAzCopyDestination
    (BlobContainerTreeItem sampleRoot "web") "site".

Definition sampleOptions : ICopyOptions :=
  {| fromTo := "LocalBlob"; overwriteExisting := "true"; recursive := true;
     followSymLinks := true; excludePath := Some ".git;.vscode" |}.

(** A cancellation source that never fires. *)
Definition neverCancelled (n : nat) : option Thrown := None.

(** A cancellation source that fires on its second check. *)
Definition userCancelled : Thrown :=
  {| errName := "UserCancelledError"; errMessage := "Operation cancelled." |}.

Definition cancelOnSecondCheck (n : nat) : option Thrown :=
  match n with
  | 1 => Some userCancelled
  | _ => None
  end.

(* ------------------------------------------------------------------ *)
(** ** [shouldUseAzCopy] *)

(** [fs.Stats], with what the code reads of it. *)
Record Stats := {
  st_size : Z;
  st_isDirectory : bool
}.

(** The two dictionaries of [context.telemetry]. *)
Record Telemetry := {
  measurements : string -> option Z;
  properties : string -> option string
}.

(** [dict[key] = value]. *)
Definition setKey {V : Type} (dict : string -> option V) (key : string)
    (value : V) : string -> option V :=
  fun k => if k =? key then Some value else dict k.

(** [shouldUseAzCopy(context, localPath)], with the file system as the
    function [stat] (a rejected [stat] is [inl]) and the telemetry of the
    context passed in and out. [maxUploadDownloadSizeBytes] is the constant
    of [Limits], which is not among the sources. *)
Definition shouldUseAzCopy (maxUploadDownloadSizeBytes : Z)
    (stat : string -> Thrown + Stats) (telemetry : Telemetry)
    (localPath : string) : outcome bool * Telemetry :=
  match stat localPath with
  | inl e => (Threw e, telemetry)
  | inr stats =>
      let size := st_size stats in
      let telemetry1 :=
        {| measurements :=
             setKey (measurements telemetry) "blockBlobUploadSize" size;
           properties := properties telemetry |} in
      let useAzCopy := (size >? maxUploadDownloadSizeBytes)%Z in
      let telemetry2 :=
        {| measurements := measurements telemetry1;
           properties :=
             setKey (properties telemetry1) "azCopyBlockBlobUpload"
               (if useAzCopy then "true" else "false") |} in
      (Returned useAzCopy, telemetry2)
  end.

(* ------------------------------------------------------------------ *)
(** ** [uploadFiles] *)

(** [vscode.CancellationToken]: only its identity matters here. *)
Inductive CancellationToken := Token (id : nat).

(** What [uploadFiles] reaches that is not among the sources: the label of
    a tree item, [localize] with arguments, and [throwIfCanceled] of
    [errorUtils]. *)
Record UploadEnv := {
  labelOf : DestTreeItem -> string;
  localizeWith : string -> string -> list string -> string;
  throwIfCanceled :
    CancellationToken -> (string -> option string) -> string -> M unit
}.

(** The line [uploadFiles] appends to the output channel. *)
Definition finishedUploadLine (env : UploadEnv) (destTreeItem : DestTreeItem)
    : string :=
  localizeWith env "finishedUpload"
    ("Uploaded to " ++ dquote ++ "{0}" ++ dquote ++ ".")
    [labelOf env destTreeItem].

(** [uploadFiles] of the file that goes with [src/utils/azCopyUtils.ts]. The
    output channel is passed in and out as the list of its lines. *)
Module UploadUtils.

Definition uploadFiles (fuel : nat) (h : Host) (env : UploadEnv)
    (p : Platform) (destTreeItem : DestTreeItem)
    (sourceFolder destFolder : string)
    (telemetryProperties : string -> option string)
    (transferProgress : TransferProgress) (notificationProgress : Progress)
    (cancellationToken : CancellationToken) (outputChannel : list string)
    : M (list string) :=
  let throwIfCanceledFunction :=
    throwIfCanceled env cancellationToken telemetryProperties "uploadFiles" in
  let src := AzCopyUtils.createAzCopyLocalDirectorySource p sourceFolder in
  let dst := AzCopyUtils.createAzCopyDestination destTreeItem destFolder in
  match destTreeItem with
  | BlobContainerTreeItem _ _ =>
      AzCopyUtils.azCopyBlobTransfer fuel h src dst transferProgress
        (Some notificationProgress) (Some throwIfCanceledFunction)
  | FileShareTreeItem _ _ =>
      AzCopyUtils.azCopyFileTransfer fuel h src dst transferProgress
        (Some notificationProgress) (Some throwIfCanceledFunction)
  end ;;
  ret (outputChannel ++ [finishedUploadLine env destTreeItem])%list.

End UploadUtils.

(** [uploadFiles] of [src/utils/uploadUtils.ts], which goes with the
    blob-only sibling. *)
Module BlobOnlyUploadUtils.

Definition uploadFiles (fuel : nat) (h : Host) (env : UploadEnv)
    (p : Platform) (destTreeItem : DestTreeItem)
    (sourceFolder destFolder : string)
    (telemetryProperties : string -> option string)
    (transferProgress : TransferProgress) (notificationProgress : Progress)
    (cancellationToken : CancellationToken) (outputChannel : list string)
    : M (list string) :=
  let throwIfCanceledFunction :=
    throwIfCanceled env cancellationToken telemetryProperties "uploadFiles" in
  let src := BlobOnly.createAzCopyLocalDirectorySource p sourceFolder in
  let containerName :=
    match destTreeItem with
    | BlobContainerTreeItem _ name => name
    | FileShareTreeItem _ _ => EmptyString
    end in
  let dst := BlobOnly.createAzCopyDestination (treeItemRoot destTreeItem)
               containerName destFolder in
  BlobOnly.azCopyTransfer fuel h src dst transferProgress
    (Some notificationProgress) (Some throwIfCanceledFunction) ;;
  ret (outputChannel ++ [finishedUploadLine env destTreeItem])%list.

End BlobOnlyUploadUtils.

(* ------------------------------------------------------------------ *)
(** ** More vocabulary *)

(** What a run of the poller ends its log with: the check that threw, if
    one did. *)
Definition lastCheck {A : Type} (out : outcome A) : list Event :=
  match out with
  | Threw _ => [EvThrowIfCanceled]
  | _ => []
  end.

Definition isThrown {A : Type} (out : outcome A) : bool :=
  match out with
  | Threw _ => true
  | _ => false
  end.

(** The first event of every run of a facade. *)
Definition probeEvent (h : Host) : Event :=
  EvExecuteCommand (azCopyExePath h) "--version".

(** The options each entry point submits with. *)
Definition submittedOptions (direction : string) : ICopyOptions :=
  {| fromTo := direction; overwriteExisting := "true"; recursive := true;
     followSymLinks := true; excludePath := Some ".git;.vscode" |}.

Definition blobOnlyOptions : ICopyOptions :=
  {| fromTo := "LocalBlob"; overwriteExisting := "true"; recursive := true;
     followSymLinks := true; excludePath := None |}.

Definition hostExes (h : Host) : AzCopyExes :=
  {| AzCopyExe := azCopyExePath h; AzCopyExe64 := azCopyExePath h;
     AzCopyExe32 := azCopyExePath h |}.

(** The two messages and the page of [validateAzCopyInstalled]. *)
Definition azCopyRequiredMessage (h : Host) : string :=
  "AzCopy is required for multiple file transfers and transfers >"
  ++ maxUploadDownloadSizeMB h ++ "MB.".

Definition addToPathMessage : string :=
  "Be sure to add " ++ dquote ++ "azcopy" ++ dquote
  ++ " to your path after downloading.".

Definition downloadPage : string :=
  "https://docs.microsoft.com/en-us/azure/storage/common/storage-use-azcopy-v10".

(** What [validateAzCopyInstalled] does after a failed probe, by the answer
    to the prompt and the fate of the download page. *)
Definition promptEvents (h : Host) : list Event :=
  EvShowWarningMessage (azCopyRequiredMessage h) true
  :: match promptAnswer h with
     | AnswerItem =>
         EvOpenUrl downloadPage
         :: match openUrlOutcome h with
            | None => [EvShowWarningMessage addToPathMessage false]
            | Some _ => []
            end
     | AnswerUndefined => []
     | AnswerRejects _ => []
     end.

(** The values fed to the log surface and to the notification sink, in
    the order they were fed. *)
Definition logReports (log : list Event) : list Z :=
  flat_map (fun e => match e with
                     | EvReportToOutputWindow v => [v]
                     | _ => []
                     end) log.

Definition notificationReports (log : list Event) : list Z :=
  flat_map (fun e => match e with
                     | EvReportToNotification v _ => [v]
                     | _ => []
                     end) log.

(** A counter of a status that may be absent, itself or the counter. *)
Definition counterOf (counter : TransferStatus -> option Z)
    (status : option TransferStatus) : Z :=
  match status with
  | Some st =>
      match counter st with
      | Some count => count
      | None => 0%Z
      end
  | None => 0%Z
  end.

(** The direction [uploadFiles] picks for a tree item. *)
Definition directionOf (destTreeItem : DestTreeItem) : string :=
  match destTreeItem with
  | BlobContainerTreeItem _ _ => "LocalBlob"
  | FileShareTreeItem _ _ => "LocalFile"
  end.

(** What a caller of a facade that returns [value] on success makes of the
    facade's outcome. *)
Definition andThen {A : Type} (out : outcome unit) (value : A) : outcome A :=
  match out with
  | Returned _ => Returned value
  | Threw e => Threw e
  | OutOfFuel => OutOfFuel
  end.

(** A host whose engine never reports a status. *)
Definition silentHost : Host :=
  {| azCopyExePath := "azcopy"; versionProbe := None;
     promptAnswer := AnswerUndefined; openUrlOutcome := None;
     maxUploadDownloadSizeMB := "4"; engineJobId := "job-1";
     engineStatus := fun _ _ => None |}.

(** Collaborators of [uploadFiles] with a scripted cancellation source. *)
Definition scriptedUploadEnv (script : nat -> option Thrown) : UploadEnv :=
  {| labelOf := fun t =>
       match t with
       | BlobContainerTreeItem _ name => name
       | FileShareTreeItem _ name => name
       end;
     localizeWith := fun _ message args =>
       (message ++ " " ++ String.concat "," args)%string;
     throwIfCanceled := fun _ _ _ => scriptedCheck script |}.

Definition noTelemetry : Telemetry :=
  {| measurements := fun _ => None; properties := fun _ => None |}.

Definition sampleStat (path : string) : Thrown + Stats :=
  if path =? "/home/user/big.iso"
  then inr {| st_size := 5000000; st_isDirectory := false |}
  else inl (newError "ENOENT").

(* ------------------------------------------------------------------ *)
(** ** The commands *)

(** [vscode.Uri], with what the commands read of it. *)
Record Uri := {
  scheme : string;
  fsPath : string
}.

(** The calls the commands make outside their files, in the order they are
    made; the calls of the engine stay in the log of [Event]s. *)
Inductive Call :=
| CallShowOpenDialog (defaultUri : option Uri)
| CallShowInputBox (prompt value : string)
| CallDoesBlobExist (treeItem : DestTreeItem) (blobPath : string)
| CallDoesFileExist (fileName : string) (treeItem : DestTreeItem)
    (directory shareName : string)
| CallShowWarningMessage (message : string)
| CallFindTreeItem (id : string)
| CallUploadLocalFile (localPath remotePath : string) (useAzCopy : bool)
| CallCreateChild (remoteFilePath localFilePath : string)
| CallSelectWorkspaceItem (placeHolder : string)
| CallShowTreeItemPicker
| CallGetBlobPath (treeItem : DestTreeItem) (suggestedPath : string)
| CallGetFileName (treeItem : DestTreeItem)
    (directory shareName suggestedName : string)
| CallWithProgress (progressTitle : string)
| CallGetNumFilesInDirectory (directory : string)
| CallWarnFileAlreadyExists (path : string).

(** What the commands reach that is not among the sources, scripted: each
    answer is what the call resolves with, [inl] or [Some] error when it
    rejects. *)
Record Desk := {
  basename : string -> string;
  dirname : string -> string;
  fullIdOf : DestTreeItem -> string;
  maxUploadDownloadSizeBytes : Z;
  stat : string -> Thrown + Stats;
  openDialogAnswer : option (list Uri);
  inputBoxAnswer : option string;
  existsAnswer : Thrown + bool;
  overwriteAnswer : option Thrown;
  findTreeItemAnswer : Thrown + bool;
  uploadLocalFileAnswer : option Thrown;
  createChildAnswer : option Thrown;
  workspaceItemAnswer : Thrown + string;
  treeItemPickerAnswer : Thrown + DestTreeItem;
  destinationPathAnswer : Thrown + string;
  numFilesAnswer : Thrown + Z;
  progressSink : Progress;
  progressToken : CancellationToken;
  newTransferProgress : Z -> TransferProgress
}.

(** The state the commands run in: the calls made, the log of the engine,
    the lines of the output channel, the telemetry of the action context and
    the module variable [lastUploadFolder]. *)
Record World := {
  calls : list Call;
  engineLog : list Event;
  channel : list string;
  telemetry : Telemetry;
  lastUploadFolder : option Uri
}.

Definition C (A : Type) : Type := World -> outcome A * World.

Definition retC {A} (a : A) : C A := fun w => (Returned a, w).

Definition bindC {A B} (m : C A) (f : A -> C B) : C B :=
  fun w =>
    match m w with
    | (Returned a, w') => f a w'
    | (Threw e, w') => (Threw e, w')
    | (OutOfFuel, w') => (OutOfFuel, w')
    end.

Definition throwC {A} (e : Thrown) : C A := fun w => (Threw e, w).

Definition tryCatchC {A} (body : C A) (handler : Thrown -> C A) : C A :=
  fun w =>
    match body w with
    | (Threw e, w') => handler e w'
    | r => r
    end.

Declare Scope command_scope.
Delimit Scope command_scope with command.
Notation "x <- c1 ;; c2" := (bindC c1 (fun x => c2))
  (at level 61, c1 at next level, right associativity) : command_scope.
Notation "c1 ;; c2" := (bindC c1 (fun _ => c2))
  (at level 61, right associativity) : command_scope.

Definition getWorld : C World := fun w => (Returned w, w).

Definition call (c : Call) : C unit :=
  fun w =>
    (Returned tt,
     {| calls := (calls w ++ [c])%list; engineLog := engineLog w;
        channel := channel w; telemetry := telemetry w;
        lastUploadFolder := lastUploadFolder w |}).

Definition setLastUploadFolder (uri : Uri) : C unit :=
  fun w =>
    (Returned tt,
     {| calls := calls w; engineLog := engineLog w; channel := channel w;
        telemetry := telemetry w; lastUploadFolder := Some uri |}).

(** What an awaited call resolves with, or throws. *)
Definition answer {A} (r : Thrown + A) : C A :=
  match r with
  | inl e => throwC e
  | inr a => retC a
  end.

Definition answerVoid (r : option Thrown) : C unit :=
  match r with
  | Some e => throwC e
  | None => retC tt
  end.

(** [shouldUseAzCopy(context, path)] on the telemetry of the world. *)
Definition shouldUseAzCopyC (d : Desk) (path : string) : C bool :=
  fun w =>
    let (out, telemetry') :=
      shouldUseAzCopy (maxUploadDownloadSizeBytes d) (stat d) (telemetry w)
        path in
    (out,
     {| calls := calls w; engineLog := engineLog w; channel := channel w;
        telemetry := telemetry'; lastUploadFolder := lastUploadFolder w |}).

(** An [uploadFiles] run on the engine log and the output channel of the
    world. *)
Definition runUpload (upload : list string -> M (list string)) : C unit :=
  fun w =>
    match upload (channel w) (engineLog w) with
    | (Returned channel', log') =>
        (Returned tt,
         {| calls := calls w; engineLog := log'; channel := channel';
            telemetry := telemetry w;
            lastUploadFolder := lastUploadFolder w |})
    | (Threw e, log') =>
        (Threw e,
         {| calls := calls w; engineLog := log'; channel := channel w;
            telemetry := telemetry w;
            lastUploadFolder := lastUploadFolder w |})
    | (OutOfFuel, log') =>
        (OutOfFuel,
         {| calls := calls w; engineLog := log'; channel := channel w;
            telemetry := telemetry w;
            lastUploadFolder := lastUploadFolder w |})
    end.

(** The existence test both commands make: a blob for a blob container, a
    file of the share otherwise. *)
Definition remoteExists (d : Desk) (treeItem : DestTreeItem)
    (remotePath : string) : C bool :=
  (match treeItem with
   | BlobContainerTreeItem _ _ => call (CallDoesBlobExist treeItem remotePath)
   | FileShareTreeItem _ shareName =>
       call (CallDoesFileExist (basename d remotePath) treeItem
               (dirname d remotePath) shareName)
   end ;;
   answer (existsAnswer d))%command.

(** The question of [uploadFile] before it overwrites. *)
Definition overwriteQuestion (remoteFilePath : string) : string :=
  localize "fileAlreadyExists"
    ("A file with the name " ++ dquote ++ remoteFilePath ++ dquote
     ++ " already exists. Do you want to overwrite it?").

(** [src/commands/uploadFile.ts]. The early [return] inside the [try] is
    the flag the guarded block hands back. *)
Module UploadFileCommand.

Definition uploadFile (d : Desk) (treeItem : DestTreeItem) : C unit :=
  (w <- getWorld ;;
   call (CallShowOpenDialog (lastUploadFolder w)) ;;
   match openDialogAnswer d with
   | Some (uri :: _) =>
       setLastUploadFolder uri ;;
       let localFilePath := fsPath uri in
       call (CallShowInputBox
               (localize "enterNameForFile"
                  "Enter a name for the uploaded file")
               (basename d localFilePath)) ;;
       if Js.truthyString (inputBoxAnswer d) then
         let remoteFilePath :=
           match inputBoxAnswer d with
           | Some name => name
           | None => EmptyString
           end in
         found <- remoteExists d treeItem remoteFilePath ;;
         returned <-
           (if found then
              call (CallShowWarningMessage (overwriteQuestion remoteFilePath)) ;;
              answerVoid (overwriteAnswer d) ;;
              let id := fullIdOf d treeItem ++ "/" ++ remoteFilePath in
              tryCatchC
                (call (CallFindTreeItem id) ;;
                 result <- answer (findTreeItemAnswer d) ;;
                 if result then
                   useAzCopy <- shouldUseAzCopyC d localFilePath ;;
                   call (CallUploadLocalFile localFilePath remoteFilePath
                           useAzCopy) ;;
                   answerVoid (uploadLocalFileAnswer d) ;;
                   retC true
                 else retC false)
                (fun _ => retC false)
            else retC false) ;;
         if returned then retC tt
         else
           call (CallCreateChild remoteFilePath localFilePath) ;;
           answerVoid (createChildAnswer d)
       else retC tt
   | _ => retC tt
   end)%command.

End UploadFileCommand.

(** Either [uploadFiles], as the command imports it. *)
Definition Uploader : Type :=
  nat -> Host -> UploadEnv -> Platform -> DestTreeItem -> string -> string ->
  (string -> option string) -> TransferProgress -> Progress ->
  CancellationToken -> list string -> M (list string).

(** [src/commands/uploadToAzureStorage.ts]. *)
Module UploadToAzureStorageCommand.

Definition uploadToAzureStorage (fuel : nat) (h : Host) (env : UploadEnv)
    (p : Platform) (uploadFiles : Uploader) (d : Desk) (target : option Uri)
    : C unit :=
  (resourcePath <-
     match target with
     | Some uri =>
         if scheme uri =? "azurestorage"
         then throwC (newError
                        (localize "cannotUploadToAzureFromAzureResource"
                           "Cannot upload to Azure from an Azure resource."))
         else retC (fsPath uri)
     | None =>
         call (CallSelectWorkspaceItem
                 (localize "selectResourceToUpload"
                    "Select resource to upload")) ;;
         answer (workspaceItemAnswer d)
     end ;;
   call CallShowTreeItemPicker ;;
   treeItem <- answer (treeItemPickerAnswer d) ;;
   let suggested := basename d resourcePath in
   destination <-
     match treeItem with
     | BlobContainerTreeItem _ containerName =>
         call (CallGetBlobPath treeItem suggested) ;;
         destinationPath <- answer (destinationPathAnswer d) ;;
         retC (containerName, destinationPath)
     | FileShareTreeItem _ shareName =>
         call (CallGetFileName treeItem (dirname d resourcePath) shareName
                 suggested) ;;
         destinationPath <- answer (destinationPathAnswer d) ;;
         retC (shareName, destinationPath)
     end ;;
   let destinationName := fst destination in
   let destinationPath := snd destination in
   call (CallWithProgress
           ("Uploading to " ++ destinationName ++ " from " ++ resourcePath)) ;;
   stats <- answer (stat d resourcePath) ;;
   if st_isDirectory stats then
     call (CallGetNumFilesInDirectory resourcePath) ;;
     uploadSize <- answer (numFilesAnswer d) ;;
     let transferProgress := newTransferProgress d uploadSize in
     w <- getWorld ;;
     runUpload
       (uploadFiles fuel h env p treeItem resourcePath destinationPath
          (properties (telemetry w)) transferProgress (progressSink d)
          (progressToken d))
   else
     found <- remoteExists d treeItem destinationPath ;;
     (if found
      then call (CallWarnFileAlreadyExists destinationPath) ;;
           answerVoid (overwriteAnswer d)
      else retC tt) ;;
     useAzCopy <- shouldUseAzCopyC d resourcePath ;;
     call (CallUploadLocalFile resourcePath destinationPath useAzCopy) ;;
     answerVoid (uploadLocalFileAnswer d))%command.

End UploadToAzureStorageCommand.

(** A world in which nothing has happened yet. *)
Definition freshWorld : World :=
  {| calls := []; engineLog := []; channel := []; telemetry := noTelemetry;
     lastUploadFolder := None |}.

(** Sample collaborators of the commands: a big file picked, named
    [big.iso], not yet present remotely. *)
Definition sampleDesk : Desk :=
  {| basename := fun _ => "big.iso";
     dirname := fun _ => "/home/user";
     fullIdOf := fun _ => "/subscriptions/s/web";
     maxUploadDownloadSizeBytes := 4194304;
     stat := sampleStat;
     openDialogAnswer :=
       Some [{| scheme := "file"; fsPath := "/home/user/big.iso" |}];
     inputBoxAnswer := Some "big.iso";
     existsAnswer := inr false;
     overwriteAnswer := None;
     findTreeItemAnswer := inr true;
     uploadLocalFileAnswer := None;
     createChildAnswer := None;
     workspaceItemAnswer := inr "/home/user/big.iso";
     treeItemPickerAnswer := inr (BlobContainerTreeItem sampleRoot "web");
     destinationPathAnswer := inr "big.iso";
     numFilesAnswer := inr 10%Z;
     progressSink := ProgressSink 0;
     progressToken := Token 0;
     newTransferProgress := fun _ => recordingProgress |}.

(** An outcome without its value. *)
Definition forget {A : Type} (out : outcome A) : outcome unit :=
  match out with
  | Returned _ => Returned tt
  | Threw e => Threw e
  | OutOfFuel => OutOfFuel
  end.

(** The output channel after an [uploadFiles] run: the lines it returned,
    or the lines as they were. *)
Definition linesAfter (out : outcome (list string)) (before : list string)
    : list string :=
  match out with
  | Returned lines => lines
  | _ => before
  end.

(** A world after more calls, with the rest as it was. *)
Definition afterCalls (w : World) (more : list Call) : World :=
  {| calls := (calls w ++ more)%list; engineLog := engineLog w;
     channel := channel w; telemetry := telemetry w;
     lastUploadFolder := lastUploadFolder w |}.

Definition withFolder (w : World) (uri : Uri) : World :=
  {| calls := calls w; engineLog := engineLog w; channel := channel w;
     telemetry := telemetry w; lastUploadFolder := Some uri |}.

Definition withTelemetry (w : World) (t : Telemetry) : World :=
  {| calls := calls w; engineLog := engineLog w; channel := channel w;
     telemetry := t; lastUploadFolder := lastUploadFolder w |}.

Definition withEngine (w : World) (log : list Event) (lines : list string)
    : World :=
  {| calls := calls w; engineLog := log; channel := lines;
     telemetry := telemetry w; lastUploadFolder := lastUploadFolder w |}.

(** The telemetry [shouldUseAzCopy] leaves for a file of [size] bytes. *)
Definition sizedTelemetry (d : Desk) (t : Telemetry) (size : Z) : Telemetry :=
  {| measurements := setKey (measurements t) "blockBlobUploadSize" size;
     properties :=
       setKey (properties t) "azCopyBlockBlobUpload"
         (if (size >? maxUploadDownloadSizeBytes d)%Z then "true"
          else "false") |}.

(** The existence test as a call, by the kind of tree item. *)
Definition existsCall (d : Desk) (treeItem : DestTreeItem)
    (remotePath : string) : Call :=
  match treeItem with
  | BlobContainerTreeItem _ _ => CallDoesBlobExist treeItem remotePath
  | FileShareTreeItem _ shareName =>
      CallDoesFileExist (basename d remotePath) treeItem
        (dirname d remotePath) shareName
  end.

(** The first two calls of [uploadFile] once a file has been picked. *)
Definition pickCalls (d : Desk) (w : World) (uri : Uri) : list Call :=
  [CallShowOpenDialog (lastUploadFolder w);
   CallShowInputBox "Enter a name for the uploaded file"
     (basename d (fsPath uri))].

(** The file picked in the dialog and the name typed for it, when both are
    there. *)
Definition pickedFile (d : Desk) : option (Uri * string) :=
  match openDialogAnswer d with
  | Some (uri :: _) =>
      if Js.truthyString (inputBoxAnswer d)
      then match inputBoxAnswer d with
           | Some name => Some (uri, name)
           | None => None
           end
      else None
  | _ => None
  end.

(** The guarded in-place upload of [uploadFile] goes through: the tree item
    is found, the file can be inspected and the upload resolves. *)
Definition inPlaceSucceeds (d : Desk) (localPath : string) : bool :=
  match findTreeItemAnswer d, stat d localPath, uploadLocalFileAnswer d with
  | inr true, inr _, None => true
  | _, _, _ => false
  end.

(** The resource [uploadToAzureStorage] works on: the path of the target,
    or the answer of the workspace picker. *)
Definition resourceIs (d : Desk) (target : option Uri) (path : string)
    : Prop :=
  match target with
  | Some uri => (scheme uri =? "azurestorage") = false /\ fsPath uri = path
  | None => workspaceItemAnswer d = inr path
  end.

(** The calls of [uploadToAzureStorage] up to the inspection of the
    resource. *)
Definition openingCalls (d : Desk) (target : option Uri)
    (treeItem : DestTreeItem) (path : string) : list Call :=
  (match target with
   | Some _ => []
   | None => [CallSelectWorkspaceItem "Select resource to upload"]
   end
   ++ [CallShowTreeItemPicker;
       match treeItem with
       | BlobContainerTreeItem _ _ =>
           CallGetBlobPath treeItem (basename d path)
       | FileShareTreeItem _ shareName =>
           CallGetFileName treeItem (dirname d path) shareName
             (basename d path)
       end;
       CallWithProgress
         ("Uploading to "
          ++ match treeItem with
             | BlobContainerTreeItem _ name => name
             | FileShareTreeItem _ name => name
             end
          ++ " from " ++ path)])%list.

(** A desk on which the picked file already exists remotely and its tree
    item is known. *)
Definition overwritingDesk : Desk :=
  {| basename := basename sampleDesk; dirname := dirname sampleDesk;
     fullIdOf := fullIdOf sampleDesk;
     maxUploadDownloadSizeBytes := maxUploadDownloadSizeBytes sampleDesk;
     stat := stat sampleDesk;
     openDialogAnswer := openDialogAnswer sampleDesk;
     inputBoxAnswer := inputBoxAnswer sampleDesk;
     existsAnswer := inr true;
     overwriteAnswer := None;
     findTreeItemAnswer := inr true;
     uploadLocalFileAnswer := None;
     createChildAnswer := None;
     workspaceItemAnswer := workspaceItemAnswer sampleDesk;
     treeItemPickerAnswer := treeItemPickerAnswer sampleDesk;
     destinationPathAnswer := destinationPathAnswer sampleDesk;
     numFilesAnswer := numFilesAnswer sampleDesk;
     progressSink := progressSink sampleDesk;
     progressToken := progressToken sampleDesk;
     newTransferProgress := newTransferProgress sampleDesk |}.

(** The same, with an in-place upload that fails. *)
Definition failingUploadDesk : Desk :=
  {| basename := basename sampleDesk; dirname := dirname sampleDesk;
     fullIdOf := fullIdOf sampleDesk;
     maxUploadDownloadSizeBytes := maxUploadDownloadSizeBytes sampleDesk;
     stat := stat sampleDesk;
     openDialogAnswer := openDialogAnswer sampleDesk;
     inputBoxAnswer := inputBoxAnswer sampleDesk;
     existsAnswer := inr true;
     overwriteAnswer := None;
     findTreeItemAnswer := inr true;
     uploadLocalFileAnswer := Some (newError "RestError: 403");
     createChildAnswer := None;
     workspaceItemAnswer := workspaceItemAnswer sampleDesk;
     treeItemPickerAnswer := treeItemPickerAnswer sampleDesk;
     destinationPathAnswer := destinationPathAnswer sampleDesk;
     numFilesAnswer := numFilesAnswer sampleDesk;
     progressSink := progressSink sampleDesk;
     progressToken := progressToken sampleDesk;
     newTransferProgress := newTransferProgress sampleDesk |}.

(** The same, with an operator who dismisses the overwrite question. *)
Definition decliningDesk : Desk :=
  {| basename := basename sampleDesk; dirname := dirname sampleDesk;
     fullIdOf := fullIdOf sampleDesk;
     maxUploadDownloadSizeBytes := maxUploadDownloadSizeBytes sampleDesk;
     stat := stat sampleDesk;
     openDialogAnswer := openDialogAnswer sampleDesk;
     inputBoxAnswer := inputBoxAnswer sampleDesk;
     existsAnswer := inr true;
     overwriteAnswer := Some userCancelled;
     findTreeItemAnswer := inr true;
     uploadLocalFileAnswer := None;
     createChildAnswer := None;
     workspaceItemAnswer := workspaceItemAnswer sampleDesk;
     treeItemPickerAnswer := treeItemPickerAnswer sampleDesk;
     destinationPathAnswer := destinationPathAnswer sampleDesk;
     numFilesAnswer := numFilesAnswer sampleDesk;
     progressSink := progressSink sampleDesk;
     progressToken := progressToken sampleDesk;
     newTransferProgress := newTransferProgress sampleDesk |}.

(** A desk on which nothing is picked in the dialog. *)
Definition idleDesk : Desk :=
  {| basename := basename sampleDesk; dirname := dirname sampleDesk;
     fullIdOf := fullIdOf sampleDesk;
     maxUploadDownloadSizeBytes := maxUploadDownloadSizeBytes sampleDesk;
     stat := stat sampleDesk;
     openDialogAnswer := Some [];
     inputBoxAnswer := inputBoxAnswer sampleDesk;
     existsAnswer := existsAnswer sampleDesk;
     overwriteAnswer := None;
     findTreeItemAnswer := inr true;
     uploadLocalFileAnswer := None;
     createChildAnswer := None;
     workspaceItemAnswer := workspaceItemAnswer sampleDesk;
     treeItemPickerAnswer := treeItemPickerAnswer sampleDesk;
     destinationPathAnswer := destinationPathAnswer sampleDesk;
     numFilesAnswer := numFilesAnswer sampleDesk;
     progressSink := progressSink sampleDesk;
     progressToken := progressToken sampleDesk;
     newTransferProgress := newTransferProgress sampleDesk |}.

(** A desk whose resource is a folder of ten files. *)
Definition folderStat (path : string) : Thrown + Stats :=
  if path =? "/home/user/site"
  then inr {| st_size := 4096; st_isDirectory := true |}
  else sampleStat path.

Definition folderDesk : Desk :=
  {| basename := fun _ => "site"; dirname := dirname sampleDesk;
     fullIdOf := fullIdOf sampleDesk;
     maxUploadDownloadSizeBytes := maxUploadDownloadSizeBytes sampleDesk;
     stat := folderStat;
     openDialogAnswer := openDialogAnswer sampleDesk;
     inputBoxAnswer := inputBoxAnswer sampleDesk;
     existsAnswer := existsAnswer sampleDesk;
     overwriteAnswer := None;
     findTreeItemAnswer := inr true;
     uploadLocalFileAnswer := None;
     createChildAnswer := None;
     workspaceItemAnswer := inr "/home/user/site";
     treeItemPickerAnswer := treeItemPickerAnswer sampleDesk;
     destinationPathAnswer := inr "site";
     numFilesAnswer := numFilesAnswer sampleDesk;
     progressSink := progressSink sampleDesk;
     progressToken := progressToken sampleDesk;
     newTransferProgress := newTransferProgress sampleDesk |}.

(* ------------------------------------------------------------------ *)
(** * Strings *)

Section StringFacts.

Lemma append_empty_r (s : string) : s ++ EmptyString = s.
Proof. induction s as [|c s IH]; simpl; [reflexivity | now rewrite IH]. Qed.

Lemma append_assoc (a b c : string) : (a ++ b) ++ c = a ++ b ++ c.
Proof. induction a as [|x a IH]; simpl; [reflexivity | now rewrite IH]. Qed.

Lemma length_append (a b : string) :
  String.length (a ++ b) = String.length a + String.length b.
Proof. induction a as [|x a IH]; simpl; [reflexivity | now rewrite IH]. Qed.

Lemma append_inv_tail (a b c : string) : a ++ c = b ++ c -> a = b.
Proof.
  revert b; induction a as [|x a IH]; intros [|y b] H; simpl in H.
  - reflexivity.
  - apply (f_equal String.length) in H; simpl in H.
    rewrite length_append in H; lia.
  - apply (f_equal String.length) in H; simpl in H.
    rewrite length_append in H; lia.
  - injection H as -> H. now rewrite (IH b H).
Qed.

Lemma substring_all (s : string) : substring 0 (String.length s) s = s.
Proof. induction s as [|c s IH]; simpl; [reflexivity | now rewrite IH]. Qed.

Lemma substring_skip (a b : string) :
  substring (String.length a) (String.length b) (a ++ b) = b.
Proof. induction a as [|x a IH]; simpl; [apply substring_all | exact IH]. Qed.

Lemma substring_split_at (s : string) :
  forall n, n <= String.length s ->
    substring 0 n s ++ substring n (String.length s - n) s = s.
Proof.
  induction s as [|c s IH]; intros [|n] Hn; simpl in *; try reflexivity.
  - now rewrite substring_all.
  - rewrite IH by lia. reflexivity.
Qed.

(** [endsWith] decides "is a suffix of". *)
Lemma endsWith_true_iff (s t : string) :
  Js.endsWith s t = true <-> exists pre, s = pre ++ t.
Proof.
  unfold Js.endsWith; split.
  - intros H. apply andb_true_iff in H as [Hle Heq].
    apply Nat.leb_le in Hle. apply String.eqb_eq in Heq.
    pose proof (substring_split_at s (String.length s - String.length t)
                  ltac:(lia)) as Hs.
    replace (String.length s - (String.length s - String.length t))
      with (String.length t) in Hs by lia.
    rewrite Heq in Hs.
    exists (substring 0 (String.length s - String.length t) s).
    now symmetry.
  - intros [pre ->]. rewrite length_append.
    apply andb_true_iff; split.
    + apply Nat.leb_le. lia.
    + replace (String.length pre + String.length t - String.length t)
        with (String.length pre) by lia.
      rewrite substring_skip. apply String.eqb_refl.
Qed.

Lemma endsWith_append (a t : string) : Js.endsWith (a ++ t) t = true.
Proof. apply endsWith_true_iff. now exists a. Qed.

(** A common tail can be dropped from both sides of the suffix test. *)
Lemma endsWith_cancel (s t g : string) :
  Js.endsWith (s ++ g) (t ++ g) = Js.endsWith s t.
Proof.
  apply eq_true_iff_eq. rewrite !endsWith_true_iff. split.
  - intros [pre H]. exists pre.
    rewrite <- append_assoc in H. exact (append_inv_tail _ _ _ H).
  - intros [pre ->]. exists pre. now rewrite append_assoc.
Qed.

Lemma endsWith_longer (s a t : string) :
  Js.endsWith s (a ++ t) = true -> Js.endsWith s t = true.
Proof.
  rewrite !endsWith_true_iff. intros [pre ->].
  exists (pre ++ a). now rewrite append_assoc.
Qed.

End StringFacts.

(* ------------------------------------------------------------------ *)
(** * Location descriptors *)

Section Descriptors.

Lemma directorySource_path (p : Platform) (dir : string) :
  l_path (AzCopyUtils.createAzCopyLocalDirectorySource p dir)
  = directoryGlobPath p ".*" dir.
Proof. reflexivity. Qed.

Lemma blobOnly_directorySource_path (p : Platform) (dir : string) :
  l_path (BlobOnly.createAzCopyLocalDirectorySource p dir)
  = directoryGlobPath p "*" dir.
Proof. reflexivity. Qed.

Lemma directoryGlobPath_shape (p : Platform) (glob dir : string) :
  directoryGlobPath p glob dir
  = dir ++ (if Js.endsWith dir (sep p) then EmptyString else sep p) ++ glob.
Proof. unfold directoryGlobPath. now destruct (Js.endsWith dir (sep p)). Qed.

Lemma directoryGlobPath_ends (p : Platform) (glob dir : string) :
  Js.endsWith (directoryGlobPath p glob dir) (sep p ++ glob) = true.
Proof.
  unfold directoryGlobPath.
  destruct (Js.endsWith dir (sep p)) eqn:E.
  - now rewrite endsWith_cancel.
  - apply endsWith_append.
Qed.

Lemma directoryGlobPath_doubled (p : Platform) (glob dir : string) :
  Js.endsWith (directoryGlobPath p glob dir) (sep p ++ sep p ++ glob)
  = Js.endsWith dir (sep p ++ sep p).
Proof.
  unfold directoryGlobPath.
  rewrite <- (append_assoc (sep p) (sep p) glob).
  destruct (Js.endsWith dir (sep p)) eqn:E.
  - apply endsWith_cancel.
  - rewrite <- (append_assoc dir (sep p) glob), !endsWith_cancel, E.
    destruct (Js.endsWith dir (sep p ++ sep p)) eqn:E2; [|reflexivity].
    apply endsWith_longer in E2. congruence.
Qed.

Lemma directoryGlobPath_oneSep (p : Platform) (glob dir : string) :
  globAfterOneSep p glob (directoryGlobPath p glob dir)
  = negb (Js.endsWith dir (sep p ++ sep p)).
Proof.
  unfold globAfterOneSep.
  now rewrite directoryGlobPath_ends, directoryGlobPath_doubled.
Qed.

(** A path that starts with ['/'] passes the test on its first character. *)
Lemma firstCharIs_slash (rest : string) :
  Js.firstCharIs (String "/" rest) "/" = true.
Proof. reflexivity. Qed.

Lemma slashed_path_cases (d : string) :
  (Js.firstCharIs d "/" = true /\ exists rest, d = String "/" rest)
  \/ Js.firstCharIs d "/" = false.
Proof.
  destruct d as [|c rest]; [now right|].
  unfold Js.firstCharIs; simpl.
  destruct (Ascii.eqb c "/") eqn:E; [left | now right].
  apply Ascii.eqb_eq in E; subst. split; [reflexivity | now exists rest].
Qed.

End Descriptors.

(** C7, as stated, fails on a directory path that already ends with two
    separators: nothing is appended and both separators stay in front of the
    glob suffix. *)
Lemma C7_two_trailing_separators_kept :
  l_path (AzCopyUtils.createAzCopyLocalDirectorySource Posix "dir//")
  = "dir//.*"
  /\ globAfterOneSep Posix ".*"
       (l_path (AzCopyUtils.createAzCopyLocalDirectorySource Posix "dir//"))
     = false.
Proof. split; reflexivity. Qed.

(** C7 (amended): for every directory path, both
    [createAzCopyLocalDirectorySource] return a Local descriptor with
    [useWildCard] true whose path is the input, then one separator only when
    the input does not end with one, then the glob suffix. The path therefore
    always ends with separator and glob, and the glob has exactly one
    separator right before it unless the input itself ended with two. *)
Theorem C7_directory_source_path (p : Platform) (dir : string) :
  let src := AzCopyUtils.createAzCopyLocalDirectorySource p dir in
  let old := BlobOnly.createAzCopyLocalDirectorySource p dir in
  let added := if Js.endsWith dir (sep p) then EmptyString else sep p in
  (l_type src = "Local" /\ l_useWildCard src = true
   /\ l_path src = dir ++ added ++ ".*"
   /\ Js.endsWith (l_path src) (sep p ++ ".*") = true
   /\ globAfterOneSep p ".*" (l_path src)
      = negb (Js.endsWith dir (sep p ++ sep p)))
  /\
  (l_type old = "Local" /\ l_useWildCard old = true
   /\ l_path old = dir ++ added ++ "*"
   /\ Js.endsWith (l_path old) (sep p ++ "*") = true
   /\ globAfterOneSep p "*" (l_path old)
      = negb (Js.endsWith dir (sep p ++ sep p))).
Proof.
  cbv zeta.
  rewrite directorySource_path, blobOnly_directorySource_path.
  repeat split;
    auto using directoryGlobPath_shape, directoryGlobPath_ends,
      directoryGlobPath_oneSep.
Qed.

(** C8: for every destination path, [createAzCopyDestination] (of either
    file) returns a RemoteSas descriptor whose path begins with ['/'] and
    whose [useWildCard] is false; a path that already begins with ['/'] is
    kept as it is, so normalising twice is normalising once. *)
Theorem C8_destination_path_normalised (treeItem : DestTreeItem)
    (root : IStorageRoot) (containerName destinationPath : string) :
  let dst := AzCopyUtils.createAzCopyDestination treeItem destinationPath in
  let old := BlobOnly.createAzCopyDestination root containerName
               destinationPath in
  (r_type dst = "RemoteSas" /\ r_useWildCard dst = false
   /\ (exists rest, r_path dst = "/" ++ rest)
   /\ r_path (AzCopyUtils.createAzCopyDestination treeItem
                (String "/" destinationPath))
      = String "/" destinationPath
   /\ r_path (AzCopyUtils.createAzCopyDestination treeItem (r_path dst))
      = r_path dst)
  /\
  (r_type old = "RemoteSas" /\ r_useWildCard old = false
   /\ (exists rest, r_path old = "/" ++ rest)
   /\ r_path (BlobOnly.createAzCopyDestination root containerName
                (String "/" destinationPath))
      = String "/" destinationPath
   /\ r_path (BlobOnly.createAzCopyDestination root containerName (r_path old))
      = r_path old).
Proof.
  cbv zeta. unfold AzCopyUtils.createAzCopyDestination,
    BlobOnly.createAzCopyDestination; cbn [r_type r_useWildCard r_path].
  rewrite firstCharIs_slash.
  destruct (slashed_path_cases destinationPath) as [[E [rest ->]] | E];
    rewrite E; cbn [append]; rewrite ?firstCharIs_slash;
    repeat split; eauto.
Qed.

(** C9: on every directory path the two [createAzCopyLocalDirectorySource]
    agree on [type] ("Local") and [useWildCard] (true), and their paths are
    one common stem followed by [".*"] in one file and by ["*"] in the other;
    the two paths are never equal. *)
Theorem C9_glob_suffixes_differ (p : Platform) (dir : string) :
  let src := AzCopyUtils.createAzCopyLocalDirectorySource p dir in
  let old := BlobOnly.createAzCopyLocalDirectorySource p dir in
  l_type src = "Local" /\ l_type old = "Local"
  /\ l_useWildCard src = true /\ l_useWildCard old = true
  /\ (exists stem, l_path src = stem ++ ".*" /\ l_path old = stem ++ "*")
  /\ l_path src <> l_path old.
Proof.
  cbv zeta.
  rewrite directorySource_path, blobOnly_directorySource_path,
    !directoryGlobPath_shape.
  repeat split.
  - exists (dir ++ if Js.endsWith dir (sep p) then EmptyString else sep p).
    now rewrite !append_assoc.
  - intros H. apply (f_equal String.length) in H.
    rewrite !length_append in H. simpl in H. lia.
Qed.

(* ------------------------------------------------------------------ *)
(** * Logs *)

Section Logs.

Local Open Scope list_scope.

Lemma countEv_app (p : Event -> bool) (a b : list Event) :
  countEv p (a ++ b) = countEv p a + countEv p b.
Proof. unfold countEv. now rewrite filter_app, length_app. Qed.

Lemma countEv_cons (p : Event -> bool) (e : Event) (l : list Event) :
  countEv p (e :: l) = (if p e then 1 else 0) + countEv p l.
Proof. unfold countEv; simpl. now destruct (p e). Qed.

Variables (h : Host) (src : AzCopyLocation) (jobId : string).
Variables (sink : option Progress) (checked : bool).

Local Abbreviation turn := (cycleEvents h src jobId sink checked).
Local Abbreviation turns := (cycles h src jobId sink checked).

Lemma cycleEvents_counts (n : nat) :
  countEv isCopy (turn n) = 0
  /\ countEv isCheck (turn n) = (if checked then 1 else 0)
  /\ countEv isFetch (turn n) = 1
  /\ countEv isLogReport (turn n) = 1
  /\ countEv isNotification (turn n) = (if supplied sink then 1 else 0)
  /\ countEv isWait (turn n) = 1.
Proof.
  unfold cycleEvents.
  destruct checked, sink; repeat split; reflexivity.
Qed.

Lemma cycles_counts (count : nat) : forall from,
  countEv isCopy (turns from count) = 0
  /\ countEv isCheck (turns from count) = (if checked then count else 0)
  /\ countEv isFetch (turns from count) = count
  /\ countEv isLogReport (turns from count) = count
  /\ countEv isNotification (turns from count)
     = (if supplied sink then count else 0)
  /\ countEv isWait (turns from count) = count.
Proof.
  induction count as [|count IH]; intros from; simpl.
  - destruct checked, (supplied sink); repeat split; reflexivity.
  - rewrite !countEv_app.
    destruct (cycleEvents_counts from) as (-> & -> & -> & -> & -> & ->).
    destruct (IH (S from)) as (-> & -> & -> & -> & -> & ->).
    destruct checked, (supplied sink); repeat split; reflexivity.
Qed.

Lemma cycles_snoc (count : nat) : forall from,
  turns from (S count) = turns from count ++ turn (from + count).
Proof.
  induction count as [|count IH]; intros from.
  - simpl. now rewrite app_nil_r, Nat.add_0_r.
  - change (cycles h src jobId sink checked from (S (S count)))
      with (cycleEvents h src jobId sink checked from
            ++ cycles h src jobId sink checked (S from) (S count)).
    rewrite IH. simpl. rewrite <- app_assoc.
    now replace (from + S count) with (S (from + count)) by lia.
Qed.

Lemma paced_cycleEvents (n : nat) (rest : list Event) :
  paced false (turn n ++ rest) = paced false rest.
Proof.
  unfold cycleEvents. destruct checked, sink; reflexivity.
Qed.

Lemma paced_cycles (count : nat) : forall from rest,
  paced false (turns from count ++ rest) = paced false rest.
Proof.
  induction count as [|count IH]; intros from rest; simpl; [reflexivity|].
  rewrite <- app_assoc, paced_cycleEvents. apply IH.
Qed.

Lemma waitsAreFixed_cycles (count : nat) : forall from,
  waitsAreFixed (turns from count) = true.
Proof.
  unfold waitsAreFixed.
  induction count as [|count IH]; intros from; simpl; [reflexivity|].
  rewrite forallb_app, IH, andb_true_r.
  unfold cycleEvents. destruct checked, sink; reflexivity.
Qed.

End Logs.

Lemma checkedBeforeFetch_cycles (h : Host) (src : AzCopyLocation)
    (jobId : string) (sink : option Progress) (count : nat) :
  forall from rest,
    checkedBeforeFetch false
      (cycles h src jobId sink true from count ++ rest)%list
    = checkedBeforeFetch false rest.
Proof.
  induction count as [|count IH]; intros from rest; simpl; [reflexivity|].
  rewrite <- app_assoc.
  destruct sink; simpl; apply IH.
Qed.

(* ------------------------------------------------------------------ *)
(** * The polling loop *)

Section While.

Local Open Scope list_scope.

Context {S : Type} (cond : S -> bool) (body : S -> M S).

Lemma while_done (fuel : nat) (s : S) (log : list Event) :
  cond s = false -> while fuel cond body s log = (Returned s, log).
Proof. intros H. destruct fuel; simpl; now rewrite H. Qed.

Lemma while_step (fuel : nat) (s s' : S) (log log' : list Event) :
  cond s = true -> body s log = (Returned s', log') ->
  while (Datatypes.S fuel) cond body s log = while fuel cond body s' log'.
Proof. intros Hc Hb. simpl. rewrite Hc. unfold bind. now rewrite Hb. Qed.

Lemma while_throw (fuel : nat) (s : S) (e : Thrown) (log log' : list Event) :
  cond s = true -> body s log = (Threw e, log') ->
  while (Datatypes.S fuel) cond body s log = (Threw e, log').
Proof. intros Hc Hb. simpl. rewrite Hc. unfold bind. now rewrite Hb. Qed.

End While.

Section Poller.

Local Open Scope list_scope.

Variables (h : Host) (exes : option AzCopyExes).
Variables (src : AzCopyLocation) (jobId : string).
Variables (sink : option Progress) (cancel : option (nat -> option Thrown)).

Local Abbreviation turn :=
  (AzCopyUtils.pollOnce (AzCopyClient h exes) src jobId recordingProgress
     sink (cancelCheck cancel)).
Local Abbreviation status := (engineStatus h jobId).
Local Abbreviation fetched := (countEv isFetch).
Local Abbreviation checks := (countEv isCheck).

Lemma pollOnce_passes (st : option TransferStatus) (log : list Event) :
  checkPasses cancel (checks log) ->
  turn st log
  = (Returned (status (fetched log)),
     log ++ cycleEvents h src jobId sink (supplied cancel) (fetched log)).
Proof.
  unfold AzCopyUtils.pollOnce, cancelCheck, checkPasses, cycleEvents.
  destruct cancel as [script|]; simpl.
  - intros Hs. unfold bind, scriptedCheck at 1. rewrite Hs. cbn.
    rewrite countEv_app. cbn. rewrite Nat.add_0_r.
    destruct sink; cbn; rewrite <- !app_assoc; reflexivity.
  - intros _. unfold bind. cbn.
    destruct sink; cbn; rewrite <- !app_assoc; reflexivity.
Qed.

Lemma pollOnce_cancelled (script : nat -> option Thrown) (e : Thrown)
    (st : option TransferStatus) (log : list Event) :
  cancel = Some script -> script (checks log) = Some e ->
  turn st log = (Threw e, log ++ [EvThrowIfCanceled]).
Proof.
  intros -> Hs. unfold AzCopyUtils.pollOnce, cancelCheck; simpl.
  unfold bind, scriptedCheck at 1. now rewrite Hs.
Qed.

Lemma counts_after_turn (log : list Event) (n : nat) :
  fetched (log ++ cycleEvents h src jobId sink (supplied cancel) n)
  = Datatypes.S (fetched log)
  /\ checks (log ++ cycleEvents h src jobId sink (supplied cancel) n)
     = (if supplied cancel then Datatypes.S (checks log) else checks log).
Proof.
  rewrite !countEv_app.
  destruct (cycleEvents_counts h src jobId sink (supplied cancel) n)
    as (_ & -> & -> & _).
  destruct (supplied cancel); lia.
Qed.

(** The loop runs [count] more turns and ends on the first 'EndOfJob'. *)
Lemma loop_reaches_end (count : nat) :
  forall (st : option TransferStatus) (log : list Event) (fuel : nat),
    notEndOfJob st = true ->
    (forall n, fetched log <= n < fetched log + count ->
               notEndOfJob (status n) = true) ->
    notEndOfJob (status (fetched log + count)) = false ->
    (forall n, checks log <= n <= checks log + count ->
               checkPasses cancel n) ->
    count < fuel ->
    while fuel notEndOfJob turn st log
    = (Returned (status (fetched log + count)),
       log ++ cycles h src jobId sink (supplied cancel) (fetched log)
                (Datatypes.S count)).
Proof.
  induction count as [|count IH]; intros st log fuel Hst Hrun Hend Hpass Hfuel;
    (destruct fuel as [|fuel]; [lia|]);
    rewrite (while_step _ _ _ _ _ _ _ Hst
               (pollOnce_passes st log (Hpass (checks log) ltac:(lia))));
    destruct (counts_after_turn log (fetched log)) as [Hf Hc].
  - rewrite Nat.add_0_r in *. rewrite while_done by exact Hend.
    simpl. now rewrite app_nil_r.
  - rewrite (IH _ _ fuel).
    + rewrite Hf. replace (Datatypes.S (fetched log) + count)
        with (fetched log + Datatypes.S count) by lia.
      now rewrite <- app_assoc.
    + apply Hrun; lia.
    + rewrite Hf. intros n Hn. apply Hrun; lia.
    + rewrite Hf. now replace (Datatypes.S (fetched log) + count)
        with (fetched log + Datatypes.S count) by lia.
    + rewrite Hc. intros n Hn. apply Hpass.
      destruct (supplied cancel); lia.
    + lia.
Qed.

(** The loop runs [count] full turns and the next check throws. *)
Lemma loop_cancelled (script : nat -> option Thrown) (e : Thrown)
    (count : nat) :
  cancel = Some script ->
  forall (st : option TransferStatus) (log : list Event) (fuel : nat),
    notEndOfJob st = true ->
    (forall n, fetched log <= n < fetched log + count ->
               notEndOfJob (status n) = true) ->
    (forall n, checks log <= n < checks log + count -> script n = None) ->
    script (checks log + count) = Some e ->
    count < fuel ->
    while fuel notEndOfJob turn st log
    = (Threw e,
       log ++ cycles h src jobId sink true (fetched log) count
           ++ [EvThrowIfCanceled]).
Proof.
  intros Hcancel.
  induction count as [|count IH]; intros st log fuel Hst Hrun Hpass Hthrow Hfuel;
    (destruct fuel as [|fuel]; [lia|]).
  - rewrite Nat.add_0_r in Hthrow.
    now rewrite (while_throw _ _ _ _ _ _ _ Hst
                   (pollOnce_cancelled script e st log Hcancel Hthrow)).
  - assert (Hp : checkPasses cancel (checks log)).
    { rewrite Hcancel; simpl. apply Hpass; lia. }
    rewrite (while_step _ _ _ _ _ _ _ Hst (pollOnce_passes st log Hp)).
    destruct (counts_after_turn log (fetched log)) as [Hf Hc].
    rewrite Hcancel in *; cbn [supplied checkPasses] in *.
    rewrite (IH _ _ fuel).
    + rewrite Hf. cbn [cycles]. now rewrite <- !app_assoc.
    + apply Hrun; lia.
    + rewrite Hf. intros n Hn. apply Hrun; lia.
    + rewrite Hc. intros n Hn. apply Hpass; lia.
    + rewrite Hc. now replace (Datatypes.S (checks log) + count)
        with (checks log + Datatypes.S count) by lia.
    + lia.
Qed.

End Poller.

(* ------------------------------------------------------------------ *)
(** * Runs of the poller *)

Section Runs.

Local Open Scope list_scope.

Variables (h : Host) (exes : option AzCopyExes).
Variables (src dst : AzCopyLocation) (options : ICopyOptions).
Variables (sink : option Progress) (cancel : option (nat -> option Thrown)).

Local Abbreviation poller fuel :=
  (AzCopyUtils.startAndWaitForCopy fuel (AzCopyClient h exes) src dst options
     recordingProgress sink (cancelCheck cancel)).
Local Abbreviation status := (engineStatus h (engineJobId h)).
Local Abbreviation fetched := (countEv isFetch).
Local Abbreviation checks := (countEv isCheck).

Lemma poller_unfold (fuel : nat) (log : list Event) :
  poller fuel log
  = match while fuel notEndOfJob
            (AzCopyUtils.pollOnce (AzCopyClient h exes) src (engineJobId h)
               recordingProgress sink (cancelCheck cancel))
            None (log ++ [EvCopy src dst options]) with
    | (Returned _, log') => (Returned (engineJobId h), log')
    | (Threw e, log') => (Threw e, log')
    | (OutOfFuel, log') => (OutOfFuel, log')
    end.
Proof.
  unfold AzCopyUtils.startAndWaitForCopy, bind; cbn.
  now destruct (while _ _ _ _ _) as [[| |] ?].
Qed.

Lemma counts_after_copy (log : list Event) :
  fetched (log ++ [EvCopy src dst options]) = fetched log
  /\ checks (log ++ [EvCopy src dst options]) = checks log.
Proof. rewrite !countEv_app; cbn; lia. Qed.

Lemma poller_returns (count fuel : nat) (log : list Event) :
  (forall n, fetched log <= n < fetched log + count ->
             notEndOfJob (status n) = true) ->
  notEndOfJob (status (fetched log + count)) = false ->
  (forall n, checks log <= n <= checks log + count -> checkPasses cancel n) ->
  count < fuel ->
  poller fuel log
  = (Returned (engineJobId h),
     log ++ EvCopy src dst options
         :: cycles h src (engineJobId h) sink (supplied cancel) (fetched log)
              (S count)).
Proof.
  intros Hrun Hend Hpass Hfuel.
  destruct (counts_after_copy log) as [Hf Hc].
  rewrite poller_unfold, (loop_reaches_end h exes src _ sink cancel count);
    rewrite ?Hf, ?Hc; auto.
  now rewrite <- app_assoc.
Qed.

Lemma poller_cancelled (script : nat -> option Thrown) (e : Thrown)
    (count fuel : nat) (log : list Event) :
  cancel = Some script ->
  (forall n, fetched log <= n < fetched log + count ->
             notEndOfJob (status n) = true) ->
  (forall n, checks log <= n < checks log + count -> script n = None) ->
  script (checks log + count) = Some e ->
  count < fuel ->
  poller fuel log
  = (Threw e,
     log ++ EvCopy src dst options
         :: cycles h src (engineJobId h) sink true (fetched log) count
         ++ [EvThrowIfCanceled]).
Proof.
  intros Hcancel Hrun Hpass Hthrow Hfuel.
  destruct (counts_after_copy log) as [Hf Hc].
  rewrite poller_unfold,
    (loop_cancelled h exes src _ sink cancel script e count Hcancel);
    rewrite ?Hf, ?Hc; auto.
  now rewrite <- app_assoc.
Qed.

End Runs.

Lemma blobOnly_poller_same :
  BlobOnly.startAndWaitForCopy = AzCopyUtils.startAndWaitForCopy.
Proof. reflexivity. Qed.

Lemma blobOnly_validate_same :
  BlobOnly.validateAzCopyInstalled = AzCopyUtils.validateAzCopyInstalled.
Proof. reflexivity. Qed.

Section Facade.

Local Open Scope list_scope.

Variable h : Host.

Lemma validate_installed (log : list Event) :
  versionProbe h = None ->
  AzCopyUtils.validateAzCopyInstalled h log
  = (Returned true, log ++ [EvExecuteCommand (azCopyExePath h) "--version"]).
Proof.
  intros Hp.
  unfold AzCopyUtils.validateAzCopyInstalled, AzCopyUtils.azCopyInstalled,
    callWithTelemetryAndErrorHandling, executeCommand, tryCatch, bind, emit,
    ret, throw.
  now rewrite Hp.
Qed.

Lemma validate_missing (e : Thrown) :
  versionProbe h = Some e ->
  exists log,
    AzCopyUtils.validateAzCopyInstalled h [] = (Returned false, log)
    /\ countEv isCopy log = 0 /\ countEv isFetch log = 0.
Proof.
  intros Hp.
  unfold AzCopyUtils.validateAzCopyInstalled, AzCopyUtils.azCopyInstalled,
    callWithTelemetryAndErrorHandling, executeCommand, showWarningMessage,
    openUrl, showWarningMessageFloating, tryCatch, bind, emit, ret, throw.
  rewrite Hp.
  destruct (promptAnswer h); cbn;
    [destruct (openUrlOutcome h); cbn | |];
    eexists; repeat split; reflexivity.
Qed.

End Facade.

(* ------------------------------------------------------------------ *)
(** * Runs of the facade *)

Section FacadeRuns.

Local Open Scope list_scope.

Variable h : Host.
Variables (src : ILocalLocation) (dst : IRemoteSasLocation).
Variables (sink : option Progress) (check : option (M unit)).

Local Abbreviation probe := (EvExecuteCommand (azCopyExePath h) "--version").
Local Abbreviation hostExes :=
  {| AzCopyExe := azCopyExePath h; AzCopyExe64 := azCopyExePath h;
     AzCopyExe32 := azCopyExePath h |}.

Lemma facade_unfold (fuel : nat) (fromTo : string) :
  versionProbe h = None ->
  run (AzCopyUtils.azCopyTransfer fuel h src dst recordingProgress fromTo sink
         check)
  = classify h
      (AzCopyUtils.startAndWaitForCopy fuel (AzCopyClient h (Some hostExes))
         (LocalLocation src) (RemoteSasLocation dst)
         {| fromTo := fromTo; overwriteExisting := "true";
            recursive := true; followSymLinks := true;
            excludePath := Some ".git;.vscode" |}
         recordingProgress sink check [probe]).
Proof.
  intros Hp. unfold run, AzCopyUtils.azCopyTransfer.
  unfold bind at 1. rewrite (validate_installed h [] Hp). cbv zeta. cbn [app].
  unfold bind at 1.
  destruct (AzCopyUtils.startAndWaitForCopy _ _ _ _ _ _ _ _ _)
    as [[jobId|e|] log]; try reflexivity.
  unfold classify, bind, localize; cbn.
  now destruct (absentOrFailed _).
Qed.

Lemma blobOnly_facade_unfold (fuel : nat) :
  versionProbe h = None ->
  run (BlobOnly.azCopyTransfer fuel h src dst recordingProgress sink check)
  = classify h
      (AzCopyUtils.startAndWaitForCopy fuel (AzCopyClient h None)
         (LocalLocation src) (RemoteSasLocation dst)
         {| fromTo := "LocalBlob"; overwriteExisting := "true";
            recursive := true; followSymLinks := true;
            excludePath := None |}
         recordingProgress sink check [probe; EvSetAzCopyExes hostExes]).
Proof.
  intros Hp. unfold run, BlobOnly.azCopyTransfer.
  rewrite blobOnly_validate_same, blobOnly_poller_same.
  unfold bind at 1. rewrite (validate_installed h [] Hp). cbv zeta. cbn [app].
  unfold bind at 1, setAzCopyExes, emit. cbn [app].
  unfold bind at 1.
  destruct (AzCopyUtils.startAndWaitForCopy _ _ _ _ _ _ _ _ _)
    as [[jobId|e|] log]; try reflexivity.
  unfold classify, bind, localize; cbn.
  now destruct (absentOrFailed _).
Qed.

Lemma facade_aborts (transferProgress : TransferProgress) (fuel : nat)
    (fromTo : string) (e : Thrown) :
  versionProbe h = Some e ->
  exists log,
    run (AzCopyUtils.azCopyTransfer fuel h src dst transferProgress fromTo
           sink check) = (Returned tt, log)
    /\ countEv isCopy log = 0 /\ countEv isFetch log = 0.
Proof.
  intros Hp. destruct (validate_missing h e Hp) as (log & Hv & Hc & Hf).
  exists log. unfold run, AzCopyUtils.azCopyTransfer, bind. now rewrite Hv.
Qed.

Lemma blobOnly_facade_aborts (transferProgress : TransferProgress)
    (fuel : nat) (e : Thrown) :
  versionProbe h = Some e ->
  exists log,
    run (BlobOnly.azCopyTransfer fuel h src dst transferProgress sink check)
    = (Returned tt, log)
    /\ countEv isCopy log = 0 /\ countEv isFetch log = 0.
Proof.
  intros Hp. destruct (validate_missing h e Hp) as (log & Hv & Hc & Hf).
  exists log. unfold run, BlobOnly.azCopyTransfer.
  rewrite blobOnly_validate_same. unfold bind. now rewrite Hv.
Qed.

End FacadeRuns.

(* ------------------------------------------------------------------ *)
(** * The poller, from submission to the end of the job *)

Section PollerFacts.

Local Open Scope list_scope.

Lemma pollers_same (poller : Poller) :
  In poller pollers -> poller = AzCopyUtils.startAndWaitForCopy.
Proof. intros [<- | [<- | []]]; reflexivity. Qed.

Lemma pollTurns_same (turn : PollTurn) :
  In turn pollTurns -> turn = AzCopyUtils.pollOnce.
Proof. intros [<- | [<- | []]]; reflexivity. Qed.

Lemma cycleEvents_ends_with_wait (h : Host) (src : AzCopyLocation)
    (jobId : string) (sink : option Progress) (checked : bool) (n : nat) :
  exists before,
    cycleEvents h src jobId sink checked n = before ++ [EvSetTimeout 1000].
Proof.
  unfold cycleEvents.
  set (finishedWork := finishedWorkOf src (engineStatus h jobId n)).
  exists ((if checked then [EvThrowIfCanceled] else [])
          ++ [EvGetJobInfo jobId; EvReportToOutputWindow finishedWork]
          ++ match sink with
             | Some s => [EvReportToNotification finishedWork s]
             | None => []
             end).
  now rewrite <- !app_assoc.
Qed.

(** A poller run from the empty log that reaches the end of the job. *)
Lemma poller_run_to_end (h : Host) (exes : option AzCopyExes)
    (src dst : AzCopyLocation) (options : ICopyOptions)
    (sink : option Progress) (cancel : option (nat -> option Thrown))
    (k fuel : nat) :
  firstEndOfJobAt h (engineJobId h) k ->
  (forall n, n < k -> checkPasses cancel n) ->
  k <= fuel ->
  run (AzCopyUtils.startAndWaitForCopy fuel (AzCopyClient h exes) src dst
         options recordingProgress sink (cancelCheck cancel))
  = (Returned (engineJobId h),
     EvCopy src dst options
     :: cycles h src (engineJobId h) sink (supplied cancel) 0 k).
Proof.
  intros (Hk & Hend & Hrun) Hpass Hfuel. unfold run.
  rewrite (poller_returns h exes src dst options sink cancel (k - 1) fuel []);
    cbn [countEv filter List.length app Nat.add].
  - now replace (S (k - 1)) with k by lia.
  - intros n Hn. apply Hrun; lia.
  - exact Hend.
  - intros n Hn. apply Hpass; lia.
  - lia.
Qed.


Lemma pollOnce_extends (h : Host) (exes : option AzCopyExes)
    (src : AzCopyLocation) (jobId : string) (sink : option Progress)
    (cancel : option (nat -> option Thrown))
    (st : option TransferStatus) (log : list Event) :
  exists out more,
    AzCopyUtils.pollOnce (AzCopyClient h exes) src jobId recordingProgress
      sink (cancelCheck cancel) st log
    = (out, log ++ firstOfTurn jobId (supplied cancel) :: more).
Proof.
  destruct cancel as [script|] eqn:Hc.
  - destruct (script (countEv isCheck log)) as [e|] eqn:Hs.
    + rewrite (pollOnce_cancelled h exes src jobId sink (Some script) script
                 e st log eq_refl Hs).
      now exists (Threw e), [].
    + rewrite (pollOnce_passes h exes src jobId sink (Some script) st log Hs).
      unfold cycleEvents; cbn [supplied firstOfTurn app].
      do 2 eexists; reflexivity.
  - rewrite (pollOnce_passes h exes src jobId sink None st log I).
    unfold cycleEvents; cbn [supplied firstOfTurn app].
    do 2 eexists; reflexivity.
Qed.

Lemma while_extends (h : Host) (exes : option AzCopyExes)
    (src : AzCopyLocation) (jobId : string) (sink : option Progress)
    (cancel : option (nat -> option Thrown)) (fuel : nat) :
  forall (st : option TransferStatus) (log : list Event),
  exists out more,
    while fuel notEndOfJob
      (AzCopyUtils.pollOnce (AzCopyClient h exes) src jobId recordingProgress
         sink (cancelCheck cancel)) st log
    = (out, log ++ more).
Proof.
  induction fuel as [|fuel IH]; intros st log; simpl;
    destruct (notEndOfJob st);
    try (exists (Returned st), []; now rewrite app_nil_r);
    try (exists OutOfFuel, []; now rewrite app_nil_r).
  unfold bind.
  destruct (pollOnce_extends h exes src jobId sink cancel st log)
    as (out & more & ->).
  destruct out as [st'|e|].
  - destruct (IH st' (log ++ firstOfTurn jobId (supplied cancel) :: more))
      as (out' & more' & ->).
    rewrite <- app_assoc. do 2 eexists; reflexivity.
  - do 2 eexists; reflexivity.
  - do 2 eexists; reflexivity.
Qed.

(** Whatever the engine and the cancellation source do, the first turn of
    the loop is entered. *)
Lemma poller_enters_loop (h : Host) (exes : option AzCopyExes)
    (src dst : AzCopyLocation) (options : ICopyOptions)
    (sink : option Progress) (cancel : option (nat -> option Thrown))
    (fuel : nat) :
  1 <= fuel ->
  exists out more,
    run (AzCopyUtils.startAndWaitForCopy fuel (AzCopyClient h exes) src dst
           options recordingProgress sink (cancelCheck cancel))
    = (out, EvCopy src dst options
            :: firstOfTurn (engineJobId h) (supplied cancel) :: more).
Proof.
  intros Hfuel. destruct fuel as [|fuel]; [lia|].
  unfold run. rewrite poller_unfold. cbn [app while notEndOfJob].
  unfold bind at 1.
  destruct (pollOnce_extends h exes src (engineJobId h) sink cancel None
              [EvCopy src dst options]) as (out & more & ->).
  cbn [app].
  destruct out as [st'|e|]; [|do 2 eexists; reflexivity..].
  destruct (while_extends h exes src (engineJobId h) sink cancel fuel st'
              (EvCopy src dst options
               :: firstOfTurn (engineJobId h) (supplied cancel) :: more))
    as (out' & more' & ->).
  cbn [app]. destruct out'; do 2 eexists; reflexivity.
Qed.

End PollerFacts.

(** C1: when the [k]-th scripted status is the first 'EndOfJob' (and no
    cancellation check throws before it), either copy of
    [startAndWaitForCopy] submits the job once, fetches the status [k]
    times, one turn of the loop per status up to the first 'EndOfJob', and
    returns the handle the submission gave. *)
Theorem C1_poller_runs_to_end_of_job (poller : Poller) (h : Host)
    (exes : option AzCopyExes) (src dst : AzCopyLocation)
    (options : ICopyOptions) (sink : option Progress)
    (cancel : option (nat -> option Thrown)) (k fuel : nat) :
  In poller pollers ->
  firstEndOfJobAt h (engineJobId h) k ->
  (forall n, n < k -> checkPasses cancel n) ->
  k <= fuel ->
  exists log,
    run (poller fuel (AzCopyClient h exes) src dst options recordingProgress
           sink (cancelCheck cancel))
    = (Returned (engineJobId h), log)
    /\ log = (EvCopy src dst options
              :: cycles h src (engineJobId h) sink (supplied cancel) 0 k)%list
    /\ countEv isCopy log = 1
    /\ countEv isFetch log = k.
Proof.
  intros Hin Hk Hpass Hfuel. rewrite (pollers_same poller Hin).
  exists (EvCopy src dst options
          :: cycles h src (engineJobId h) sink (supplied cancel) 0 k)%list.
  split; [apply poller_run_to_end; assumption|].
  split; [reflexivity|].
  rewrite !countEv_cons.
  destruct (cycles_counts h src (engineJobId h) sink (supplied cancel) k 0)
    as (-> & _ & -> & _).
  split; reflexivity.
Qed.

Lemma C1_poller_runs_to_end_of_job_witness :
  exists log,
    run (AzCopyUtils.startAndWaitForCopy 5 (AzCopyClient sampleHost None)
           (LocalLocation sampleSource) (RemoteSasLocation sampleDestination)
           sampleOptions recordingProgress (Some (ProgressSink 0))
           (cancelCheck (Some neverCancelled)))
    = (Returned (engineJobId sampleHost), log)
    /\ log = (EvCopy (LocalLocation sampleSource)
                (RemoteSasLocation sampleDestination) sampleOptions
              :: cycles sampleHost (LocalLocation sampleSource)
                   (engineJobId sampleHost) (Some (ProgressSink 0))
                   (supplied (Some neverCancelled)) 0 3)%list
    /\ countEv isCopy log = 1
    /\ countEv isFetch log = 3.
Proof.
  apply (C1_poller_runs_to_end_of_job AzCopyUtils.startAndWaitForCopy
           sampleHost None (LocalLocation sampleSource)
           (RemoteSasLocation sampleDestination) sampleOptions
           (Some (ProgressSink 0)) (Some neverCancelled) 3 5).
  - left; reflexivity.
  - split; [lia | split; [reflexivity|]].
    intros [|[|n]] Hn; [reflexivity | reflexivity | simpl in Hn; lia].
  - intros n Hn; reflexivity.
  - lia.
Defined.

(** C2, as stated, fails: the wait is not conditional. With a job that is
    over at the first fetch ([k = 1]) the poller still waits once, after it
    has seen 'EndOfJob', where the claim has [k - 1 = 0] waits. *)
Lemma C2_waits_after_end_of_job :
  firstEndOfJobAt finishedHost (engineJobId finishedHost) 1
  /\ run (AzCopyUtils.startAndWaitForCopy 1 (AzCopyClient finishedHost None)
            (LocalLocation sampleSource) (RemoteSasLocation sampleDestination)
            sampleOptions recordingProgress None None)
     = (Returned "job-1",
        [EvCopy (LocalLocation sampleSource)
           (RemoteSasLocation sampleDestination) sampleOptions;
         EvGetJobInfo "job-1"; EvReportToOutputWindow 10;
         EvSetTimeout 1000])
  /\ countEv isWait
       (snd (run (AzCopyUtils.startAndWaitForCopy 1
                    (AzCopyClient finishedHost None)
                    (LocalLocation sampleSource)
                    (RemoteSasLocation sampleDestination)
                    sampleOptions recordingProgress None None)))
     <> 1 - 1.
Proof.
  split; [|split].
  - split; [lia | split; [reflexivity | intros n Hn; simpl in Hn; lia]].
  - reflexivity.
  - vm_compute. discriminate.
Qed.

(** C2 (amended): when the [k]-th scripted status is the first 'EndOfJob',
    either copy of the poller waits exactly [k] times, one second after
    every status fetch, the one that returned 'EndOfJob' included; so the
    run ends on a wait and no two status fetches follow each other without
    a wait in between. *)
Theorem C2_poller_waits_after_every_fetch (poller : Poller) (h : Host)
    (exes : option AzCopyExes) (src dst : AzCopyLocation)
    (options : ICopyOptions) (sink : option Progress)
    (cancel : option (nat -> option Thrown)) (k fuel : nat) :
  In poller pollers ->
  firstEndOfJobAt h (engineJobId h) k ->
  (forall n, n < k -> checkPasses cancel n) ->
  k <= fuel ->
  exists log before,
    run (poller fuel (AzCopyClient h exes) src dst options recordingProgress
           sink (cancelCheck cancel))
    = (Returned (engineJobId h), log)
    /\ countEv isWait log = k
    /\ countEv isFetch log = k
    /\ waitsAreFixed log = true
    /\ paced false log = true
    /\ log = (before ++ [EvSetTimeout 1000])%list.
Proof.
  intros Hin Hk Hpass Hfuel. rewrite (pollers_same poller Hin).
  pose proof Hk as (Hpos & _).
  destruct k as [|k]; [lia|].
  destruct (cycleEvents_ends_with_wait h src (engineJobId h) sink
              (supplied cancel) (0 + k)) as [before Hlast].
  exists (EvCopy src dst options
          :: cycles h src (engineJobId h) sink (supplied cancel) 0 (S k))%list.
  exists (EvCopy src dst options
          :: cycles h src (engineJobId h) sink (supplied cancel) 0 k
          ++ before)%list.
  split; [apply poller_run_to_end; assumption|].
  rewrite !countEv_cons.
  destruct (cycles_counts h src (engineJobId h) sink (supplied cancel)
              (S k) 0) as (_ & _ & -> & _ & _ & ->).
  repeat split.
  - unfold waitsAreFixed. cbn [forallb andb].
    apply (waitsAreFixed_cycles h src (engineJobId h) sink (supplied cancel)).
  - cbn [paced isFetch isWait].
    rewrite <- (app_nil_r (cycles _ _ _ _ _ _ _)).
    now rewrite paced_cycles.
  - rewrite cycles_snoc, Hlast. cbn [app]. now rewrite <- app_assoc.
Qed.

Lemma C2_poller_waits_after_every_fetch_witness :
  exists log before,
    run (AzCopyUtils.startAndWaitForCopy 5 (AzCopyClient sampleHost None)
           (LocalLocation sampleSource) (RemoteSasLocation sampleDestination)
           sampleOptions recordingProgress (Some (ProgressSink 0))
           (cancelCheck (Some neverCancelled)))
    = (Returned (engineJobId sampleHost), log)
    /\ countEv isWait log = 3
    /\ countEv isFetch log = 3
    /\ waitsAreFixed log = true
    /\ paced false log = true
    /\ log = (before ++ [EvSetTimeout 1000])%list.
Proof.
  apply (C2_poller_waits_after_every_fetch AzCopyUtils.startAndWaitForCopy
           sampleHost None (LocalLocation sampleSource)
           (RemoteSasLocation sampleDestination) sampleOptions
           (Some (ProgressSink 0)) (Some neverCancelled) 3 5).
  - left; reflexivity.
  - split; [lia | split; [reflexivity|]].
    intros [|[|n]] Hn; [reflexivity | reflexivity | simpl in Hn; lia].
  - intros n Hn; reflexivity.
  - lia.
Defined.

(** C4: on a turn of the loop whose cancellation check passes, the value fed
    to the log report, and to the notification report when a sink is
    supplied, is the completed-transfer count of the fetched status for a
    wildcard source and its bytes-over-wire count otherwise, and 0 when the
    status or that counter is absent; the turn returns. *)
Theorem C4_progress_counter_selected (turn : PollTurn) (h : Host)
    (exes : option AzCopyExes) (src : AzCopyLocation) (jobId : string)
    (sink : option Progress) (cancel : option (nat -> option Thrown))
    (previous : option TransferStatus) (log : list Event) :
  In turn pollTurns ->
  checkPasses cancel (countEv isCheck log) ->
  let status := engineStatus h jobId (countEv isFetch log) in
  let finishedWork := specProgressCounter src status in
  finishedWorkOf src status = finishedWork
  /\ turn (AzCopyClient h exes) src jobId recordingProgress sink
       (cancelCheck cancel) previous log
     = (Returned status,
        (log
         ++ (if supplied cancel then [EvThrowIfCanceled] else [])
         ++ [EvGetJobInfo jobId; EvReportToOutputWindow finishedWork]
         ++ match sink with
            | Some s => [EvReportToNotification finishedWork s]
            | None => []
            end
         ++ [EvSetTimeout 1000])%list).
Proof.
  intros Hin Hpass status finishedWork.
  assert (Hsame : finishedWorkOf src status = finishedWork).
  { subst finishedWork. unfold finishedWorkOf, specProgressCounter, Js.orZero.
    destruct status as [st|]; [|reflexivity].
    destruct (if useWildCard src then TransfersCompleted st
              else BytesOverWire st) as [count|]; [|reflexivity].
    destruct (Z.eqb_spec count 0); congruence. }
  split; [exact Hsame|].
  rewrite (pollTurns_same turn Hin),
    (pollOnce_passes h exes src jobId sink cancel previous log Hpass).
  unfold cycleEvents. fold status. now rewrite Hsame.
Qed.

Lemma C4_progress_counter_selected_witness :
  finishedWorkOf (LocalLocation sampleSource) (sampleScript 0) = 3%Z
  /\ AzCopyUtils.pollOnce (AzCopyClient sampleHost None)
       (LocalLocation sampleSource) "job-1" recordingProgress
       (Some (ProgressSink 0)) (cancelCheck (Some neverCancelled)) None []
     = (Returned (sampleScript 0),
        [EvThrowIfCanceled; EvGetJobInfo "job-1"; EvReportToOutputWindow 3;
         EvReportToNotification 3 (ProgressSink 0); EvSetTimeout 1000]).
Proof.
  apply (C4_progress_counter_selected AzCopyUtils.pollOnce sampleHost None
           (LocalLocation sampleSource) "job-1" (Some (ProgressSink 0))
           (Some neverCancelled) None []).
  - left; reflexivity.
  - reflexivity.
Defined.

(** C10: the poller's loop is entered on every invocation, because the
    status starts undefined: after the submission comes the first
    cancellation check, or the first status fetch when no check is supplied.
    When that first status already is 'EndOfJob' and the check passes, the
    run is one check (if supplied), one fetch, one report of the terminal
    counter to the log surface, one to the notification sink if supplied,
    and one wait, and the handle is returned. *)
Theorem C10_loop_body_runs_once (poller : Poller) (h : Host)
    (exes : option AzCopyExes) (src dst : AzCopyLocation)
    (options : ICopyOptions) (sink : option Progress)
    (cancel : option (nat -> option Thrown)) (fuel : nat) :
  In poller pollers ->
  1 <= fuel ->
  let invocation :=
    run (poller fuel (AzCopyClient h exes) src dst options recordingProgress
           sink (cancelCheck cancel)) in
  let terminal := engineStatus h (engineJobId h) 0 in
  notEndOfJob None = true
  /\ (exists out more,
        invocation
        = (out, EvCopy src dst options
                :: firstOfTurn (engineJobId h) (supplied cancel) :: more))
  /\ (notEndOfJob terminal = false -> checkPasses cancel 0 ->
      invocation
      = (Returned (engineJobId h),
         (EvCopy src dst options
          :: (if supplied cancel then [EvThrowIfCanceled] else [])
          ++ [EvGetJobInfo (engineJobId h);
              EvReportToOutputWindow (finishedWorkOf src terminal)]
          ++ match sink with
             | Some s => [EvReportToNotification (finishedWorkOf src terminal) s]
             | None => []
             end
          ++ [EvSetTimeout 1000])%list)).
Proof.
  intros Hin Hfuel invocation terminal. subst invocation.
  rewrite (pollers_same poller Hin).
  split; [reflexivity|]. split.
  - now apply poller_enters_loop.
  - intros Hend Hpass.
    rewrite (poller_run_to_end h exes src dst options sink cancel 1 fuel).
    + cbn [cycles]. unfold cycleEvents. fold terminal.
      now rewrite !app_nil_r.
    + split; [lia | split; [exact Hend | intros n Hn; simpl in Hn; lia]].
    + intros n Hn. now replace n with 0 by lia.
    + exact Hfuel.
Qed.

Lemma C10_loop_body_runs_once_witness :
  notEndOfJob None = true
  /\ (exists out more,
        run (AzCopyUtils.startAndWaitForCopy 1
               (AzCopyClient finishedHost None) (LocalLocation sampleSource)
               (RemoteSasLocation sampleDestination) sampleOptions
               recordingProgress (Some (ProgressSink 0))
               (cancelCheck (Some neverCancelled)))
        = (out, EvCopy (LocalLocation sampleSource)
                  (RemoteSasLocation sampleDestination) sampleOptions
                :: EvThrowIfCanceled :: more))
  /\ run (AzCopyUtils.startAndWaitForCopy 1
            (AzCopyClient finishedHost None) (LocalLocation sampleSource)
            (RemoteSasLocation sampleDestination) sampleOptions
            recordingProgress (Some (ProgressSink 0))
            (cancelCheck (Some neverCancelled)))
     = (Returned "job-1",
        [EvCopy (LocalLocation sampleSource)
           (RemoteSasLocation sampleDestination) sampleOptions;
         EvThrowIfCanceled; EvGetJobInfo "job-1"; EvReportToOutputWindow 10;
         EvReportToNotification 10 (ProgressSink 0); EvSetTimeout 1000]).
Proof.
  destruct (C10_loop_body_runs_once AzCopyUtils.startAndWaitForCopy
              finishedHost None (LocalLocation sampleSource)
              (RemoteSasLocation sampleDestination) sampleOptions
              (Some (ProgressSink 0)) (Some neverCancelled) 1
              (or_introl eq_refl) (le_n 1)) as (Hinit & Henter & Hrun).
  split; [exact Hinit|]. split; [exact Henter|].
  apply Hrun; reflexivity.
Defined.

(* ------------------------------------------------------------------ *)
(** * The facade *)

Section FacadeFacts.

Local Open Scope list_scope.

(** The classification the facade computes is the specified one. *)
Lemma classification_spec (final : option TransferStatus) :
  (if absentOrFailed final
   then Threw (newError (transferFailedMessage final))
   else Returned tt)
  = specOutcome final.
Proof.
  unfold absentOrFailed, specOutcome, transferFailedMessage,
    specFailureMessage, Js.truthyString.
  destruct final as [st|]; [|reflexivity].
  destruct (JobStatus st) as [outcomeRead|]; [|reflexivity].
  destruct (outcomeRead =? "Failed")%string; [|reflexivity].
  destruct (ErrorMsg st) as [m|]; [|reflexivity].
  now destruct (m =? EmptyString)%string.
Qed.

Lemma specFailureMessage_includes (m : string) :
  exists before, specFailureMessage (Some m) = (before ++ m)%string.
Proof.
  unfold specFailureMessage.
  destruct (String.eqb_spec m EmptyString) as [-> | _].
  - now exists "AzCopy Transfer Failed".
  - now exists "AzCopy Transfer Failed: ".
Qed.

(** The entry points are the two private facades, with the direction fixed. *)
Lemma facades_cases (facade : Facade) :
  In facade facades ->
  (exists fromTo,
     facade = fun fuel h src dst transferProgress sink check =>
                AzCopyUtils.azCopyTransfer fuel h src dst transferProgress
                  fromTo sink check)
  \/ facade = BlobOnly.azCopyTransfer.
Proof.
  intros [<- | [<- | [<- | []]]];
    [left; now exists "LocalBlob" | left; now exists "LocalFile" | now right].
Qed.


Variables (h : Host) (exes : option AzCopyExes).
Variables (src dst : AzCopyLocation) (options : ICopyOptions).
Variable sink : option Progress.

Local Abbreviation jobId := (engineJobId h).

(** The poller started on a log without fetches or checks, to the end of
    the job. *)
Lemma poller_completes_from (cancel : option (nat -> option Thrown))
    (k fuel : nat) (prefix : list Event) :
  countEv isFetch prefix = 0 -> countEv isCheck prefix = 0 ->
  firstEndOfJobAt h jobId k ->
  (forall n, n < k -> checkPasses cancel n) ->
  k <= fuel ->
  AzCopyUtils.startAndWaitForCopy fuel (AzCopyClient h exes) src dst options
    recordingProgress sink (cancelCheck cancel) prefix
  = (Returned jobId,
     prefix ++ EvCopy src dst options
            :: cycles h src jobId sink (supplied cancel) 0 k).
Proof.
  intros Hf Hc (Hk & Hend & Hrun) Hpass Hfuel.
  rewrite (poller_returns h exes src dst options sink cancel (k - 1) fuel
             prefix); rewrite ?Hf, ?Hc; cbn [Nat.add].
  - now replace (S (k - 1)) with k by lia.
  - intros n Hn. apply Hrun; lia.
  - exact Hend.
  - intros n Hn. apply Hpass; lia.
  - lia.
Qed.

(** The same, up to the check that throws: the [j]-th one. *)
Lemma poller_cancelled_from (script : nat -> option Thrown) (e : Thrown)
    (j fuel : nat) (prefix : list Event) :
  countEv isFetch prefix = 0 -> countEv isCheck prefix = 0 ->
  (forall n, n < j - 1 -> notEndOfJob (engineStatus h jobId n) = true) ->
  1 <= j -> script (j - 1) = Some e ->
  (forall n, n < j - 1 -> script n = None) ->
  j <= fuel ->
  AzCopyUtils.startAndWaitForCopy fuel (AzCopyClient h exes) src dst options
    recordingProgress sink (Some (scriptedCheck script)) prefix
  = (Threw e,
     prefix ++ EvCopy src dst options
            :: cycles h src jobId sink true 0 (j - 1) ++ [EvThrowIfCanceled]).
Proof.
  intros Hf Hc Hrun Hj Hthrow Hpass Hfuel.
  change (Some (scriptedCheck script)) with (cancelCheck (Some script)).
  rewrite (poller_cancelled h exes src dst options sink (Some script) script
             e (j - 1) fuel prefix eq_refl);
    rewrite ?Hf, ?Hc; cbn [Nat.add]; auto.
  - intros n Hn. apply Hrun; lia.
  - intros n Hn. apply Hpass; lia.
  - lia.
Qed.

Lemma cancelled_log_counts (prefix : list Event) (count : nat) :
  let log := prefix ++ EvCopy src dst options
                    :: cycles h src jobId sink true 0 count
                    ++ [EvThrowIfCanceled] in
  countEv isCopy log = countEv isCopy prefix + 1
  /\ countEv isCheck log = countEv isCheck prefix + (count + 1)
  /\ countEv isFetch log = countEv isFetch prefix + count.
Proof.
  cbv zeta. rewrite !countEv_app, !countEv_cons, !countEv_app.
  destruct (cycles_counts h src jobId sink true count 0)
    as (-> & -> & -> & _).
  cbn. repeat split; lia.
Qed.

Lemma completed_log_counts (checked : bool) (prefix : list Event)
    (count : nat) :
  let log := prefix ++ EvCopy src dst options
                    :: cycles h src jobId sink checked 0 count in
  countEv isCopy log = countEv isCopy prefix + 1
  /\ countEv isFetch log = countEv isFetch prefix + count.
Proof.
  cbv zeta. rewrite !countEv_app, !countEv_cons.
  destruct (cycles_counts h src jobId sink checked count 0)
    as (-> & _ & -> & _).
  cbn. split; lia.
Qed.

End FacadeFacts.

(** C6: when the version probe fails, each entry point of the facade
    returns without throwing, and its log has no job submission and no
    status fetch, whatever the operator answers to the prompt and whether or
    not the download page can be opened. *)
Theorem C6_no_engine_no_submission (facade : Facade) (h : Host)
    (src : ILocalLocation) (dst : IRemoteSasLocation)
    (transferProgress : TransferProgress) (sink : option Progress)
    (check : option (M unit)) (fuel : nat) (e : Thrown) :
  In facade facades ->
  versionProbe h = Some e ->
  exists log,
    run (facade fuel h src dst transferProgress sink check)
    = (Returned tt, log)
    /\ countEv isCopy log = 0
    /\ countEv isFetch log = 0.
Proof.
  intros Hin Hprobe.
  destruct (facades_cases facade Hin) as [[fromTo ->] | ->].
  - now apply (facade_aborts h src dst sink check transferProgress fuel fromTo e).
  - now apply (blobOnly_facade_aborts h src dst sink check transferProgress
                 fuel e).
Qed.

Lemma C6_no_engine_no_submission_witness :
  exists log,
    run (AzCopyUtils.azCopyBlobTransfer 5 bareHost sampleSource
           sampleDestination recordingProgress (Some (ProgressSink 0))
           (cancelCheck (Some neverCancelled)))
    = (Returned tt, log)
    /\ countEv isCopy log = 0
    /\ countEv isFetch log = 0.
Proof.
  apply (C6_no_engine_no_submission AzCopyUtils.azCopyBlobTransfer bareHost
           sampleSource sampleDestination recordingProgress
           (Some (ProgressSink 0)) (cancelCheck (Some neverCancelled)) 5
           (newError "spawn azcopy ENOENT")).
  - left; reflexivity.
  - reflexivity.
Defined.

(** C5: with the engine installed and a poller that returns, each entry
    point of the facade fetches the status once more, by the handle the
    poller returned, and ends as specified on that final status: it throws
    the transfer-failure error when the status is absent or its [JobStatus]
    reads 'Failed', with the engine's message in the error's message when
    there is one and the generic message otherwise, and it returns with no
    value on any other outcome. *)
Theorem C5_facade_classifies_final_status (facade : Facade) (h : Host)
    (src : ILocalLocation) (dst : IRemoteSasLocation)
    (sink : option Progress) (cancel : option (nat -> option Thrown))
    (k fuel : nat) :
  In facade facades ->
  versionProbe h = None ->
  firstEndOfJobAt h (engineJobId h) k ->
  (forall n, n < k -> checkPasses cancel n) ->
  k <= fuel ->
  let final := engineStatus h (engineJobId h) k in
  (exists log,
     run (facade fuel h src dst recordingProgress sink (cancelCheck cancel))
     = (specOutcome final, (log ++ [EvGetJobInfo (engineJobId h)])%list)
     /\ countEv isCopy log = 1
     /\ countEv isFetch log = k)
  /\ specOutcome None = Threw (newError "AzCopy Transfer Failed")
  /\ (forall st, JobStatus st = Some "Failed" -> ErrorMsg st = None ->
        specOutcome (Some st) = Threw (newError "AzCopy Transfer Failed"))
  /\ (forall st m, JobStatus st = Some "Failed" -> ErrorMsg st = Some m ->
        exists before,
          specOutcome (Some st) = Threw (newError (before ++ m)))
  /\ (forall st, JobStatus st <> Some "Failed" ->
        specOutcome (Some st) = Returned tt).
Proof.
  intros Hin Hprobe Hk Hpass Hfuel final. split; [|repeat split].
  - destruct (facades_cases facade Hin) as [[fromTo ->] | ->];
      [rewrite facade_unfold by exact Hprobe
      |rewrite blobOnly_facade_unfold by exact Hprobe];
      rewrite (poller_completes_from _ _ _ _ _ _ cancel k fuel)
        by (reflexivity || assumption);
      unfold classify;
      match goal with
      | |- context [(?prefix ++ EvCopy ?s ?d ?o :: cycles ?h ?s ?j ?snk ?c 0 ?k)%list] =>
          destruct (completed_log_counts h s d o snk c prefix k) as [Hcopy Hfetch];
          cbv zeta in Hcopy, Hfetch; rewrite Hfetch; cbn [countEv filter isFetch List.length Nat.add];
          rewrite classification_spec;
          eexists; split; [reflexivity | split; [exact Hcopy | exact Hfetch]]
      end.
  - intros st Hjs Hmsg. unfold specOutcome. now rewrite Hjs, Hmsg.
  - intros st m Hjs Hmsg. unfold specOutcome. rewrite Hjs, Hmsg. cbn [String.eqb].
    destruct (specFailureMessage_includes m) as [before ->].
    now exists before.
  - intros st Hjs. unfold specOutcome.
    destruct (JobStatus st) as [outcomeRead|]; [|reflexivity].
    destruct (String.eqb_spec outcomeRead "Failed"); [congruence | reflexivity].
Qed.

Lemma C5_facade_classifies_final_status_witness :
  exists log,
    run (AzCopyUtils.azCopyBlobTransfer 5 sampleHost sampleSource
           sampleDestination recordingProgress (Some (ProgressSink 0))
           (cancelCheck (Some neverCancelled)))
    = (Returned tt, (log ++ [EvGetJobInfo "job-1"])%list)
    /\ countEv isCopy log = 1
    /\ countEv isFetch log = 3.
Proof.
  refine (proj1 (C5_facade_classifies_final_status
                   AzCopyUtils.azCopyBlobTransfer sampleHost sampleSource
                   sampleDestination (Some (ProgressSink 0))
                   (Some neverCancelled) 3 5 _ _ _ _ _)).
  - left; reflexivity.
  - reflexivity.
  - split; [lia | split; [reflexivity|]].
    intros [|[|n]] Hn; [reflexivity | reflexivity | simpl in Hn; lia].
  - intros n Hn; reflexivity.
  - lia.
Defined.

(** C3: when the [j]-th cancellation check throws, with [j] before the
    turn [k] that would fetch 'EndOfJob', either copy of the poller stops
    on that check: [j] checks and [j - 1] status fetches have been made,
    each fetch right after the check of its turn, and the run ends on the
    check. What the check threw is what the poller throws and what each
    entry point of the facade throws. *)
Theorem C3_cancellation_propagates (poller : Poller) (facade : Facade)
    (h : Host) (exes : option AzCopyExes) (src dst : AzCopyLocation)
    (options : ICopyOptions) (localSrc : ILocalLocation)
    (remoteDst : IRemoteSasLocation) (sink : option Progress)
    (script : nat -> option Thrown) (e : Thrown) (j k fuel : nat) :
  In poller pollers ->
  In facade facades ->
  versionProbe h = None ->
  firstEndOfJobAt h (engineJobId h) k ->
  1 <= j < k ->
  script (j - 1) = Some e ->
  (forall n, n < j - 1 -> script n = None) ->
  j <= fuel ->
  (exists log before,
     run (poller fuel (AzCopyClient h exes) src dst options recordingProgress
            sink (Some (scriptedCheck script)))
     = (Threw e, log)
     /\ countEv isCheck log = j
     /\ countEv isFetch log = j - 1
     /\ checkedBeforeFetch false log = true
     /\ log = (before ++ [EvThrowIfCanceled])%list)
  /\ (exists log,
        run (facade fuel h localSrc remoteDst recordingProgress sink
               (Some (scriptedCheck script)))
        = (Threw e, log)
        /\ countEv isCheck log = j
        /\ countEv isFetch log = j - 1).
Proof.
  intros Hpoller Hfacade Hprobe (_ & _ & Hrun) Hj Hthrow Hpass Hfuel.
  assert (Hrun' : forall n, n < j - 1 ->
                    notEndOfJob (engineStatus h (engineJobId h) n) = true).
  { intros n Hn. apply Hrun; lia. }
  split.
  - rewrite (pollers_same poller Hpoller). unfold run.
    rewrite (poller_cancelled_from h exes src dst options sink script e j fuel
               []) by (reflexivity || assumption || lia).
    destruct (cancelled_log_counts h src dst options sink [] (j - 1))
      as (_ & Hc & Hf). cbv zeta in Hc, Hf.
    eexists.
    exists (EvCopy src dst options
            :: cycles h src (engineJobId h) sink true 0 (j - 1))%list.
    split; [reflexivity|]. rewrite Hc, Hf. cbn [app].
    repeat split; [cbn; lia|].
    cbn [checkedBeforeFetch isCheck isFetch].
    now rewrite checkedBeforeFetch_cycles.
  - destruct (facades_cases facade Hfacade) as [[fromTo ->] | ->];
      [rewrite facade_unfold by exact Hprobe
      |rewrite blobOnly_facade_unfold by exact Hprobe];
      rewrite (poller_cancelled_from _ _ _ _ _ _ script e j fuel)
        by (reflexivity || assumption || lia);
      unfold classify;
      match goal with
      | |- context [(?prefix ++ EvCopy ?s ?d ?o :: _)%list] =>
          destruct (cancelled_log_counts h s d o sink prefix (j - 1))
            as (_ & Hc & Hf); cbv zeta in Hc, Hf
      end;
      eexists; (split; [reflexivity|]); rewrite Hc, Hf; cbn; lia.
Qed.

Lemma C3_cancellation_propagates_witness :
  (exists log before,
     run (AzCopyUtils.startAndWaitForCopy 5 (AzCopyClient sampleHost None)
            (LocalLocation sampleSource) (RemoteSasLocation sampleDestination)
            sampleOptions recordingProgress (Some (ProgressSink 0))
            (Some (scriptedCheck cancelOnSecondCheck)))
     = (Threw userCancelled, log)
     /\ countEv isCheck log = 2
     /\ countEv isFetch log = 1
     /\ checkedBeforeFetch false log = true
     /\ log = (before ++ [EvThrowIfCanceled])%list)
  /\ (exists log,
        run (AzCopyUtils.azCopyFileTransfer 5 sampleHost sampleSource
               sampleDestination recordingProgress (Some (ProgressSink 0))
               (Some (scriptedCheck cancelOnSecondCheck)))
        = (Threw userCancelled, log)
        /\ countEv isCheck log = 2
        /\ countEv isFetch log = 1).
Proof.
  apply (C3_cancellation_propagates AzCopyUtils.startAndWaitForCopy
           AzCopyUtils.azCopyFileTransfer sampleHost None
           (LocalLocation sampleSource) (RemoteSasLocation sampleDestination)
           sampleOptions sampleSource sampleDestination
           (Some (ProgressSink 0)) cancelOnSecondCheck userCancelled 2 3 5).
  - left; reflexivity.
  - right; left; reflexivity.
  - reflexivity.
  - split; [lia | split; [reflexivity|]].
    intros [|[|n]] Hn; [reflexivity | reflexivity | simpl in Hn; lia].
  - lia.
  - reflexivity.
  - intros [|n] Hn; [reflexivity | simpl in Hn; lia].
  - lia.
Defined.

(* ------------------------------------------------------------------ *)
(** * Any run of the poller *)

Section AnyRun.

Local Open Scope list_scope.

Variables (h : Host) (exes : option AzCopyExes).
Variables (src : AzCopyLocation) (jobId : string).
Variables (sink : option Progress) (cancel : option (nat -> option Thrown)).

Local Abbreviation turn :=
  (AzCopyUtils.pollOnce (AzCopyClient h exes) src jobId recordingProgress
     sink (cancelCheck cancel)).
Local Abbreviation fetched := (countEv isFetch).
Local Abbreviation checks := (countEv isCheck).
Local Abbreviation turns := (cycles h src jobId sink (supplied cancel)).

(** Any run of the loop is a number of full turns, then the check that
    threw if the run threw. *)
Lemma loop_shape (fuel : nat) :
  forall (st : option TransferStatus) (log : list Event),
  exists out n,
    while fuel notEndOfJob turn st log
    = (out, log ++ turns (fetched log) n ++ lastCheck out)
    /\ (forall e, out = Threw e ->
          exists script i, cancel = Some script /\ script i = Some e).
Proof.
  induction fuel as [|fuel IH]; intros st log;
    destruct (notEndOfJob st) eqn:Hst.
  - exists OutOfFuel, 0. simpl. rewrite Hst, app_nil_r.
    split; [reflexivity | discriminate].
  - exists (Returned st), 0. rewrite while_done by exact Hst.
    simpl; rewrite app_nil_r. split; [reflexivity | discriminate].
  - assert (Hcases : checkPasses cancel (checks log)
                     \/ exists script e, cancel = Some script
                                         /\ script (checks log) = Some e).
    { destruct cancel as [script|]; [|now left]. simpl.
      destruct (script (checks log)) as [e|] eqn:Hs; [right | now left].
      now exists script, e. }
    destruct Hcases as [Hpass | (script & e & Hc & Hs)].
    + rewrite (while_step _ _ _ _ _ _ _ Hst
                 (pollOnce_passes h exes src jobId sink cancel st log Hpass)).
      destruct (counts_after_turn h src jobId sink cancel log (fetched log))
        as [Hf _].
      destruct (IH (engineStatus h jobId (fetched log))
                  (log ++ cycleEvents h src jobId sink (supplied cancel)
                            (fetched log))) as (out & n & Hrun & Hthrown).
      exists out, (S n). split; [|exact Hthrown].
      rewrite Hrun, Hf. cbn [cycles]. now rewrite <- !app_assoc.
    + exists (Threw e), 0.
      rewrite (while_throw _ _ _ _ _ _ _ Hst
                 (pollOnce_cancelled h exes src jobId sink cancel script e st
                    log Hc Hs)).
      split; [reflexivity|].
      intros e' [= <-]. now exists script, (checks log).
  - exists (Returned st), 0. rewrite while_done by exact Hst.
    simpl; rewrite app_nil_r. split; [reflexivity | discriminate].
Qed.

(** Without an 'EndOfJob' and without a cancellation the loop uses up any
    fuel it is given. *)
Lemma loop_never_ends (fuel : nat) :
  forall (st : option TransferStatus) (log : list Event),
    notEndOfJob st = true ->
    (forall n, notEndOfJob (engineStatus h jobId n) = true) ->
    (forall n, checkPasses cancel n) ->
    while fuel notEndOfJob turn st log
    = (OutOfFuel, log ++ turns (fetched log) fuel).
Proof.
  induction fuel as [|fuel IH]; intros st log Hst Hrun Hpass.
  - simpl. rewrite Hst. unfold outOfFuel. now rewrite app_nil_r.
  - rewrite (while_step _ _ _ _ _ _ _ Hst
               (pollOnce_passes h exes src jobId sink cancel st log
                  (Hpass _))).
    destruct (counts_after_turn h src jobId sink cancel log (fetched log))
      as [Hf _].
    rewrite IH by auto. rewrite Hf. cbn [cycles]. now rewrite <- app_assoc.
Qed.

End AnyRun.

Section AnyPollerRun.

Local Open Scope list_scope.

Variables (h : Host) (exes : option AzCopyExes).
Variables (src dst : AzCopyLocation) (options : ICopyOptions).
Variables (sink : option Progress) (cancel : option (nat -> option Thrown)).

Local Abbreviation jobId := (engineJobId h).

(** Any run of the poller: the submission, full turns, and the check that
    threw if the run threw. *)
Lemma poller_shape (fuel : nat) (prefix : list Event) :
  exists out n,
    AzCopyUtils.startAndWaitForCopy fuel (AzCopyClient h exes) src dst
      options recordingProgress sink (cancelCheck cancel) prefix
    = (out,
       prefix ++ EvCopy src dst options
              :: cycles h src jobId sink (supplied cancel)
                   (countEv isFetch prefix) n
              ++ lastCheck out)
    /\ (forall e, out = Threw e ->
          exists script i, cancel = Some script /\ script i = Some e)
    /\ (forall id, out = Returned id -> id = jobId).
Proof.
  rewrite poller_unfold.
  destruct (loop_shape h exes src jobId sink cancel fuel None
              (prefix ++ [EvCopy src dst options]))
    as (out & n & -> & Hthrown).
  destruct (counts_after_copy src dst options prefix) as [-> _].
  rewrite <- app_assoc. cbn [app].
  destruct out as [st|e|].
  - exists (Returned jobId), n. split; [reflexivity|].
    split; [discriminate | now intros id [= <-]].
  - exists (Threw e), n. split; [reflexivity|].
    split; [intros e' [= <-]; exact (Hthrown e eq_refl) | discriminate].
  - exists OutOfFuel, n. split; [reflexivity|].
    split; discriminate.
Qed.

(** The counts of a log of that shape. *)
Lemma shape_counts (A : Type) (out : outcome A) (n : nat) :
  let log := EvCopy src dst options
             :: cycles h src jobId sink (supplied cancel) 0 n
             ++ lastCheck out in
  countEv isCopy log = 1
  /\ countEv isFetch log = n
  /\ countEv isLogReport log = n
  /\ countEv isWait log = n
  /\ countEv isNotification log = (if supplied sink then n else 0)
  /\ countEv isCheck log
     = (if supplied cancel then n else 0) + (if isThrown out then 1 else 0)
  /\ waitsAreFixed log = true
  /\ paced false log = true.
Proof.
  cbv zeta. rewrite !countEv_cons, !countEv_app.
  destruct (cycles_counts h src jobId sink (supplied cancel) n 0)
    as (-> & -> & -> & -> & -> & ->).
  cbn [isCopy isFetch isLogReport isWait isNotification isCheck Nat.add].
  assert (Hw : waitsAreFixed
                 (EvCopy src dst options
                  :: cycles h src jobId sink (supplied cancel) 0 n
                  ++ lastCheck out) = true).
  { unfold waitsAreFixed. cbn [forallb andb]. rewrite forallb_app.
    fold (waitsAreFixed (cycles h src jobId sink (supplied cancel) 0 n)).
    rewrite waitsAreFixed_cycles. now destruct out. }
  assert (Hp : paced false
                 (EvCopy src dst options
                  :: cycles h src jobId sink (supplied cancel) 0 n
                  ++ lastCheck out) = true).
  { cbn [paced isFetch isWait]. rewrite paced_cycles. now destruct out. }
  rewrite Hw, Hp.
  destruct out; cbn; repeat split; lia.
Qed.

End AnyPollerRun.

(** X1: every run of the poller, however it ends, has made one
    submission, first of all; one log report and one wait of one second per
    status fetch; one notification per fetch when a sink is supplied and
    none otherwise; one check per fetch when a check is supplied, and one
    more if the run threw; and never two fetches without a wait between
    them. *)
Theorem poller_log_invariants (poller : Poller) (h : Host)
    (exes : option AzCopyExes) (src dst : AzCopyLocation)
    (options : ICopyOptions) (sink : option Progress)
    (cancel : option (nat -> option Thrown)) (fuel : nat) :
  In poller pollers ->
  exists out log,
    run (poller fuel (AzCopyClient h exes) src dst options recordingProgress
           sink (cancelCheck cancel))
    = (out, log)
    /\ hd_error log = Some (EvCopy src dst options)
    /\ countEv isCopy log = 1
    /\ countEv isLogReport log = countEv isFetch log
    /\ countEv isWait log = countEv isFetch log
    /\ countEv isNotification log
       = (if supplied sink then countEv isFetch log else 0)
    /\ countEv isCheck log
       = (if supplied cancel then countEv isFetch log else 0)
         + (if isThrown out then 1 else 0)
    /\ waitsAreFixed log = true
    /\ paced false log = true.
Proof.
  intros Hin. rewrite (pollers_same poller Hin). unfold run.
  destruct (poller_shape h exes src dst options sink cancel fuel [])
    as (out & n & Hrun & _).
  cbn [app countEv filter List.length] in Hrun.
  destruct (shape_counts h src dst options sink cancel string out n)
    as (Hc & Hf & Hl & Hw & Hn & Hk & Hfix & Hp).
  cbv zeta in *.
  eexists out, _. split; [exact Hrun|].
  rewrite Hc, Hf, Hl, Hw, Hn, Hk, Hfix, Hp.
  repeat split.
Qed.

Lemma poller_log_invariants_witness :
  exists out log,
    run (BlobOnly.startAndWaitForCopy 2 (AzCopyClient sampleHost None)
           (LocalLocation sampleSource) (RemoteSasLocation sampleDestination)
           sampleOptions recordingProgress (Some (ProgressSink 0))
           (cancelCheck (Some cancelOnSecondCheck)))
    = (out, log)
    /\ hd_error log
       = Some (EvCopy (LocalLocation sampleSource)
                 (RemoteSasLocation sampleDestination) sampleOptions)
    /\ countEv isCopy log = 1
    /\ countEv isLogReport log = countEv isFetch log
    /\ countEv isWait log = countEv isFetch log
    /\ countEv isNotification log = countEv isFetch log
    /\ countEv isCheck log
       = countEv isFetch log + (if isThrown out then 1 else 0)
    /\ waitsAreFixed log = true
    /\ paced false log = true.
Proof.
  apply (poller_log_invariants BlobOnly.startAndWaitForCopy sampleHost None
           (LocalLocation sampleSource) (RemoteSasLocation sampleDestination)
           sampleOptions (Some (ProgressSink 0)) (Some cancelOnSecondCheck) 2).
  right; left; reflexivity.
Defined.

(** X2: run against an engine whose calls succeed, the poller throws
    nothing of its own: whatever it throws was thrown by one of the
    cancellation checks, and the check is the last thing it did. *)
Theorem poller_throws_only_the_cancellation (poller : Poller) (h : Host)
    (exes : option AzCopyExes) (src dst : AzCopyLocation)
    (options : ICopyOptions) (sink : option Progress)
    (cancel : option (nat -> option Thrown)) (fuel : nat) (e : Thrown)
    (log : list Event) :
  In poller pollers ->
  run (poller fuel (AzCopyClient h exes) src dst options recordingProgress
         sink (cancelCheck cancel))
  = (Threw e, log) ->
  (exists script i, cancel = Some script /\ script i = Some e)
  /\ exists before, log = (before ++ [EvThrowIfCanceled])%list.
Proof.
  intros Hin. rewrite (pollers_same poller Hin). unfold run.
  destruct (poller_shape h exes src dst options sink cancel fuel [])
    as (out & n & -> & Hthrown & _).
  intros [= -> <-]. split; [now apply Hthrown|].
  cbn [app lastCheck].
  now exists (EvCopy src dst options
              :: cycles h src (engineJobId h) sink (supplied cancel) 0 n)%list.
Qed.

Lemma poller_throws_only_the_cancellation_witness :
  (exists script i,
     Some cancelOnSecondCheck = Some script /\ script i = Some userCancelled)
  /\ exists before,
       [EvCopy (LocalLocation sampleSource)
          (RemoteSasLocation sampleDestination) sampleOptions;
        EvThrowIfCanceled; EvGetJobInfo "job-1"; EvReportToOutputWindow 3;
        EvSetTimeout 1000; EvThrowIfCanceled]
       = (before ++ [EvThrowIfCanceled])%list.
Proof.
  apply (poller_throws_only_the_cancellation AzCopyUtils.startAndWaitForCopy
           sampleHost None (LocalLocation sampleSource)
           (RemoteSasLocation sampleDestination) sampleOptions None
           (Some cancelOnSecondCheck) 5 userCancelled).
  - left; reflexivity.
  - reflexivity.
Defined.

(** X3: the poller has no limit of its own. When the engine never reports
    'EndOfJob' (its status stays absent or in progress) and no cancellation
    check throws, the poller does not return: whatever the number of turns
    it is allowed, it uses them all, fetching the status on each. *)
Theorem poller_polls_until_end_of_job (poller : Poller) (h : Host)
    (exes : option AzCopyExes) (src dst : AzCopyLocation)
    (options : ICopyOptions) (sink : option Progress)
    (cancel : option (nat -> option Thrown)) (fuel : nat) :
  In poller pollers ->
  (forall n, notEndOfJob (engineStatus h (engineJobId h) n) = true) ->
  (forall n, checkPasses cancel n) ->
  exists log,
    run (poller fuel (AzCopyClient h exes) src dst options recordingProgress
           sink (cancelCheck cancel))
    = (OutOfFuel, log)
    /\ countEv isFetch log = fuel
    /\ log = (EvCopy src dst options
              :: cycles h src (engineJobId h) sink (supplied cancel) 0
                   fuel)%list.
Proof.
  intros Hin Hrun Hpass. rewrite (pollers_same poller Hin). unfold run.
  rewrite poller_unfold.
  rewrite (loop_never_ends h exes src (engineJobId h) sink cancel fuel None
             _ eq_refl Hrun Hpass).
  destruct (counts_after_copy src dst options []) as [-> _].
  cbn [app countEv filter List.length].
  eexists. split; [reflexivity|]. split; [|reflexivity].
  rewrite countEv_cons.
  destruct (cycles_counts h src (engineJobId h) sink (supplied cancel) fuel 0)
    as (_ & _ & -> & _).
  reflexivity.
Qed.

Lemma poller_polls_until_end_of_job_witness :
  exists log,
    run (AzCopyUtils.startAndWaitForCopy 4 (AzCopyClient silentHost None)
           (LocalLocation sampleSource) (RemoteSasLocation sampleDestination)
           sampleOptions recordingProgress None (cancelCheck None))
    = (OutOfFuel, log)
    /\ countEv isFetch log = 4
    /\ log = (EvCopy (LocalLocation sampleSource)
                (RemoteSasLocation sampleDestination) sampleOptions
              :: cycles silentHost (LocalLocation sampleSource)
                   (engineJobId silentHost) None false 0 4)%list.
Proof.
  apply (poller_polls_until_end_of_job AzCopyUtils.startAndWaitForCopy
           silentHost None (LocalLocation sampleSource)
           (RemoteSasLocation sampleDestination) sampleOptions None None 4).
  - left; reflexivity.
  - intros n; reflexivity.
  - intros n; exact I.
Defined.

(* ------------------------------------------------------------------ *)
(** * Any run of the facade *)

(** The whole of a run of [validateAzCopyInstalled]. *)
Lemma validate_run (h : Host) :
  run (AzCopyUtils.validateAzCopyInstalled h)
  = match versionProbe h with
    | None => (Returned true, [probeEvent h])
    | Some _ => (Returned false, probeEvent h :: promptEvents h)
    end.
Proof.
  unfold run, AzCopyUtils.validateAzCopyInstalled, AzCopyUtils.azCopyInstalled,
    callWithTelemetryAndErrorHandling, executeCommand, showWarningMessage,
    openUrl, showWarningMessageFloating, tryCatch, bind, emit, ret, throw,
    promptEvents.
  destruct (versionProbe h); [|reflexivity].
  destruct (promptAnswer h); cbn;
    [destruct (openUrlOutcome h); reflexivity | reflexivity..].
Qed.

(** X4: [validateAzCopyInstalled] never throws. It probes the engine once
    with [--version]; when the probe resolves it returns true and asks
    nothing. Otherwise it returns false after one modal prompt; the download
    page is opened only when the operator chose the offered item, and the
    add-to-path hint is shown only when the page did open. A dismissed
    prompt and a page that fails to open are absorbed. *)
Theorem validateAzCopyInstalled_never_throws (h : Host) :
  let expected :=
    match versionProbe h with
    | None => (Returned true, [probeEvent h])
    | Some _ => (Returned false, probeEvent h :: promptEvents h)
    end in
  run (AzCopyUtils.validateAzCopyInstalled h) = expected
  /\ run (BlobOnly.validateAzCopyInstalled h) = expected.
Proof.
  cbv zeta. rewrite blobOnly_validate_same. split; apply validate_run.
Qed.

(** A facade run without the engine, in full. *)
Lemma facade_run_without_engine (h : Host) (src : ILocalLocation)
    (dst : IRemoteSasLocation) (transferProgress : TransferProgress)
    (sink : option Progress) (check : option (M unit)) (fuel : nat)
    (fromTo : string) (e : Thrown) :
  versionProbe h = Some e ->
  run (AzCopyUtils.azCopyTransfer fuel h src dst transferProgress fromTo sink
         check)
  = (Returned tt, probeEvent h :: promptEvents h)
  /\ run (BlobOnly.azCopyTransfer fuel h src dst transferProgress sink check)
     = (Returned tt, probeEvent h :: promptEvents h).
Proof.
  intros Hprobe. pose proof (validate_run h) as Hv.
  rewrite Hprobe in Hv. unfold run in *.
  unfold AzCopyUtils.azCopyTransfer, BlobOnly.azCopyTransfer.
  rewrite blobOnly_validate_same. unfold bind. now rewrite Hv.
Qed.

Section AnyFacadeRun.

Local Open Scope list_scope.

Variable h : Host.

(** The facade keeps the log of its poller and adds the final fetch when
    the poller returned. *)
Lemma classify_shape (out : outcome string) (log : list Event) :
  exists out',
    classify h (out, log)
    = (out', log ++ match out with
                    | Returned jobId => [EvGetJobInfo jobId]
                    | _ => []
                    end).
Proof.
  destruct out as [jobId|e|]; cbn [classify].
  - eexists; reflexivity.
  - exists (Threw e). now rewrite app_nil_r.
  - exists OutOfFuel. now rewrite app_nil_r.
Qed.

Variables (exes : option AzCopyExes) (src dst : AzCopyLocation).
Variables (options : ICopyOptions) (sink : option Progress).
Variable cancel : option (nat -> option Thrown).

(** Any run of a facade past the probe: the prefix, one submission, and
    events that are no submission. *)
Lemma classified_poller_shape (fuel : nat) (prefix : list Event) :
  exists out more,
    classify h
      (AzCopyUtils.startAndWaitForCopy fuel (AzCopyClient h exes) src dst
         options recordingProgress sink (cancelCheck cancel) prefix)
    = (out, prefix ++ EvCopy src dst options :: more)
    /\ countEv isCopy more = 0.
Proof.
  destruct (poller_shape h exes src dst options sink cancel fuel prefix)
    as (out & n & -> & _ & _).
  destruct (classify_shape out
              (prefix ++ EvCopy src dst options
                      :: cycles h src (engineJobId h) sink (supplied cancel)
                           (countEv isFetch prefix) n
                      ++ lastCheck out)) as (out' & ->).
  exists out'. eexists. split.
  - rewrite <- app_assoc. cbn [app]. rewrite <- app_assoc. reflexivity.
  - rewrite !countEv_app.
    destruct (cycles_counts h src (engineJobId h) sink (supplied cancel) n
                (countEv isFetch prefix)) as (-> & _).
    destruct out; reflexivity.
Qed.

End AnyFacadeRun.

(** X5: with the engine installed, each entry point of the facade submits
    the job once, right after the probe, with the descriptors it was given:
    [azCopyBlobTransfer] in direction 'LocalBlob' and [azCopyFileTransfer]
    in direction 'LocalFile', both overwriting, recursive, following
    symbolic links and excluding [.git;.vscode]; the older [azCopyTransfer]
    in direction 'LocalBlob' with no exclusion, after it has registered the
    path of the executable. This holds however the run ends. *)
Theorem facade_submits_once_with_fixed_options (h : Host)
    (src : ILocalLocation) (dst : IRemoteSasLocation)
    (sink : option Progress) (cancel : option (nat -> option Thrown))
    (fuel : nat) :
  versionProbe h = None ->
  (exists out more,
     run (AzCopyUtils.azCopyBlobTransfer fuel h src dst recordingProgress
            sink (cancelCheck cancel))
     = (out, probeEvent h
             :: EvCopy (LocalLocation src) (RemoteSasLocation dst)
                  (submittedOptions "LocalBlob") :: more)
     /\ countEv isCopy more = 0)
  /\ (exists out more,
        run (AzCopyUtils.azCopyFileTransfer fuel h src dst recordingProgress
               sink (cancelCheck cancel))
        = (out, probeEvent h
                :: EvCopy (LocalLocation src) (RemoteSasLocation dst)
                     (submittedOptions "LocalFile") :: more)
        /\ countEv isCopy more = 0)
  /\ (exists out more,
        run (BlobOnly.azCopyTransfer fuel h src dst recordingProgress sink
               (cancelCheck cancel))
        = (out, probeEvent h :: EvSetAzCopyExes (hostExes h)
                :: EvCopy (LocalLocation src) (RemoteSasLocation dst)
                     blobOnlyOptions :: more)
        /\ countEv isCopy more = 0).
Proof.
  intros Hprobe. repeat split.
  - unfold AzCopyUtils.azCopyBlobTransfer.
    rewrite facade_unfold by exact Hprobe.
    apply (classified_poller_shape h _ _ _ _ sink cancel fuel [probeEvent h]).
  - unfold AzCopyUtils.azCopyFileTransfer.
    rewrite facade_unfold by exact Hprobe.
    apply (classified_poller_shape h _ _ _ _ sink cancel fuel [probeEvent h]).
  - rewrite blobOnly_facade_unfold by exact Hprobe.
    apply (classified_poller_shape h _ _ _ _ sink cancel fuel
             [probeEvent h; EvSetAzCopyExes (hostExes h)]).
Qed.

Lemma facade_submits_once_with_fixed_options_witness :
  exists out more,
    run (AzCopyUtils.azCopyFileTransfer 5 sampleHost sampleSource
           sampleDestination recordingProgress None
           (cancelCheck (Some cancelOnSecondCheck)))
    = (out, probeEvent sampleHost
            :: EvCopy (LocalLocation sampleSource)
                 (RemoteSasLocation sampleDestination)
                 (submittedOptions "LocalFile") :: more)
    /\ countEv isCopy more = 0.
Proof.
  exact (proj1 (proj2 (facade_submits_once_with_fixed_options sampleHost
                         sampleSource sampleDestination None
                         (Some cancelOnSecondCheck) 5 eq_refl))).
Defined.

(* ------------------------------------------------------------------ *)
(** * What is reported, and how sources are written *)

Section Reports.

Local Open Scope list_scope.

Variables (h : Host) (src : AzCopyLocation) (jobId : string).
Variables (sink : option Progress) (checked : bool).

Lemma logReports_app (a b : list Event) :
  logReports (a ++ b) = logReports a ++ logReports b.
Proof. unfold logReports. apply flat_map_app. Qed.

Lemma notificationReports_app (a b : list Event) :
  notificationReports (a ++ b)
  = notificationReports a ++ notificationReports b.
Proof. unfold notificationReports. apply flat_map_app. Qed.

Lemma reports_of_cycles (count : nat) : forall from,
  logReports (cycles h src jobId sink checked from count)
  = map (fun n => finishedWorkOf src (engineStatus h jobId n))
      (seq from count)
  /\ notificationReports (cycles h src jobId sink checked from count)
     = if supplied sink
       then map (fun n => finishedWorkOf src (engineStatus h jobId n))
              (seq from count)
       else [].
Proof.
  induction count as [|count IH]; intros from.
  - now destruct (supplied sink).
  - cbn [cycles seq map].
    rewrite logReports_app, notificationReports_app.
    destruct (IH (S from)) as [-> ->].
    unfold cycleEvents. destruct checked, sink; split; reflexivity.
Qed.

End Reports.

(** The counter the code selects, by the kind of source. *)
Lemma finishedWorkOf_counter (src : AzCopyLocation)
    (status : option TransferStatus) :
  finishedWorkOf src status
  = counterOf (if useWildCard src then TransfersCompleted else BytesOverWire)
      status.
Proof.
  unfold finishedWorkOf, counterOf, Js.orZero.
  destruct status as [st|]; [|reflexivity].
  destruct (useWildCard src).
  - destruct (TransfersCompleted st) as [c|]; [|reflexivity].
    destruct (Z.eqb_spec c 0); congruence.
  - destruct (BytesOverWire st) as [c|]; [|reflexivity].
    destruct (Z.eqb_spec c 0); congruence.
Qed.

(** X6: over a run that reaches 'EndOfJob' at the [k]-th fetch, the values
    fed to the log surface are, in order, one per fetched status: its
    bytes-over-wire count when the source was made by
    [createAzCopyLocalSource], its completed-transfer count when the source
    was made by [createAzCopyLocalDirectorySource], and 0 where the status or
    the count is absent. The notification sink, when supplied, is fed the
    same values. *)
Theorem run_reports_one_counter_per_status (poller : Poller) (h : Host)
    (exes : option AzCopyExes) (p : Platform) (path : string)
    (dst : AzCopyLocation) (options : ICopyOptions)
    (sink : option Progress) (cancel : option (nat -> option Thrown))
    (k fuel : nat) :
  In poller pollers ->
  firstEndOfJobAt h (engineJobId h) k ->
  (forall n, n < k -> checkPasses cancel n) ->
  k <= fuel ->
  let statuses := map (engineStatus h (engineJobId h)) (seq 0 k) in
  (exists log,
     run (poller fuel (AzCopyClient h exes)
            (LocalLocation (AzCopyUtils.createAzCopyLocalSource path)) dst
            options recordingProgress sink (cancelCheck cancel))
     = (Returned (engineJobId h), log)
     /\ logReports log = map (counterOf BytesOverWire) statuses
     /\ notificationReports log
        = if supplied sink then map (counterOf BytesOverWire) statuses
          else [])
  /\ (exists log,
        run (poller fuel (AzCopyClient h exes)
               (LocalLocation
                  (AzCopyUtils.createAzCopyLocalDirectorySource p path))
               dst options recordingProgress sink (cancelCheck cancel))
        = (Returned (engineJobId h), log)
        /\ logReports log = map (counterOf TransfersCompleted) statuses
        /\ notificationReports log
           = if supplied sink then map (counterOf TransfersCompleted) statuses
             else []).
Proof.
  intros Hin Hk Hpass Hfuel statuses. subst statuses.
  rewrite (pollers_same poller Hin).
  split;
    rewrite (poller_run_to_end h exes _ dst options sink cancel k fuel)
      by assumption;
    eexists; (split; [reflexivity|]);
    match goal with
    | |- context [cycles ?h ?s ?j ?snk ?c 0 ?k] =>
        change (logReports (EvCopy s dst options :: cycles h s j snk c 0 k))
          with (logReports (cycles h s j snk c 0 k));
        change (notificationReports
                  (EvCopy s dst options :: cycles h s j snk c 0 k))
          with (notificationReports (cycles h s j snk c 0 k));
        destruct (reports_of_cycles h s j snk c k 0) as [-> ->]
    end;
    rewrite !map_map;
    (split; [|destruct (supplied sink); [|reflexivity]]);
    apply map_ext; intros n; apply finishedWorkOf_counter.
Qed.

Lemma run_reports_one_counter_per_status_witness :
  let statuses := map (engineStatus sampleHost "job-1") (seq 0 3) in
  (exists log,
     run (AzCopyUtils.startAndWaitForCopy 3 (AzCopyClient sampleHost None)
            (LocalLocation (AzCopyUtils.createAzCopyLocalSource "/tmp/a.bin"))
            (RemoteSasLocation sampleDestination)
            sampleOptions recordingProgress (Some (ProgressSink 1))
            (cancelCheck None))
     = (Returned "job-1", log)
     /\ logReports log = map (counterOf BytesOverWire) statuses
     /\ notificationReports log = map (counterOf BytesOverWire) statuses)
  /\ (exists log,
        run (AzCopyUtils.startAndWaitForCopy 3 (AzCopyClient sampleHost None)
               (LocalLocation
                  (AzCopyUtils.createAzCopyLocalDirectorySource Posix
                     "/tmp/a.bin"))
               (RemoteSasLocation sampleDestination)
               sampleOptions recordingProgress (Some (ProgressSink 1))
               (cancelCheck None))
        = (Returned "job-1", log)
        /\ logReports log = map (counterOf TransfersCompleted) statuses
        /\ notificationReports log
           = map (counterOf TransfersCompleted) statuses).
Proof.
  apply (run_reports_one_counter_per_status AzCopyUtils.startAndWaitForCopy
           sampleHost None Posix "/tmp/a.bin"
           (RemoteSasLocation sampleDestination) sampleOptions
           (Some (ProgressSink 1)) None 3 3).
  - left; reflexivity.
  - split; [lia | split; [reflexivity|]].
    intros [|[|n]] Hn; [reflexivity | reflexivity | simpl in Hn; lia].
  - intros n Hn; exact I.
  - lia.
Defined.

(** X7: one trailing separator on the directory path makes no difference:
    a path that does not end with the separator and the same path with the
    separator appended give the same descriptor, in both files. The
    constructor is therefore not injective. *)
Theorem directory_source_ignores_trailing_separator (p : Platform)
    (dir : string) :
  Js.endsWith dir (sep p) = false ->
  AzCopyUtils.createAzCopyLocalDirectorySource p (dir ++ sep p)
  = AzCopyUtils.createAzCopyLocalDirectorySource p dir
  /\ BlobOnly.createAzCopyLocalDirectorySource p (dir ++ sep p)
     = BlobOnly.createAzCopyLocalDirectorySource p dir
  /\ dir ++ sep p <> dir.
Proof.
  intros Hend.
  unfold AzCopyUtils.createAzCopyLocalDirectorySource,
    BlobOnly.createAzCopyLocalDirectorySource.
  rewrite endsWith_append, Hend, !append_assoc.
  repeat split.
  intros H. apply (f_equal String.length) in H.
  rewrite length_append in H. destruct p; simpl in H; lia.
Qed.

Lemma directory_source_ignores_trailing_separator_witness :
  AzCopyUtils.createAzCopyLocalDirectorySource Posix ("/home/user/site" ++ "/")
  = AzCopyUtils.createAzCopyLocalDirectorySource Posix "/home/user/site"
  /\ BlobOnly.createAzCopyLocalDirectorySource Posix ("/home/user/site" ++ "/")
     = BlobOnly.createAzCopyLocalDirectorySource Posix "/home/user/site"
  /\ "/home/user/site" ++ "/" <> "/home/user/site".
Proof.
  apply (directory_source_ignores_trailing_separator Posix "/home/user/site").
  reflexivity.
Defined.

(* ------------------------------------------------------------------ *)
(** * [uploadFiles] *)

Section FacadeLogs.

Local Open Scope list_scope.

Variables (h : Host) (src : ILocalLocation) (dst : IRemoteSasLocation).
Variable sink : option Progress.

Local Abbreviation jobId := (engineJobId h).
Local Abbreviation submit options :=
  (EvCopy (LocalLocation src) (RemoteSasLocation dst) options).

Lemma run_then_ret (A : Type) (m : M unit) (value : A) :
  run (m ;; ret value)%async = (andThen (fst (run m)) value, snd (run m)).
Proof.
  unfold run, bind, ret. now destruct (m []) as [[[]|e|] log].
Qed.

Lemma classify_completed (prefix : list Event) (options : ICopyOptions)
    (checked : bool) (k : nat) :
  countEv isFetch prefix = 0 ->
  classify h
    (Returned jobId,
     prefix ++ submit options
            :: cycles h (LocalLocation src) jobId sink checked 0 k)
  = (specOutcome (engineStatus h jobId k),
     prefix ++ submit options
            :: cycles h (LocalLocation src) jobId sink checked 0 k
            ++ [EvGetJobInfo jobId]).
Proof.
  intros Hf. unfold classify.
  destruct (completed_log_counts h (LocalLocation src) (RemoteSasLocation dst)
              options sink checked prefix k) as [_ Hfetch].
  cbv zeta in Hfetch. rewrite Hfetch, Hf. cbn [Nat.add].
  rewrite classification_spec. rewrite <- app_assoc. reflexivity.
Qed.

(** A facade run that reaches the end of the job, in full. *)
Lemma facade_run_completes (cancel : option (nat -> option Thrown))
    (fromTo : string) (k fuel : nat) :
  versionProbe h = None ->
  firstEndOfJobAt h jobId k ->
  (forall n, n < k -> checkPasses cancel n) ->
  k <= fuel ->
  run (AzCopyUtils.azCopyTransfer fuel h src dst recordingProgress fromTo
         sink (cancelCheck cancel))
  = (specOutcome (engineStatus h jobId k),
     probeEvent h :: submit (submittedOptions fromTo)
     :: cycles h (LocalLocation src) jobId sink (supplied cancel) 0 k
     ++ [EvGetJobInfo jobId]).
Proof.
  intros Hprobe Hk Hpass Hfuel.
  rewrite facade_unfold by exact Hprobe.
  rewrite (poller_completes_from _ _ _ _ _ _ cancel k fuel)
    by (reflexivity || assumption).
  now rewrite classify_completed.
Qed.

Lemma blobOnly_facade_run_completes (cancel : option (nat -> option Thrown))
    (k fuel : nat) :
  versionProbe h = None ->
  firstEndOfJobAt h jobId k ->
  (forall n, n < k -> checkPasses cancel n) ->
  k <= fuel ->
  run (BlobOnly.azCopyTransfer fuel h src dst recordingProgress sink
         (cancelCheck cancel))
  = (specOutcome (engineStatus h jobId k),
     probeEvent h :: EvSetAzCopyExes (hostExes h) :: submit blobOnlyOptions
     :: cycles h (LocalLocation src) jobId sink (supplied cancel) 0 k
     ++ [EvGetJobInfo jobId]).
Proof.
  intros Hprobe Hk Hpass Hfuel.
  rewrite blobOnly_facade_unfold by exact Hprobe.
  rewrite (poller_completes_from _ _ _ _ _ _ cancel k fuel)
    by (reflexivity || assumption).
  now rewrite classify_completed.
Qed.

(** A facade run stopped by the [j]-th check, in full. *)
Lemma facade_run_cancelled (script : nat -> option Thrown) (e : Thrown)
    (fromTo : string) (j fuel : nat) :
  versionProbe h = None ->
  (forall n, n < j - 1 -> notEndOfJob (engineStatus h jobId n) = true) ->
  1 <= j -> script (j - 1) = Some e ->
  (forall n, n < j - 1 -> script n = None) ->
  j <= fuel ->
  run (AzCopyUtils.azCopyTransfer fuel h src dst recordingProgress fromTo
         sink (Some (scriptedCheck script)))
  = (Threw e,
     probeEvent h :: submit (submittedOptions fromTo)
     :: cycles h (LocalLocation src) jobId sink true 0 (j - 1)
     ++ [EvThrowIfCanceled])
  /\ run (BlobOnly.azCopyTransfer fuel h src dst recordingProgress sink
            (Some (scriptedCheck script)))
     = (Threw e,
        probeEvent h :: EvSetAzCopyExes (hostExes h) :: submit blobOnlyOptions
        :: cycles h (LocalLocation src) jobId sink true 0 (j - 1)
        ++ [EvThrowIfCanceled]).
Proof.
  intros Hprobe Hrun Hj Hthrow Hpass Hfuel. split.
  - rewrite facade_unfold by exact Hprobe.
    now rewrite (poller_cancelled_from _ _ _ _ _ _ script e j fuel)
      by (reflexivity || assumption).
  - rewrite blobOnly_facade_unfold by exact Hprobe.
    now rewrite (poller_cancelled_from _ _ _ _ _ _ script e j fuel)
      by (reflexivity || assumption).
Qed.

End FacadeLogs.

Section UploadFiles.

Local Open Scope list_scope.

Variables (h : Host) (env : UploadEnv) (p : Platform).
Variables (destTreeItem : DestTreeItem) (sourceFolder destFolder : string).
Variables (telemetryProperties : string -> option string).
Variables (notificationProgress : Progress) (token : CancellationToken).
Variable outputChannel : list string.

Lemma uploadFiles_unfold (fuel : nat) (transferProgress : TransferProgress) :
  UploadUtils.uploadFiles fuel h env p destTreeItem sourceFolder destFolder
    telemetryProperties transferProgress notificationProgress token
    outputChannel
  = (AzCopyUtils.azCopyTransfer fuel h
       (AzCopyUtils.createAzCopyLocalDirectorySource p sourceFolder)
       (AzCopyUtils.createAzCopyDestination destTreeItem destFolder)
       transferProgress (directionOf destTreeItem)
       (Some notificationProgress)
       (Some (throwIfCanceled env token telemetryProperties "uploadFiles")) ;;
     ret (outputChannel ++ [finishedUploadLine env destTreeItem]))%async.
Proof. now destruct destTreeItem. Qed.

End UploadFiles.

(** X8: [uploadFiles] on a run that reaches 'EndOfJob' at the [k]-th fetch.
    It submits the children of the source folder (the wildcard path) to the
    destination of the tree item, in direction 'LocalBlob' for a blob
    container and 'LocalFile' for a file share, reports the
    completed-transfer count of each fetched status, and fetches the status
    once more. If that final status is present and not 'Failed' it returns
    with the line "Uploaded to ..." appended to the output channel;
    otherwise it throws the transfer failure and appends nothing. *)
Theorem uploadFiles_submits_folder_and_logs (h : Host) (env : UploadEnv)
    (p : Platform) (destTreeItem : DestTreeItem)
    (sourceFolder destFolder : string)
    (telemetryProperties : string -> option string)
    (notificationProgress : Progress) (token : CancellationToken)
    (outputChannel : list string) (script : nat -> option Thrown)
    (k fuel : nat) :
  versionProbe h = None ->
  throwIfCanceled env token telemetryProperties "uploadFiles"
  = scriptedCheck script ->
  firstEndOfJobAt h (engineJobId h) k ->
  (forall n, n < k -> script n = None) ->
  k <= fuel ->
  let src := AzCopyUtils.createAzCopyLocalDirectorySource p sourceFolder in
  let dst := AzCopyUtils.createAzCopyDestination destTreeItem destFolder in
  let statuses := map (engineStatus h (engineJobId h)) (seq 0 k) in
  exists turns,
    run (UploadUtils.uploadFiles fuel h env p destTreeItem sourceFolder
           destFolder telemetryProperties recordingProgress
           notificationProgress token outputChannel)
    = (andThen (specOutcome (engineStatus h (engineJobId h) k))
         (outputChannel ++ [finishedUploadLine env destTreeItem])%list,
       (probeEvent h
        :: EvCopy (LocalLocation src) (RemoteSasLocation dst)
             (submittedOptions (directionOf destTreeItem))
        :: turns ++ [EvGetJobInfo (engineJobId h)])%list)
    /\ l_path src = directoryGlobPath p ".*" sourceFolder
    /\ countEv isCopy turns = 0
    /\ countEv isFetch turns = k
    /\ logReports turns = map (counterOf TransfersCompleted) statuses
    /\ notificationReports turns
       = map (counterOf TransfersCompleted) statuses.
Proof.
  intros Hprobe Hcheck Hk Hpass Hfuel src dst statuses.
  subst src dst statuses.
  rewrite uploadFiles_unfold, run_then_ret, Hcheck.
  change (Some (scriptedCheck script)) with (cancelCheck (Some script)).
  rewrite (facade_run_completes h _ _ (Some notificationProgress)
             (Some script) (directionOf destTreeItem) k fuel)
    by assumption.
  cbn [fst snd supplied].
  eexists. split; [reflexivity|]. split; [reflexivity|].
  destruct (cycles_counts h
              (LocalLocation
                 (AzCopyUtils.createAzCopyLocalDirectorySource p sourceFolder))
              (engineJobId h) (Some notificationProgress) true k 0)
    as (-> & _ & -> & _).
  destruct (reports_of_cycles h
              (LocalLocation
                 (AzCopyUtils.createAzCopyLocalDirectorySource p sourceFolder))
              (engineJobId h) (Some notificationProgress) true k 0)
    as [-> ->].
  cbn [supplied]. rewrite !map_map.
  repeat split; apply map_ext; intros n; apply finishedWorkOf_counter.
Qed.

Lemma uploadFiles_submits_folder_and_logs_witness :
  exists turns,
    run (UploadUtils.uploadFiles 5 sampleHost
           (scriptedUploadEnv neverCancelled) Posix
           (FileShareTreeItem sampleRoot "docs") "/home/user/site" "site"
           (fun _ => None) recordingProgress (ProgressSink 0) (Token 0) [])
    = (Returned [finishedUploadLine (scriptedUploadEnv neverCancelled)
                   (FileShareTreeItem sampleRoot "docs")],
       (probeEvent sampleHost
        :: EvCopy
             (LocalLocation
                (AzCopyUtils.createAzCopyLocalDirectorySource Posix
                   "/home/user/site"))
             (RemoteSasLocation
                (AzCopyUtils.createAzCopyDestination
                   (FileShareTreeItem sampleRoot "docs") "site"))
             (submittedOptions "LocalFile")
        :: turns ++ [EvGetJobInfo "job-1"])%list)
    /\ l_path (AzCopyUtils.createAzCopyLocalDirectorySource Posix
                 "/home/user/site")
       = directoryGlobPath Posix ".*" "/home/user/site"
    /\ countEv isCopy turns = 0
    /\ countEv isFetch turns = 3
    /\ logReports turns = [3; 7; 10]%Z
    /\ notificationReports turns = [3; 7; 10]%Z.
Proof.
  apply (uploadFiles_submits_folder_and_logs sampleHost
           (scriptedUploadEnv neverCancelled) Posix
           (FileShareTreeItem sampleRoot "docs") "/home/user/site" "site"
           (fun _ => None) (ProgressSink 0) (Token 0) [] neverCancelled 3 5).
  - reflexivity.
  - reflexivity.
  - split; [lia | split; [reflexivity|]].
    intros [|[|n]] Hn; [reflexivity | reflexivity | simpl in Hn; lia].
  - intros n Hn; reflexivity.
  - lia.
Defined.

(** X9: the older [uploadFiles] always uploads to a blob container. On a
    run that reaches 'EndOfJob' at the [k]-th fetch it submits the children
    of the source folder (path ending in ["*"]) in direction 'LocalBlob',
    without exclusions, to the container client of the tree item's root: the
    container of a blob container item, and the container with the empty
    name when the tree item is a file share. It ends like the newer one. *)
Theorem blobOnly_uploadFiles_targets_a_container (h : Host) (env : UploadEnv)
    (p : Platform) (destTreeItem : DestTreeItem)
    (sourceFolder destFolder : string)
    (telemetryProperties : string -> option string)
    (notificationProgress : Progress) (token : CancellationToken)
    (outputChannel : list string) (script : nat -> option Thrown)
    (k fuel : nat) :
  versionProbe h = None ->
  throwIfCanceled env token telemetryProperties "uploadFiles"
  = scriptedCheck script ->
  firstEndOfJobAt h (engineJobId h) k ->
  (forall n, n < k -> script n = None) ->
  k <= fuel ->
  let src := BlobOnly.createAzCopyLocalDirectorySource p sourceFolder in
  let containerName :=
    match destTreeItem with
    | BlobContainerTreeItem _ name => name
    | FileShareTreeItem _ _ => EmptyString
    end in
  exists dst turns,
    run (BlobOnlyUploadUtils.uploadFiles fuel h env p destTreeItem
           sourceFolder destFolder telemetryProperties recordingProgress
           notificationProgress token outputChannel)
    = (andThen (specOutcome (engineStatus h (engineJobId h) k))
         (outputChannel ++ [finishedUploadLine env destTreeItem])%list,
       (probeEvent h :: EvSetAzCopyExes (hostExes h)
        :: EvCopy (LocalLocation src) (RemoteSasLocation dst) blobOnlyOptions
        :: turns ++ [EvGetJobInfo (engineJobId h)])%list)
    /\ l_path src = directoryGlobPath p "*" sourceFolder
    /\ r_resourceUri dst
       = containerClientUrl (treeItemRoot destTreeItem) containerName
    /\ r_sasToken dst = generateSasToken (treeItemRoot destTreeItem)
    /\ countEv isCopy turns = 0
    /\ countEv isFetch turns = k.
Proof.
  intros Hprobe Hcheck Hk Hpass Hfuel src containerName.
  subst src containerName.
  unfold BlobOnlyUploadUtils.uploadFiles. cbv zeta.
  rewrite run_then_ret, Hcheck.
  change (Some (scriptedCheck script)) with (cancelCheck (Some script)).
  rewrite (blobOnly_facade_run_completes h _ _ (Some notificationProgress)
             (Some script) k fuel) by assumption.
  cbn [fst snd supplied].
  do 2 eexists. split; [reflexivity|].
  destruct (cycles_counts h
              (LocalLocation
                 (BlobOnly.createAzCopyLocalDirectorySource p sourceFolder))
              (engineJobId h) (Some notificationProgress) true k 0)
    as (-> & _ & -> & _).
  repeat split.
Qed.

Lemma blobOnly_uploadFiles_targets_a_container_witness :
  exists dst turns,
    run (BlobOnlyUploadUtils.uploadFiles 5 sampleHost
           (scriptedUploadEnv neverCancelled) Posix
           (FileShareTreeItem sampleRoot "docs") "/home/user/site" "site"
           (fun _ => None) recordingProgress (ProgressSink 0) (Token 0) [])
    = (Returned [finishedUploadLine (scriptedUploadEnv neverCancelled)
                   (FileShareTreeItem sampleRoot "docs")],
       (probeEvent sampleHost :: EvSetAzCopyExes (hostExes sampleHost)
        :: EvCopy
             (LocalLocation
                (BlobOnly.createAzCopyLocalDirectorySource Posix
                   "/home/user/site"))
             (RemoteSasLocation dst) blobOnlyOptions
        :: turns ++ [EvGetJobInfo "job-1"])%list)
    /\ l_path (BlobOnly.createAzCopyLocalDirectorySource Posix
                 "/home/user/site")
       = directoryGlobPath Posix "*" "/home/user/site"
    /\ r_resourceUri dst = containerClientUrl sampleRoot EmptyString
    /\ r_sasToken dst = generateSasToken sampleRoot
    /\ countEv isCopy turns = 0
    /\ countEv isFetch turns = 3.
Proof.
  apply (blobOnly_uploadFiles_targets_a_container sampleHost
           (scriptedUploadEnv neverCancelled) Posix
           (FileShareTreeItem sampleRoot "docs") "/home/user/site" "site"
           (fun _ => None) (ProgressSink 0) (Token 0) [] neverCancelled 3 5).
  - reflexivity.
  - reflexivity.
  - split; [lia | split; [reflexivity|]].
    intros [|[|n]] Hn; [reflexivity | reflexivity | simpl in Hn; lia].
  - intros n Hn; reflexivity.
  - lia.
Defined.

(** X10: without the engine both [uploadFiles] still return normally, with
    the line "Uploaded to ..." appended to the output channel, although no
    job was submitted and no status fetched: their log is the probe and the
    prompt of [validateAzCopyInstalled], nothing more. *)
Theorem uploadFiles_logs_success_without_engine (h : Host) (env : UploadEnv)
    (p : Platform) (destTreeItem : DestTreeItem)
    (sourceFolder destFolder : string)
    (telemetryProperties : string -> option string)
    (transferProgress : TransferProgress)
    (notificationProgress : Progress) (token : CancellationToken)
    (outputChannel : list string) (fuel : nat) (e : Thrown) :
  versionProbe h = Some e ->
  let done :=
    (Returned (outputChannel ++ [finishedUploadLine env destTreeItem])%list,
     probeEvent h :: promptEvents h) in
  run (UploadUtils.uploadFiles fuel h env p destTreeItem sourceFolder
         destFolder telemetryProperties transferProgress notificationProgress
         token outputChannel) = done
  /\ run (BlobOnlyUploadUtils.uploadFiles fuel h env p destTreeItem
            sourceFolder destFolder telemetryProperties transferProgress
            notificationProgress token outputChannel) = done
  /\ countEv isCopy (probeEvent h :: promptEvents h) = 0
  /\ countEv isFetch (probeEvent h :: promptEvents h) = 0.
Proof.
  intros Hprobe done. subst done.
  rewrite uploadFiles_unfold, run_then_ret.
  unfold BlobOnlyUploadUtils.uploadFiles. cbv zeta. rewrite run_then_ret.
  destruct (facade_run_without_engine h
              (AzCopyUtils.createAzCopyLocalDirectorySource p sourceFolder)
              (AzCopyUtils.createAzCopyDestination destTreeItem destFolder)
              transferProgress (Some notificationProgress)
              (Some (throwIfCanceled env token telemetryProperties
                       "uploadFiles"))
              fuel (directionOf destTreeItem) e Hprobe) as [-> _].
  match goal with
  | |- context [BlobOnly.azCopyTransfer fuel h ?s ?d ?tp ?snk ?chk] =>
      destruct (facade_run_without_engine h s d tp snk chk fuel
                  EmptyString e Hprobe) as [_ ->]
  end.
  repeat split;
    unfold promptEvents; rewrite countEv_cons; cbn [isCopy isFetch Nat.add];
    destruct (promptAnswer h); try reflexivity;
    destruct (openUrlOutcome h); reflexivity.
Qed.

Lemma uploadFiles_logs_success_without_engine_witness :
  let done :=
    (Returned ["earlier line";
               finishedUploadLine (scriptedUploadEnv neverCancelled)
                 (BlobContainerTreeItem sampleRoot "web")],
     probeEvent bareHost :: promptEvents bareHost) in
  run (UploadUtils.uploadFiles 5 bareHost (scriptedUploadEnv neverCancelled)
         Posix (BlobContainerTreeItem sampleRoot "web") "/home/user/site"
         "site" (fun _ => None) recordingProgress (ProgressSink 0) (Token 0)
         ["earlier line"]) = done
  /\ run (BlobOnlyUploadUtils.uploadFiles 5 bareHost
            (scriptedUploadEnv neverCancelled) Posix
            (BlobContainerTreeItem sampleRoot "web") "/home/user/site"
            "site" (fun _ => None) recordingProgress (ProgressSink 0)
            (Token 0) ["earlier line"]) = done
  /\ countEv isCopy (probeEvent bareHost :: promptEvents bareHost) = 0
  /\ countEv isFetch (probeEvent bareHost :: promptEvents bareHost) = 0.
Proof.
  apply (uploadFiles_logs_success_without_engine bareHost
           (scriptedUploadEnv neverCancelled) Posix
           (BlobContainerTreeItem sampleRoot "web") "/home/user/site" "site"
           (fun _ => None) recordingProgress (ProgressSink 0) (Token 0)
           ["earlier line"] 5 (newError "spawn azcopy ENOENT")).
  reflexivity.
Defined.

(** X11: when the [j]-th cancellation check throws before 'EndOfJob' has
    been fetched, both [uploadFiles] throw what the check threw, with no
    line appended to the output channel; the job stays submitted, and the
    check is the last call made: [j - 1] statuses were fetched and no final
    fetch follows. *)
Theorem uploadFiles_cancelled_logs_nothing (h : Host) (env : UploadEnv)
    (p : Platform) (destTreeItem : DestTreeItem)
    (sourceFolder destFolder : string)
    (telemetryProperties : string -> option string)
    (notificationProgress : Progress) (token : CancellationToken)
    (outputChannel : list string) (script : nat -> option Thrown)
    (e : Thrown) (j fuel : nat) :
  versionProbe h = None ->
  throwIfCanceled env token telemetryProperties "uploadFiles"
  = scriptedCheck script ->
  (forall n, n < j - 1 ->
     notEndOfJob (engineStatus h (engineJobId h) n) = true) ->
  1 <= j -> script (j - 1) = Some e ->
  (forall n, n < j - 1 -> script n = None) ->
  j <= fuel ->
  (exists log before,
     run (UploadUtils.uploadFiles fuel h env p destTreeItem sourceFolder
            destFolder telemetryProperties recordingProgress
            notificationProgress token outputChannel)
     = (Threw e, log)
     /\ log = (before ++ [EvThrowIfCanceled])%list
     /\ countEv isCopy log = 1
     /\ countEv isFetch log = j - 1)
  /\ (exists log before,
        run (BlobOnlyUploadUtils.uploadFiles fuel h env p destTreeItem
               sourceFolder destFolder telemetryProperties recordingProgress
               notificationProgress token outputChannel)
        = (Threw e, log)
        /\ log = (before ++ [EvThrowIfCanceled])%list
        /\ countEv isCopy log = 1
        /\ countEv isFetch log = j - 1).
Proof.
  intros Hprobe Hcheck Hrun Hj Hthrow Hpass Hfuel.
  rewrite uploadFiles_unfold, run_then_ret.
  unfold BlobOnlyUploadUtils.uploadFiles. cbv zeta. rewrite run_then_ret.
  rewrite Hcheck.
  split.
  - destruct (facade_run_cancelled h
                (AzCopyUtils.createAzCopyLocalDirectorySource p sourceFolder)
                (AzCopyUtils.createAzCopyDestination destTreeItem destFolder)
                (Some notificationProgress) script e
                (directionOf destTreeItem) j fuel
                Hprobe Hrun Hj Hthrow Hpass Hfuel) as [-> _].
    cbn [fst snd andThen].
    match goal with
    | |- context [EvCopy ?s ?d ?o :: cycles h ?s ?i ?snk true 0 ?n
                  ++ [EvThrowIfCanceled]] =>
        destruct (cancelled_log_counts h s d o snk [probeEvent h] n)
          as (Hc & _ & Hf);
        exists (probeEvent h :: EvCopy s d o :: cycles h s i snk true 0 n
                ++ [EvThrowIfCanceled]);
        exists (probeEvent h :: EvCopy s d o :: cycles h s i snk true 0 n)
    end.
    cbv zeta in Hc, Hf. cbn [app] in Hc, Hf.
    split; [reflexivity|]. split; [reflexivity|].
    rewrite Hc, Hf. split; reflexivity.
  - match goal with
    | |- context [BlobOnly.azCopyTransfer fuel h ?s ?d _ ?snk _] =>
        destruct (facade_run_cancelled h s d snk script e EmptyString j fuel
                    Hprobe Hrun Hj Hthrow Hpass Hfuel) as [_ ->]
    end.
    cbn [fst snd andThen].
    match goal with
    | |- context [EvCopy ?s ?d ?o :: cycles h ?s ?i ?snk true 0 ?n
                  ++ [EvThrowIfCanceled]] =>
        destruct (cancelled_log_counts h s d o snk
                    [probeEvent h; EvSetAzCopyExes (hostExes h)] n)
          as (Hc & _ & Hf);
        exists (probeEvent h :: EvSetAzCopyExes (hostExes h) :: EvCopy s d o
                :: cycles h s i snk true 0 n ++ [EvThrowIfCanceled]);
        exists (probeEvent h :: EvSetAzCopyExes (hostExes h) :: EvCopy s d o
                :: cycles h s i snk true 0 n)
    end.
    cbv zeta in Hc, Hf. cbn [app] in Hc, Hf.
    split; [reflexivity|]. split; [reflexivity|].
    rewrite Hc, Hf. split; reflexivity.
Qed.

Lemma uploadFiles_cancelled_logs_nothing_witness :
  (exists log before,
     run (UploadUtils.uploadFiles 5 sampleHost
            (scriptedUploadEnv cancelOnSecondCheck) Posix
            (BlobContainerTreeItem sampleRoot "web") "/home/user/site" "site"
            (fun _ => None) recordingProgress (ProgressSink 0) (Token 0)
            ["earlier line"])
     = (Threw userCancelled, log)
     /\ log = (before ++ [EvThrowIfCanceled])%list
     /\ countEv isCopy log = 1
     /\ countEv isFetch log = 1)
  /\ (exists log before,
        run (BlobOnlyUploadUtils.uploadFiles 5 sampleHost
               (scriptedUploadEnv cancelOnSecondCheck) Posix
               (BlobContainerTreeItem sampleRoot "web") "/home/user/site"
               "site" (fun _ => None) recordingProgress (ProgressSink 0)
               (Token 0) ["earlier line"])
        = (Threw userCancelled, log)
        /\ log = (before ++ [EvThrowIfCanceled])%list
        /\ countEv isCopy log = 1
        /\ countEv isFetch log = 1).
Proof.
  apply (uploadFiles_cancelled_logs_nothing sampleHost
           (scriptedUploadEnv cancelOnSecondCheck) Posix
           (BlobContainerTreeItem sampleRoot "web") "/home/user/site" "site"
           (fun _ => None) (ProgressSink 0) (Token 0) ["earlier line"]
           cancelOnSecondCheck userCancelled 2 5).
  - reflexivity.
  - reflexivity.
  - intros [|n] Hn; [reflexivity | simpl in Hn; lia].
  - lia.
  - reflexivity.
  - intros [|n] Hn; [reflexivity | simpl in Hn; lia].
  - lia.
Defined.

(* ------------------------------------------------------------------ *)
(** * [shouldUseAzCopy] *)

Lemma setKey_same (V : Type) (dict : string -> option V) (key : string)
    (value : V) :
  setKey dict key value key = Some value.
Proof. unfold setKey. now rewrite String.eqb_refl. Qed.

Lemma setKey_other (V : Type) (dict : string -> option V) (key : string)
    (value : V) (k : string) :
  k <> key -> setKey dict key value k = dict k.
Proof.
  intros Hk. unfold setKey.
  now destruct (String.eqb_spec k key).
Qed.

(** X12: [shouldUseAzCopy] answers true exactly when the file is larger
    than the limit (a file of exactly the limit is not), records the size
    under 'blockBlobUploadSize' and its answer, as 'true' or 'false', under
    'azCopyBlockBlobUpload', and leaves every other telemetry entry as it
    was. When the file cannot be inspected it throws that error and records
    nothing. *)
Theorem shouldUseAzCopy_decides_by_size (limit : Z)
    (stat : string -> Thrown + Stats) (t : Telemetry) (localPath : string) :
  match stat localPath with
  | inl e => shouldUseAzCopy limit stat t localPath = (Threw e, t)
  | inr stats =>
      exists t',
        shouldUseAzCopy limit stat t localPath
        = (Returned (st_size stats >? limit)%Z, t')
        /\ ((st_size stats >? limit)%Z = true <-> (limit < st_size stats)%Z)
        /\ measurements t' "blockBlobUploadSize" = Some (st_size stats)
        /\ properties t' "azCopyBlockBlobUpload"
           = Some (if (st_size stats >? limit)%Z then "true" else "false")
        /\ (forall k, k <> "blockBlobUploadSize" ->
              measurements t' k = measurements t k)
        /\ (forall k, k <> "azCopyBlockBlobUpload" ->
              properties t' k = properties t k)
  end.
Proof.
  unfold shouldUseAzCopy.
  destruct (stat localPath) as [e|stats]; [reflexivity|].
  eexists. split; [reflexivity|]. cbn [measurements properties].
  split; [rewrite Z.gtb_ltb; apply Z.ltb_lt|].
  split; [apply setKey_same|]. split; [apply setKey_same|].
  split; intros k Hk; now apply setKey_other.
Qed.

(* ------------------------------------------------------------------ *)
(** * The command [uploadFile] *)

Section UploadFile.

Local Open Scope list_scope.

Variables (d : Desk) (treeItem : DestTreeItem) (w : World).

Lemma pickedFile_some (uri : Uri) (name : string) :
  pickedFile d = Some (uri, name) ->
  (exists rest, openDialogAnswer d = Some (uri :: rest))
  /\ inputBoxAnswer d = Some name
  /\ Js.truthyString (inputBoxAnswer d) = true.
Proof.
  unfold pickedFile.
  destruct (openDialogAnswer d) as [[|uri' rest]|]; try discriminate.
  destruct (Js.truthyString (inputBoxAnswer d)) eqn:Ht; [|discriminate].
  destruct (inputBoxAnswer d) as [name'|]; [|discriminate].
  intros [= -> ->]. repeat split. now exists rest.
Qed.

(** [uploadFile] up to the existence test, once a file and a name are
    there. *)
Lemma uploadFile_picked (uri : Uri) (name : string) :
  pickedFile d = Some (uri, name) ->
  UploadFileCommand.uploadFile d treeItem w
  = (found <- remoteExists d treeItem name ;;
     returned <-
       (if found then
          call (CallShowWarningMessage (overwriteQuestion name)) ;;
          answerVoid (overwriteAnswer d) ;;
          tryCatchC
            (call (CallFindTreeItem (fullIdOf d treeItem ++ "/" ++ name)%string) ;;
             result <- answer (findTreeItemAnswer d) ;;
             if result then
               useAzCopy <- shouldUseAzCopyC d (fsPath uri) ;;
               call (CallUploadLocalFile (fsPath uri) name useAzCopy) ;;
               answerVoid (uploadLocalFileAnswer d) ;;
               retC true
             else retC false)
            (fun _ => retC false)
        else retC false) ;;
     if returned then retC tt
     else
       call (CallCreateChild name (fsPath uri)) ;;
       answerVoid (createChildAnswer d))%command
      (afterCalls (withFolder w uri) (pickCalls d w uri)).
Proof.
  intros Hpick.
  destruct (pickedFile_some uri name Hpick) as ([rest Hopen] & Hname & Ht).
  unfold UploadFileCommand.uploadFile.
  rewrite Hopen, Ht, Hname.
  unfold bindC at 1, getWorld. unfold bindC at 1, call at 1.
  unfold bindC at 1, setLastUploadFolder. unfold bindC at 1, call at 1.
  unfold afterCalls, withFolder, pickCalls, localize; cbn [calls engineLog
    channel telemetry lastUploadFolder].
  now rewrite <- app_assoc.
Qed.

Lemma remoteExists_run (name : string) (found : bool) (w0 : World) :
  existsAnswer d = inr found ->
  remoteExists d treeItem name w0
  = (Returned found, afterCalls w0 [existsCall d treeItem name]).
Proof.
  intros He. unfold remoteExists, existsCall, bindC, call, answer, afterCalls.
  rewrite He. now destruct treeItem.
Qed.

Lemma afterCalls_afterCalls (w0 : World) (a b : list Call) :
  afterCalls (afterCalls w0 a) b = afterCalls w0 (a ++ b).
Proof. unfold afterCalls; cbn. now rewrite app_assoc. Qed.

End UploadFile.

(** Two worlds written with [afterCalls] and the like are the same. *)
Ltac same_world :=
  unfold afterCalls, withFolder, withTelemetry, withEngine, sizedTelemetry,
    pickCalls, localize;
  cbn [calls engineLog channel telemetry lastUploadFolder measurements
         properties];
  rewrite <- ?app_assoc; cbn [app]; reflexivity.

(** X13: [uploadFile] does nothing more than ask when no file is picked
    in the dialog or no name is typed: no existence test, no upload and no
    child is made, and the command returns. A picked file is remembered as
    the default of the next dialog even when the name is then left empty. *)
Theorem uploadFile_without_file_or_name (d : Desk) (treeItem : DestTreeItem)
    (w : World) :
  pickedFile d = None ->
  UploadFileCommand.uploadFile d treeItem w
  = (Returned tt,
     match openDialogAnswer d with
     | Some (uri :: _) => afterCalls (withFolder w uri) (pickCalls d w uri)
     | _ => afterCalls w [CallShowOpenDialog (lastUploadFolder w)]
     end).
Proof.
  unfold pickedFile, UploadFileCommand.uploadFile.
  unfold bindC at 1, getWorld. unfold bindC at 1, call at 1.
  destruct (openDialogAnswer d) as [[|uri rest]|]; try reflexivity.
  destruct (Js.truthyString (inputBoxAnswer d)) eqn:Ht.
  - destruct (inputBoxAnswer d); [discriminate | discriminate].
  - intros _. unfold bindC, setLastUploadFolder, call, retC, afterCalls,
      withFolder, pickCalls, localize;
      cbn [calls engineLog channel telemetry lastUploadFolder].
    now rewrite <- app_assoc.
Qed.

Lemma uploadFile_without_file_or_name_witness :
  UploadFileCommand.uploadFile idleDesk (BlobContainerTreeItem sampleRoot "web")
    freshWorld
  = (Returned tt, afterCalls freshWorld [CallShowOpenDialog None]).
Proof.
  apply (uploadFile_without_file_or_name idleDesk
           (BlobContainerTreeItem sampleRoot "web") freshWorld).
  reflexivity.
Defined.

(** X14: for a name that does not exist remotely yet, [uploadFile] asks no
    overwrite question and uploads nothing itself: after the existence test
    it makes the child, once, with the typed name and the picked path, and
    ends as that call ends. *)
Theorem uploadFile_new_name_makes_child (d : Desk) (treeItem : DestTreeItem)
    (w : World) (uri : Uri) (name : string) :
  pickedFile d = Some (uri, name) ->
  existsAnswer d = inr false ->
  UploadFileCommand.uploadFile d treeItem w
  = (match createChildAnswer d with
     | None => Returned tt
     | Some e => Threw e
     end,
     afterCalls (withFolder w uri)
       (pickCalls d w uri
        ++ [existsCall d treeItem name;
            CallCreateChild name (fsPath uri)])%list).
Proof.
  intros Hpick Hexists.
  rewrite (uploadFile_picked d treeItem w uri name Hpick).
  unfold bindC at 1. rewrite (remoteExists_run d treeItem name false _ Hexists).
  unfold bindC at 1, retC at 1. cbv iota.
  unfold bindC, call, answerVoid.
  destruct (createChildAnswer d); unfold throwC, retC; f_equal; same_world.
Qed.

Lemma uploadFile_new_name_makes_child_witness :
  UploadFileCommand.uploadFile sampleDesk
    (BlobContainerTreeItem sampleRoot "web") freshWorld
  = (Returned tt,
     afterCalls
       (withFolder freshWorld
          {| scheme := "file"; fsPath := "/home/user/big.iso" |})
       [CallShowOpenDialog None;
        CallShowInputBox "Enter a name for the uploaded file" "big.iso";
        CallDoesBlobExist (BlobContainerTreeItem sampleRoot "web") "big.iso";
        CallCreateChild "big.iso" "/home/user/big.iso"]).
Proof.
  apply (uploadFile_new_name_makes_child sampleDesk
           (BlobContainerTreeItem sampleRoot "web") freshWorld
           {| scheme := "file"; fsPath := "/home/user/big.iso" |} "big.iso");
    reflexivity.
Defined.

(** X15: when the name exists remotely and the operator dismisses the
    overwrite question, [uploadFile] throws what the prompt threw right
    after the question: the tree is not searched, nothing is uploaded and no
    child is made. *)
Theorem uploadFile_stops_on_declined_overwrite (d : Desk)
    (treeItem : DestTreeItem) (w : World) (uri : Uri) (name : string)
    (e : Thrown) :
  pickedFile d = Some (uri, name) ->
  existsAnswer d = inr true ->
  overwriteAnswer d = Some e ->
  UploadFileCommand.uploadFile d treeItem w
  = (Threw e,
     afterCalls (withFolder w uri)
       (pickCalls d w uri
        ++ [existsCall d treeItem name;
            CallShowWarningMessage (overwriteQuestion name)])%list).
Proof.
  intros Hpick Hexists Hno.
  rewrite (uploadFile_picked d treeItem w uri name Hpick).
  unfold bindC at 1. rewrite (remoteExists_run d treeItem name true _ Hexists).
  unfold bindC, call, answerVoid. rewrite Hno.
  unfold throwC; f_equal; same_world.
Qed.

Lemma uploadFile_stops_on_declined_overwrite_witness :
  UploadFileCommand.uploadFile decliningDesk
    (BlobContainerTreeItem sampleRoot "web") freshWorld
  = (Threw userCancelled,
     afterCalls
       (withFolder freshWorld
          {| scheme := "file"; fsPath := "/home/user/big.iso" |})
       [CallShowOpenDialog None;
        CallShowInputBox "Enter a name for the uploaded file" "big.iso";
        CallDoesBlobExist (BlobContainerTreeItem sampleRoot "web") "big.iso";
        CallShowWarningMessage (overwriteQuestion "big.iso")]).
Proof.
  apply (uploadFile_stops_on_declined_overwrite decliningDesk
           (BlobContainerTreeItem sampleRoot "web") freshWorld
           {| scheme := "file"; fsPath := "/home/user/big.iso" |} "big.iso"
           userCancelled);
    reflexivity.
Defined.

(** X16: when the name exists remotely, the operator lets the overwrite
    go on, the tree item of the file is found, the file can be inspected and
    the upload resolves, [uploadFile] uploads in place, once, asking for
    AzCopy exactly when the file is larger than the limit, records the size
    in the telemetry, makes no child and returns. *)
Theorem uploadFile_overwrites_in_place (d : Desk) (treeItem : DestTreeItem)
    (w : World) (uri : Uri) (name : string) (stats : Stats) :
  pickedFile d = Some (uri, name) ->
  existsAnswer d = inr true ->
  overwriteAnswer d = None ->
  findTreeItemAnswer d = inr true ->
  stat d (fsPath uri) = inr stats ->
  uploadLocalFileAnswer d = None ->
  UploadFileCommand.uploadFile d treeItem w
  = (Returned tt,
     afterCalls
       (withTelemetry (withFolder w uri)
          (sizedTelemetry d (telemetry w) (st_size stats)))
       (pickCalls d w uri
        ++ [existsCall d treeItem name;
            CallShowWarningMessage (overwriteQuestion name);
            CallFindTreeItem (fullIdOf d treeItem ++ "/" ++ name);
            CallUploadLocalFile (fsPath uri) name
              (st_size stats >? maxUploadDownloadSizeBytes d)%Z])%list).
Proof.
  intros Hpick Hexists Hyes Hfound Hstat Hup.
  rewrite (uploadFile_picked d treeItem w uri name Hpick).
  unfold bindC at 1. rewrite (remoteExists_run d treeItem name true _ Hexists).
  unfold bindC, tryCatchC, call, answerVoid, answer, retC, shouldUseAzCopyC,
    shouldUseAzCopy.
  rewrite Hyes, Hfound. cbn [telemetry afterCalls withFolder].
  rewrite Hstat, Hup.
  f_equal; same_world.
Qed.

Lemma uploadFile_overwrites_in_place_witness :
  UploadFileCommand.uploadFile overwritingDesk
    (BlobContainerTreeItem sampleRoot "web") freshWorld
  = (Returned tt,
     afterCalls
       (withTelemetry
          (withFolder freshWorld
             {| scheme := "file"; fsPath := "/home/user/big.iso" |})
          (sizedTelemetry overwritingDesk noTelemetry 5000000))
       [CallShowOpenDialog None;
        CallShowInputBox "Enter a name for the uploaded file" "big.iso";
        CallDoesBlobExist (BlobContainerTreeItem sampleRoot "web") "big.iso";
        CallShowWarningMessage (overwriteQuestion "big.iso");
        CallFindTreeItem "/subscriptions/s/web/big.iso";
        CallUploadLocalFile "/home/user/big.iso" "big.iso" true]).
Proof.
  apply (uploadFile_overwrites_in_place overwritingDesk
           (BlobContainerTreeItem sampleRoot "web") freshWorld
           {| scheme := "file"; fsPath := "/home/user/big.iso" |} "big.iso"
           {| st_size := 5000000; st_isDirectory := false |});
    reflexivity.
Defined.

(** X17: whatever goes wrong in the guarded in-place upload is swallowed.
    When the name exists, the overwrite goes on, and the tree item is not
    found or cannot be searched, or the file cannot be inspected, or the
    in-place upload itself fails, [uploadFile] throws none of these errors:
    it goes on to make the child, as its last call, and ends as that call
    ends. *)
Theorem uploadFile_falls_back_to_child (d : Desk) (treeItem : DestTreeItem)
    (w : World) (uri : Uri) (name : string) :
  pickedFile d = Some (uri, name) ->
  existsAnswer d = inr true ->
  overwriteAnswer d = None ->
  inPlaceSucceeds d (fsPath uri) = false ->
  exists w' before,
    UploadFileCommand.uploadFile d treeItem w
    = (match createChildAnswer d with
       | None => Returned tt
       | Some e => Threw e
       end, w')
    /\ calls w' = (before ++ [CallCreateChild name (fsPath uri)])%list
    /\ engineLog w' = engineLog w
    /\ channel w' = channel w.
Proof.
  intros Hpick Hexists Hyes Hfail.
  rewrite (uploadFile_picked d treeItem w uri name Hpick).
  unfold bindC at 1. rewrite (remoteExists_run d treeItem name true _ Hexists).
  unfold inPlaceSucceeds in Hfail.
  unfold bindC, tryCatchC, call, answerVoid, answer, retC, throwC,
    shouldUseAzCopyC, shouldUseAzCopy.
  rewrite Hyes. cbn [telemetry afterCalls withFolder].
  destruct (findTreeItemAnswer d) as [e1|[|]];
    [| destruct (stat d (fsPath uri)) as [e2|stats];
       [| destruct (uploadLocalFileAnswer d) as [e3|]; [|discriminate] ] |];
    destruct (createChildAnswer d);
    cbn [calls engineLog channel telemetry lastUploadFolder];
    do 2 eexists; (split; [reflexivity|]);
    cbn [calls engineLog channel]; repeat split.
Qed.

Lemma uploadFile_falls_back_to_child_witness :
  exists w' before,
    UploadFileCommand.uploadFile failingUploadDesk
      (BlobContainerTreeItem sampleRoot "web") freshWorld
    = (Returned tt, w')
    /\ calls w' = (before ++ [CallCreateChild "big.iso" "/home/user/big.iso"])%list
    /\ engineLog w' = []
    /\ channel w' = [].
Proof.
  apply (uploadFile_falls_back_to_child failingUploadDesk
           (BlobContainerTreeItem sampleRoot "web") freshWorld
           {| scheme := "file"; fsPath := "/home/user/big.iso" |} "big.iso");
    reflexivity.
Defined.

(* ------------------------------------------------------------------ *)
(** * The command [uploadToAzureStorage] *)

Section UploadToAzureStorage.

Local Open Scope list_scope.

Variables (fuel : nat) (h : Host) (env : UploadEnv) (p : Platform).
Variables (uploadFiles : Uploader) (d : Desk).

(** [uploadToAzureStorage] up to the inspection of the resource. *)
Lemma uploadToAzureStorage_opening (target : option Uri) (path : string)
    (treeItem : DestTreeItem) (destinationPath : string) (w : World) :
  resourceIs d target path ->
  treeItemPickerAnswer d = inr treeItem ->
  destinationPathAnswer d = inr destinationPath ->
  UploadToAzureStorageCommand.uploadToAzureStorage fuel h env p uploadFiles d
    target w
  = (stats <- answer (stat d path) ;;
     if st_isDirectory stats then
       call (CallGetNumFilesInDirectory path) ;;
       uploadSize <- answer (numFilesAnswer d) ;;
       w' <- getWorld ;;
       runUpload
         (uploadFiles fuel h env p treeItem path destinationPath
            (properties (telemetry w')) (newTransferProgress d uploadSize)
            (progressSink d) (progressToken d))
     else
       found <- remoteExists d treeItem destinationPath ;;
       (if found
        then call (CallWarnFileAlreadyExists destinationPath) ;;
             answerVoid (overwriteAnswer d)
        else retC tt) ;;
       useAzCopy <- shouldUseAzCopyC d path ;;
       call (CallUploadLocalFile path destinationPath useAzCopy) ;;
       answerVoid (uploadLocalFileAnswer d))%command
      (afterCalls w (openingCalls d target treeItem path)).
Proof.
  intros Hres Hitem Hdest.
  unfold UploadToAzureStorageCommand.uploadToAzureStorage.
  assert (Hfirst :
    (match target with
     | Some uri =>
         if (scheme uri =? "azurestorage")%string
         then throwC (newError
                        (localize "cannotUploadToAzureFromAzureResource"
                           "Cannot upload to Azure from an Azure resource."))
         else retC (fsPath uri)
     | None =>
         (call (CallSelectWorkspaceItem
                  (localize "selectResourceToUpload"
                     "Select resource to upload")) ;;
          answer (workspaceItemAnswer d))%command
     end) w
    = (Returned path,
       afterCalls w match target with
                    | Some _ => []
                    | None => [CallSelectWorkspaceItem
                                 "Select resource to upload"]
                    end)).
  { destruct target as [uri|]; cbn [resourceIs] in Hres.
    - destruct Hres as [-> ->]. unfold retC, afterCalls; cbn.
      rewrite app_nil_r. now destruct w.
    - unfold bindC, call, answer. now rewrite Hres. }
  unfold bindC at 1. rewrite Hfirst.
  unfold bindC at 1, call at 1. unfold bindC at 1, answer at 1.
  rewrite Hitem. unfold retC at 1.
  unfold bindC at 1.
  destruct treeItem as [root containerName | root shareName];
    unfold bindC at 1, call at 1; unfold bindC at 1, answer at 1;
    rewrite Hdest; unfold retC at 1, retC at 1; cbn [fst snd];
    unfold bindC at 1, call at 1;
    unfold openingCalls, afterCalls;
    cbn [calls engineLog channel telemetry lastUploadFolder];
    rewrite <- !app_assoc; reflexivity.
Qed.

End UploadToAzureStorage.

(** X18: a target of scheme 'azurestorage' is refused at once:
    [uploadToAzureStorage] throws 'Cannot upload to Azure from an Azure
    resource.' before it asks, inspects or uploads anything. *)
Theorem uploadToAzureStorage_refuses_azure_target (fuel : nat) (h : Host)
    (env : UploadEnv) (p : Platform) (uploadFiles : Uploader) (d : Desk)
    (uri : Uri) (w : World) :
  scheme uri = "azurestorage" ->
  UploadToAzureStorageCommand.uploadToAzureStorage fuel h env p uploadFiles d
    (Some uri) w
  = (Threw (newError "Cannot upload to Azure from an Azure resource."), w).
Proof.
  intros Hs. unfold UploadToAzureStorageCommand.uploadToAzureStorage.
  unfold bindC at 1. now rewrite Hs.
Qed.

Lemma uploadToAzureStorage_refuses_azure_target_witness :
  UploadToAzureStorageCommand.uploadToAzureStorage 5 sampleHost
    (scriptedUploadEnv neverCancelled) Posix UploadUtils.uploadFiles
    sampleDesk
    (Some {| scheme := "azurestorage"; fsPath := "/web/index.html" |})
    freshWorld
  = (Threw (newError "Cannot upload to Azure from an Azure resource."),
     freshWorld).
Proof.
  apply (uploadToAzureStorage_refuses_azure_target 5 sampleHost
           (scriptedUploadEnv neverCancelled) Posix UploadUtils.uploadFiles
           sampleDesk
           {| scheme := "azurestorage"; fsPath := "/web/index.html" |}
           freshWorld).
  reflexivity.
Defined.

(** X19: for a folder, [uploadToAzureStorage] asks for the tree item and
    the destination path (and for the resource only when it was given no
    target), counts the files of the folder, and hands over to
    [uploadFiles]: the folder, the destination path, a progress tracker of
    that many files, and the sink and token of the progress dialog. It
    makes no existence test, does not consult [shouldUseAzCopy] (the
    telemetry is untouched), uploads no single file, and ends as
    [uploadFiles] ends. *)
Theorem uploadToAzureStorage_folder_goes_to_uploadFiles (fuel : nat)
    (h : Host) (env : UploadEnv) (p : Platform) (uploadFiles : Uploader)
    (d : Desk) (target : option Uri) (w : World) (path : string)
    (treeItem : DestTreeItem) (destinationPath : string) (stats : Stats)
    (count : Z) :
  resourceIs d target path ->
  treeItemPickerAnswer d = inr treeItem ->
  destinationPathAnswer d = inr destinationPath ->
  stat d path = inr stats ->
  st_isDirectory stats = true ->
  numFilesAnswer d = inr count ->
  let upload :=
    uploadFiles fuel h env p treeItem path destinationPath
      (properties (telemetry w)) (newTransferProgress d count)
      (progressSink d) (progressToken d) (channel w) (engineLog w) in
  UploadToAzureStorageCommand.uploadToAzureStorage fuel h env p uploadFiles d
    target w
  = (forget (fst upload),
     withEngine
       (afterCalls w
          (openingCalls d target treeItem path
           ++ [CallGetNumFilesInDirectory path])%list)
       (snd upload) (linesAfter (fst upload) (channel w))).
Proof.
  intros Hres Hitem Hdest Hstat Hdir Hcount upload. subst upload.
  rewrite (uploadToAzureStorage_opening fuel h env p uploadFiles d target
             path treeItem destinationPath w Hres Hitem Hdest).
  unfold bindC at 1, answer at 1. rewrite Hstat. unfold retC at 1.
  rewrite Hdir.
  unfold bindC at 1, call at 1. unfold bindC at 1, answer at 1.
  rewrite Hcount. unfold retC at 1.
  unfold bindC at 1, getWorld. unfold runUpload.
  cbn [calls engineLog channel telemetry lastUploadFolder afterCalls].
  destruct (uploadFiles _ _ _ _ _ _ _ _ _ _ _ _ _) as [[lines|e|] log];
    cbn [fst snd forget linesAfter]; f_equal; same_world.
Qed.

Lemma uploadToAzureStorage_folder_goes_to_uploadFiles_witness :
  let upload :=
    UploadUtils.uploadFiles 5 sampleHost (scriptedUploadEnv neverCancelled)
      Posix (BlobContainerTreeItem sampleRoot "web") "/home/user/site" "site"
      (fun _ => None) recordingProgress (ProgressSink 0) (Token 0) [] [] in
  UploadToAzureStorageCommand.uploadToAzureStorage 5 sampleHost
    (scriptedUploadEnv neverCancelled) Posix UploadUtils.uploadFiles
    folderDesk None freshWorld
  = (forget (fst upload),
     withEngine
       (afterCalls freshWorld
          [CallSelectWorkspaceItem "Select resource to upload";
           CallShowTreeItemPicker;
           CallGetBlobPath (BlobContainerTreeItem sampleRoot "web") "site";
           CallWithProgress "Uploading to web from /home/user/site";
           CallGetNumFilesInDirectory "/home/user/site"])
       (snd upload) (linesAfter (fst upload) [])).
Proof.
  apply (uploadToAzureStorage_folder_goes_to_uploadFiles 5 sampleHost
           (scriptedUploadEnv neverCancelled) Posix UploadUtils.uploadFiles
           folderDesk None freshWorld "/home/user/site"
           (BlobContainerTreeItem sampleRoot "web") "site"
           {| st_size := 4096; st_isDirectory := true |} 10%Z);
    reflexivity.
Defined.

(** X20: for a single file, [uploadToAzureStorage] tests whether the
    destination exists, warns only when it does, and then uploads the file
    once through the tree item, asking for AzCopy exactly when the file is
    larger than the limit and recording the size in the telemetry. It does
    not drive the engine itself: the engine log and the output channel are
    as they were. It ends as the upload ends. *)
Theorem uploadToAzureStorage_single_file (fuel : nat) (h : Host)
    (env : UploadEnv) (p : Platform) (uploadFiles : Uploader) (d : Desk)
    (target : option Uri) (w : World) (path : string)
    (treeItem : DestTreeItem) (destinationPath : string) (stats : Stats)
    (found : bool) :
  resourceIs d target path ->
  treeItemPickerAnswer d = inr treeItem ->
  destinationPathAnswer d = inr destinationPath ->
  stat d path = inr stats ->
  st_isDirectory stats = false ->
  existsAnswer d = inr found ->
  (found = true -> overwriteAnswer d = None) ->
  UploadToAzureStorageCommand.uploadToAzureStorage fuel h env p uploadFiles d
    target w
  = (match uploadLocalFileAnswer d with
     | None => Returned tt
     | Some e => Threw e
     end,
     afterCalls
       (withTelemetry w (sizedTelemetry d (telemetry w) (st_size stats)))
       (openingCalls d target treeItem path
        ++ existsCall d treeItem destinationPath
        :: (if found then [CallWarnFileAlreadyExists destinationPath]
            else [])
        ++ [CallUploadLocalFile path destinationPath
              (st_size stats >? maxUploadDownloadSizeBytes d)%Z])%list).
Proof.
  intros Hres Hitem Hdest Hstat Hdir Hexists Hwarn.
  rewrite (uploadToAzureStorage_opening fuel h env p uploadFiles d target
             path treeItem destinationPath w Hres Hitem Hdest).
  unfold bindC at 1, answer at 1. rewrite Hstat. unfold retC at 1.
  rewrite Hdir.
  unfold bindC at 1.
  rewrite (remoteExists_run d treeItem destinationPath found _ Hexists).
  unfold bindC, call, answerVoid, retC, throwC, shouldUseAzCopyC,
    shouldUseAzCopy.
  destruct found; [rewrite (Hwarn eq_refl)|];
    cbn [calls engineLog channel telemetry lastUploadFolder afterCalls];
    rewrite Hstat; destruct (uploadLocalFileAnswer d); f_equal; same_world.
Qed.

Lemma uploadToAzureStorage_single_file_witness :
  UploadToAzureStorageCommand.uploadToAzureStorage 5 sampleHost
    (scriptedUploadEnv neverCancelled) Posix UploadUtils.uploadFiles
    overwritingDesk
    (Some {| scheme := "file"; fsPath := "/home/user/big.iso" |}) freshWorld
  = (Returned tt,
     afterCalls
       (withTelemetry freshWorld
          (sizedTelemetry overwritingDesk noTelemetry 5000000))
       [CallShowTreeItemPicker;
        CallGetBlobPath (BlobContainerTreeItem sampleRoot "web") "big.iso";
        CallWithProgress "Uploading to web from /home/user/big.iso";
        CallDoesBlobExist (BlobContainerTreeItem sampleRoot "web") "big.iso";
        CallWarnFileAlreadyExists "big.iso";
        CallUploadLocalFile "/home/user/big.iso" "big.iso" true]).
Proof.
  apply (uploadToAzureStorage_single_file 5 sampleHost
           (scriptedUploadEnv neverCancelled) Posix UploadUtils.uploadFiles
           overwritingDesk
           (Some {| scheme := "file"; fsPath := "/home/user/big.iso" |})
           freshWorld "/home/user/big.iso"
           (BlobContainerTreeItem sampleRoot "web") "big.iso"
           {| st_size := 5000000; st_isDirectory := false |} true);
    try reflexivity.
  split; reflexivity.
Defined.

(** X21: when the destination of a single file exists and the operator
    dismisses the warning, [uploadToAzureStorage] throws what the warning
    threw and uploads nothing: the warning is its last call and
    [shouldUseAzCopy] is not consulted. *)
Theorem uploadToAzureStorage_stops_on_declined_warning (fuel : nat)
    (h : Host) (env : UploadEnv) (p : Platform) (uploadFiles : Uploader)
    (d : Desk) (target : option Uri) (w : World) (path : string)
    (treeItem : DestTreeItem) (destinationPath : string) (stats : Stats)
    (e : Thrown) :
  resourceIs d target path ->
  treeItemPickerAnswer d = inr treeItem ->
  destinationPathAnswer d = inr destinationPath ->
  stat d path = inr stats ->
  st_isDirectory stats = false ->
  existsAnswer d = inr true ->
  overwriteAnswer d = Some e ->
  UploadToAzureStorageCommand.uploadToAzureStorage fuel h env p uploadFiles d
    target w
  = (Threw e,
     afterCalls w
       (openingCalls d target treeItem path
        ++ [existsCall d treeItem destinationPath;
            CallWarnFileAlreadyExists destinationPath])%list).
Proof.
  intros Hres Hitem Hdest Hstat Hdir Hexists Hwarn.
  rewrite (uploadToAzureStorage_opening fuel h env p uploadFiles d target
             path treeItem destinationPath w Hres Hitem Hdest).
  unfold bindC at 1, answer at 1. rewrite Hstat. unfold retC at 1.
  rewrite Hdir.
  unfold bindC at 1.
  rewrite (remoteExists_run d treeItem destinationPath true _ Hexists).
  unfold bindC, call, answerVoid, throwC. rewrite Hwarn.
  f_equal; same_world.
Qed.

Lemma uploadToAzureStorage_stops_on_declined_warning_witness :
  UploadToAzureStorageCommand.uploadToAzureStorage 5 sampleHost
    (scriptedUploadEnv neverCancelled) Posix UploadUtils.uploadFiles
    decliningDesk
    (Some {| scheme := "file"; fsPath := "/home/user/big.iso" |}) freshWorld
  = (Threw userCancelled,
     afterCalls freshWorld
       [CallShowTreeItemPicker;
        CallGetBlobPath (BlobContainerTreeItem sampleRoot "web") "big.iso";
        CallWithProgress "Uploading to web from /home/user/big.iso";
        CallDoesBlobExist (BlobContainerTreeItem sampleRoot "web") "big.iso";
        CallWarnFileAlreadyExists "big.iso"]).
Proof.
  apply (uploadToAzureStorage_stops_on_declined_warning 5 sampleHost
           (scriptedUploadEnv neverCancelled) Posix UploadUtils.uploadFiles
           decliningDesk
           (Some {| scheme := "file"; fsPath := "/home/user/big.iso" |})
           freshWorld "/home/user/big.iso"
           (BlobContainerTreeItem sampleRoot "web") "big.iso"
           {| st_size := 5000000; st_isDirectory := false |} userCancelled);
    try reflexivity.
  split; reflexivity.
Defined.
